(** * cozy-quarters: the price estimator, the prediction client and the
      fallback policy of the house-price form

    A shallow embedding of [src/utils/prediction.ts], [src/utils/api.ts], of
    the status check and [handleFormSubmit] of the index page, and of the
    neighborhood loading and [handleChange] of the form.

    Conventions of the embedding.
    - The arithmetic of the estimator is embedded twice. [Binary64] is
      [predictPrice] as the platform computes it, on the kernel's binary64
      numbers, with their rounding, infinities, signed zeros and [NaN]: the
      statements about the value of an estimate are made there. [number] is
      [NaN] or an exact rational: it carries the statements that do not
      depend on rounding (which factor is applied, where [NaN] comes from)
      and the state of the page.
    - [Math.random()] is an explicit argument [r], the value drawn by the call.
    - [fetch], [JSON.parse] and [Intl.NumberFormat] belong to the platform and
      are arguments of the operations that use them; the locale and the
      options [formatPrice] constructs its formatter with are passed to it.
    - An [async] function is run to completion from a state of the world (the
      console, the requests sent, the state of the page): it returns a value
      or throws, and leaves a new state. *)

From Stdlib Require Import QArith Qround Qabs Qpower Lqa ZArith Floats.
From stdpp Require Import base strings list gmap pretty.

Open Scope Q_scope.

(** ** Numbers, read exactly

    [NaN], or a rational on which [+], [-] and [*] are exact. This reading
    decides which factor [predictPrice] applies and where [NaN] comes from,
    and it is the number the page holds; what depends on the rounding of the
    operations is stated on [float], in [Binary64] below. *)

Inductive number : Type :=
  | NaN
  | Num (q : Q).

Definition lift2 (f : Q -> Q -> Q) (x y : number) : number :=
  match x, y with
  | Num p, Num q => Num (f p q)
  | _, _ => NaN
  end.

Definition nadd : number -> number -> number := lift2 Qplus.
Definition nsub : number -> number -> number := lift2 Qminus.
Definition nmul : number -> number -> number := lift2 Qmult.

Declare Scope number_scope.
Delimit Scope number_scope with num.
Bind Scope number_scope with number.
Infix "+" := nadd : number_scope.
Infix "-" := nsub : number_scope.
Infix "*" := nmul : number_scope.

(** Two numbers are the same value: both [NaN], or equal rationals. *)
Definition number_eq (x y : number) : Prop :=
  match x, y with
  | NaN, NaN => True
  | Num p, Num q => p == q
  | _, _ => False
  end.

#[export] Instance number_equiv : Equiv number := number_eq.

(** [isNaN] on a value of type [number]. *)
Definition isNaN (x : number) : bool :=
  match x with
  | NaN => true
  | Num _ => false
  end.

(** [Math.round]: the nearest integer, a tie going up. *)
Definition round_half_up (q : Q) : Z := Qfloor (q + (1 # 2)).

Definition Math_round (x : number) : number :=
  match x with
  | NaN => NaN
  | Num q => Num (inject_Z (round_half_up q))
  end.

(** ** Reading the factor table

    [o[k]] on an object literal whose own properties are numbers yields the
    own property when there is one, else the member of [Object.prototype] of
    that name when there is one (a built-in function, or the prototype
    itself for [__proto__]), else [undefined]. *)

Inductive member : Type :=
  | MNumber (n : number)
  | MBuiltin
  | MUndefined.

Definition Object_prototype : list string :=
  [ "constructor"; "hasOwnProperty"; "isPrototypeOf"; "propertyIsEnumerable";
    "toLocaleString"; "toString"; "valueOf"; "__proto__";
    "__defineGetter__"; "__defineSetter__"; "__lookupGetter__";
    "__lookupSetter__" ]%string.

Definition inherited (k : string) : bool :=
  bool_decide (k ∈ Object_prototype).

Definition get (o : gmap string Q) (k : string) : member :=
  match o !! k with
  | Some q => MNumber (Num q)
  | None => if inherited k then MBuiltin else MUndefined
  end.

Definition member_truthy (v : member) : bool :=
  match v with
  | MNumber NaN => false
  | MNumber (Num q) => negb (Qeq_bool q 0)
  | MBuiltin => true
  | MUndefined => false
  end.

(** [a || b] *)
Definition or_else (a b : member) : member := if member_truthy a then a else b.

(** The conversion [*] applies to its operand: a function or a plain object
    converts to [NaN], and so does [undefined]. *)
Definition ToNumber (v : member) : number :=
  match v with
  | MNumber n => n
  | MBuiltin => NaN
  | MUndefined => NaN
  end.

(** ** The house record *)

(** Modelled from the spec: the interface [HouseData] of [data/modelData],
    which is imported by every source file and declared in none of them; its
    ten fields are those [predictPriceFromAPI] copies into the request. *)
Record HouseData : Type := {
  squareFootage : number;
  bedrooms : number;
  bathrooms : number;
  yearBuilt : number;
  neighborhood : string;
  lotSize : number;
  garage : number;
  basement : bool;
  centralAir : bool;
  kitchenQuality : number
}.

(** ** The local estimator: [predictPrice] *)

Definition BASE_PRICE : number := Num 150000.
Definition PRICE_PER_SQFT : number := Num 100.
Definition BEDROOM_VALUE : number := Num 15000.
Definition BATHROOM_VALUE : number := Num 20000.
Definition YEAR_MULTIPLIER : number := Num 500.
Definition BASE_YEAR : number := Num 1950.
Definition LOT_SIZE_VALUE : number := Num 100000.
Definition GARAGE_VALUE : number := Num 10000.
Definition BASEMENT_VALUE : number := Num 20000.
Definition CENTRAL_AIR_VALUE : number := Num 15000.
Definition KITCHEN_QUALITY_MULTIPLIER : number := Num 10000.

Definition neighborhoodFactors : gmap string Q :=
  list_to_map
    [ ("Downtown", 1.2); ("Suburban Heights", 1.1); ("Riverside", 1.15);
      ("West End", 0.95); ("North Hills", 1.05); ("Oak Park", 1.0);
      ("Maplewood", 0.9); ("Cedar Ridge", 1.1); ("Brookside", 1.05);
      ("Highland Park", 1.2) ]%string.

(** [neighborhoodFactors[data.neighborhood] || 1.0] *)
Definition neighborhoodFactor (data : HouseData) : member :=
  or_else (get neighborhoodFactors (neighborhood data)) (MNumber (Num 1.0)).

(** The sum of the ten components, before any factor is applied. *)
Definition componentSum (data : HouseData) : number :=
  let sqftValue := (squareFootage data * PRICE_PER_SQFT)%num in
  let bedroomValue := (bedrooms data * BEDROOM_VALUE)%num in
  let bathroomValue := (bathrooms data * BATHROOM_VALUE)%num in
  let yearValue := ((yearBuilt data - BASE_YEAR) * YEAR_MULTIPLIER)%num in
  let lotSizeValue := (lotSize data * LOT_SIZE_VALUE)%num in
  let garageValue := (garage data * GARAGE_VALUE)%num in
  let basementValue := if basement data then BASEMENT_VALUE else Num 0 in
  let centralAirValue := if centralAir data then CENTRAL_AIR_VALUE else Num 0 in
  let kitchenQualityValue :=
    ((kitchenQuality data - Num 1) * KITCHEN_QUALITY_MULTIPLIER)%num in
  (BASE_PRICE + sqftValue + bedroomValue + bathroomValue +
   yearValue + lotSizeValue + garageValue +
   basementValue + centralAirValue + kitchenQualityValue)%num.

(** [0.95 + Math.random() * 0.1], for the draw [r]. *)
Definition marketVariation (r : Q) : number :=
  (Num 0.95 + Num r * Num 0.1)%num.

(** The price before [Math.round]. *)
Definition unroundedPrice (data : HouseData) (r : Q) : number :=
  let predictedPrice := componentSum data in
  let predictedPrice := (predictedPrice * ToNumber (neighborhoodFactor data))%num in
  (predictedPrice * marketVariation r)%num.

Definition predictPrice (data : HouseData) (r : Q) : number :=
  Math_round (unroundedPrice data r).

(** ** The vocabulary of the statements *)

(** The deterministic part of the price: the subtotal times the factor. *)
Definition deterministicValue (data : HouseData) : number :=
  (componentSum data * ToNumber (neighborhoodFactor data))%num.

(** [x] and [y] are numbers, at most [tol] apart. *)
Definition differ_by_at_most (tol : Q) (x y : number) : Prop :=
  match x, y with
  | Num p, Num q => Qabs (p - q) <= tol
  | _, _ => False
  end.

(** The record with another neighborhood. *)
Definition in_neighborhood (k : string) (d : HouseData) : HouseData :=
  {| squareFootage := squareFootage d; bedrooms := bedrooms d;
     bathrooms := bathrooms d; yearBuilt := yearBuilt d;
     neighborhood := k;
     lotSize := lotSize d; garage := garage d; basement := basement d;
     centralAir := centralAir d; kitchenQuality := kitchenQuality d |}.

(** *** Valid records

    The constraints the specification puts on a record; [currentYear] is the
    year the form is filled in. *)

Definition is_positive (n : number) : bool :=
  match n with
  | Num q => negb (Qle_bool q 0)
  | NaN => false
  end.

Definition is_integer (n : number) : bool :=
  match n with
  | Num q => Qeq_bool q (inject_Z (Qfloor q))
  | NaN => false
  end.

Definition is_between (lo hi : Q) (n : number) : bool :=
  match n with
  | Num q => Qle_bool lo q && Qle_bool q hi
  | NaN => false
  end.

Definition is_at_least (lo : Q) (n : number) : bool :=
  match n with
  | Num q => Qle_bool lo q
  | NaN => false
  end.

Definition validHouseData (currentYear : Z) (d : HouseData) : bool :=
  is_positive (squareFootage d)
  && is_positive (bathrooms d)
  && is_positive (lotSize d)
  && (is_positive (bedrooms d) && is_integer (bedrooms d))
  && (is_at_least 0 (garage d) && is_integer (garage d))
  && is_between 1900 (inject_Z currentYear) (yearBuilt d)
  && (is_integer (kitchenQuality d) && is_between 1 5 (kitchenQuality d)).

(** A number that is a non-negative integer. *)
Definition nonneg_integer (n : number) : Prop :=
  exists z : Z, n = Num (inject_Z z) /\ (0 <= z)%Z.

(** The record of the worked example. *)
Definition oakParkExample : HouseData := {|
  squareFootage := Num 2000;
  bedrooms := Num 3;
  bathrooms := Num 2;
  yearBuilt := Num 2000;
  neighborhood := "Oak Park";
  lotSize := Num 0.5;
  garage := Num 2;
  basement := true;
  centralAir := true;
  kitchenQuality := Num 3
|}.

(** ** Values *)

(** The values a parsed JSON body is made of, and [undefined]. *)
#[warnings="-register-all"]
Inductive value : Type :=
  | VUndefined
  | VNull
  | VBool (b : bool)
  | VNumber (n : number)
  | VString (s : string)
  | VArray (items : list value)
  | VObject (props : list (string * value)).

Definition truthy (v : value) : bool :=
  match v with
  | VUndefined | VNull => false
  | VBool b => b
  | VNumber NaN => false
  | VNumber (Num q) => negb (Qeq_bool q 0)
  | VString s => negb (String.eqb s "")
  | VArray _ | VObject _ => true
  end.

(** [v === null] *)
Definition is_null (v : value) : bool :=
  match v with
  | VNull => true
  | _ => false
  end.

Fixpoint assoc (k : string) (props : list (string * value)) : option value :=
  match props with
  | [] => None
  | (k', v) :: rest => if String.eqb k k' then Some v else assoc k rest
  end.

(** [haystack.includes(needle)] *)
Fixpoint includes (needle haystack : string) : bool :=
  String.prefix needle haystack ||
  match haystack with
  | EmptyString => false
  | String _ rest => includes needle rest
  end.

(** ** Errors *)

(** What an [Error] was built from. *)
Inductive message : Type :=
  | FromBody (v : value)
  | StatusCheckFailed (status : Z)
  | RequestFailed (status : Z)
  | HttpError (status : Z)
  | InvalidContentType (contentType : option string).

Inductive error : Type :=
  | TypeError
  | SyntaxError
  | Error (m : message).

Inductive outcome (A : Type) : Type :=
  | Returned (a : A)
  | Thrown (e : error).
Arguments Returned {A} a.
Arguments Thrown {A} e.

(** ** The transport *)

(** The second argument of [fetch]; a field the call leaves out is [None]. *)
Record RequestInit : Type := {
  method : option string;
  headers : list (string * string);
  body : option string;
  mode : option string;
  credentials : option string
}.

(** A call of [fetch]: the URL and the options. *)
Definition Request : Type := string * option RequestInit.

(** A response: [text] is [None] when reading the body fails, and
    [contentType] is [headers.get('content-type')]. *)
Record Response : Type := {
  status : Z;
  statusText : string;
  contentType : option string;
  text : option string
}.

(** [response.ok] *)
Definition ok (response : Response) : bool :=
  (200 <=? status response)%Z && (status response <=? 299)%Z.

(** What the promise of [fetch] settles to: it rejects when no response is
    obtained, and is fulfilled by a response of any status. *)
Inductive FetchResult : Type :=
  | Rejected
  | Fulfilled (response : Response).

(** ** The page and its surroundings *)

Inductive level : Type := Log | Warn | Err.

Definition line : Type := level * string.

Record Toast : Type := {
  title : string;
  description : string;
  variant : string
}.

Module modelStatus.
Record t : Type := {
  isAvailable : value;
  isLoading : bool;
  error : option string
}.
End modelStatus.

(** What the operations read and change: the console, the requests sent so
    far, and the state of the index page. *)
Record World : Type := {
  console : list line;
  requests : list Request;
  innerWidth : Z;
  predictedPrice : value;
  isLoading : bool;
  modelStatus : modelStatus.t;
  toasts : list Toast;
  scrolls : nat
}.

Definition M (A : Type) : Type := World -> World * outcome A.

#[export] Instance M_ret : MRet M := λ A a w, (w, Returned a).

#[export] Instance M_bind : MBind M := λ A B f m w,
  match m w with
  | (w', Returned a) => f a w'
  | (w', Thrown e) => (w', Thrown e)
  end.

Definition throw {A : Type} (e : error) : M A := λ w, (w, Thrown e).

(** [try { m } catch (e) { h e }] *)
Definition try_catch {A : Type} (m : M A) (h : error -> M A) : M A := λ w,
  match m w with
  | (w', Thrown e) => h e w'
  | (w', Returned a) => (w', Returned a)
  end.

(** [try { m } finally { f }] *)
Definition try_finally {A : Type} (m : M A) (f : M unit) : M A := λ w,
  match m w with
  | (w', o) =>
      match f w' with
      | (w'', Returned _) => (w'', o)
      | (w'', Thrown e) => (w'', Thrown e)
      end
  end.

Definition modify (f : World -> World) : M unit := λ w, (f w, Returned tt).

Definition read {A : Type} (f : World -> A) : M A := λ w, (w, Returned (f w)).

Definition write_line (l : line) (w : World) : World :=
  {| console := console w ++ [l]; requests := requests w;
     innerWidth := innerWidth w; predictedPrice := predictedPrice w;
     isLoading := isLoading w; modelStatus := modelStatus w;
     toasts := toasts w; scrolls := scrolls w |}.

Definition record_request (q : Request) (w : World) : World :=
  {| console := console w; requests := requests w ++ [q];
     innerWidth := innerWidth w; predictedPrice := predictedPrice w;
     isLoading := isLoading w; modelStatus := modelStatus w;
     toasts := toasts w; scrolls := scrolls w |}.

Definition console_log (label : string) : M unit := modify (write_line (Log, label)).
Definition console_warn (label : string) : M unit := modify (write_line (Warn, label)).
Definition console_error (label : string) : M unit := modify (write_line (Err, label)).

(** [v.k] for a name [k] that no built-in prototype defines: [None] stands
    for the [TypeError] of reading from [null] or [undefined], an object
    yields its own property, and every other miss is [undefined]. *)
Definition property (v : value) (k : string) : option value :=
  match v with
  | VUndefined | VNull => None
  | VObject props => Some (default VUndefined (assoc k props))
  | _ => Some VUndefined
  end.

Definition field (v : value) (k : string) : M value :=
  match property v k with
  | Some x => mret x
  | None => throw TypeError
  end.

(** Whether a computation started in [w] throws. *)
Definition throws {A : Type} (m : M A) (w : World) : Prop :=
  match (m w).2 with
  | Thrown _ => True
  | Returned _ => False
  end.

(** The value a computation started in [w] returns, if it returns. *)
Definition result {A : Type} (m : M A) (w : World) : option A :=
  match (m w).2 with
  | Returned a => Some a
  | Thrown _ => None
  end.

Definition with_predictedPrice (v : value) (w : World) : World :=
  {| console := console w; requests := requests w;
     innerWidth := innerWidth w; predictedPrice := v;
     isLoading := isLoading w; modelStatus := modelStatus w;
     toasts := toasts w; scrolls := scrolls w |}.

Definition with_isLoading (b : bool) (w : World) : World :=
  {| console := console w; requests := requests w;
     innerWidth := innerWidth w; predictedPrice := predictedPrice w;
     isLoading := b; modelStatus := modelStatus w;
     toasts := toasts w; scrolls := scrolls w |}.

Definition with_modelStatus (s : modelStatus.t) (w : World) : World :=
  {| console := console w; requests := requests w;
     innerWidth := innerWidth w; predictedPrice := predictedPrice w;
     isLoading := isLoading w; modelStatus := s;
     toasts := toasts w; scrolls := scrolls w |}.

Definition with_toast (t : Toast) (w : World) : World :=
  {| console := console w; requests := requests w;
     innerWidth := innerWidth w; predictedPrice := predictedPrice w;
     isLoading := isLoading w; modelStatus := modelStatus w;
     toasts := toasts w ++ [t]; scrolls := scrolls w |}.

Definition with_scroll (w : World) : World :=
  {| console := console w; requests := requests w;
     innerWidth := innerWidth w; predictedPrice := predictedPrice w;
     isLoading := isLoading w; modelStatus := modelStatus w;
     toasts := toasts w; scrolls := S (scrolls w) |}.

Definition setPredictedPrice (v : value) : M unit := modify (with_predictedPrice v).
Definition setIsLoading (b : bool) : M unit := modify (with_isLoading b).
Definition setModelStatus (s : modelStatus.t) : M unit := modify (with_modelStatus s).
Definition toast (t : Toast) : M unit := modify (with_toast t).
(** [setTimeout] of the scroll into view. *)
Definition scheduleScroll : M unit := modify with_scroll.

(** ** The prediction client *)

Definition API_URL : string := "http://localhost:5000".

(** The record [checkModelStatus] answers with when the request fails. *)
Definition untrained : value :=
  VObject [("trained", VBool false); ("modelPath", VNull)]%string.

(** The object literal [predictPriceFromAPI] serialises. *)
Definition requestObject (data : HouseData) : value :=
  VObject
    [ ("squareFootage", VNumber (squareFootage data));
      ("bedrooms", VNumber (bedrooms data));
      ("bathrooms", VNumber (bathrooms data));
      ("yearBuilt", VNumber (yearBuilt data));
      ("neighborhood", VString (neighborhood data));
      ("lotSize", VNumber (lotSize data));
      ("garage", VNumber (garage data));
      ("basement", VBool (basement data));
      ("centralAir", VBool (centralAir data));
      ("kitchenQuality", VNumber (kitchenQuality data)) ]%string.

(** The options of the request [checkModelStatus] and [checkAPIHealth]
    send. *)
Definition statusOptions : RequestInit :=
  {| method := Some "GET"%string;
     headers := [("Accept", "application/json")]%string;
     body := None;
     mode := Some "cors"%string;
     credentials := None |}.

Definition statusRequest : Request :=
  (API_URL +:+ "/api/model/status", Some statusOptions).

(** [contentType?.includes('application/json')] *)
Definition is_json (contentType : option string) : bool :=
  from_option (includes "application/json") false contentType.

Section Platform.

(** What the network answers to a call of [fetch]. *)
Variable network : Request -> FetchResult.
(** [JSON.parse]: [None] stands for a [SyntaxError]. *)
Variable JSON_parse : string -> option value.
Variable JSON_stringify : value -> string.

(** The options of the request [predictPriceFromAPI] sends. *)
Definition predictOptions (data : HouseData) : RequestInit :=
  {| method := Some "POST"%string;
     headers := [("Content-Type", "application/json");
                 ("Accept", "application/json")]%string;
     body := Some (JSON_stringify (requestObject data));
     mode := Some "cors"%string;
     credentials := Some "same-origin"%string |}.

Definition predictRequest (data : HouseData) : Request :=
  (API_URL +:+ "/api/predict", Some (predictOptions data)).

Definition fetch (url : string) (options : option RequestInit) : M Response :=
  modify (record_request (url, options));;
  match network (url, options) with
  | Rejected => throw TypeError
  | Fulfilled response => mret response
  end.

(** [JSON.parse(text)] *)
Definition parse (t : string) : M value :=
  match JSON_parse t with
  | Some v => mret v
  | None => throw SyntaxError
  end.

(** [response.text()] *)
Definition response_text (response : Response) : M string :=
  match text response with
  | Some t => mret t
  | None => throw TypeError
  end.

(** [response.json()] *)
Definition response_json (response : Response) : M value :=
  t ← response_text response; parse t.

Definition checkModelStatus : M value :=
  try_catch
    (response ← fetch (API_URL +:+ "/api/model/status") (Some statusOptions);
     (if negb (ok response)
      then throw (Error (StatusCheckFailed (status response)))
      else mret tt);;
     response_json response)
    (λ error,
       console_error "Error checking model status:";;
       mret untrained).

Definition predictPriceFromAPI (data : HouseData) : M value :=
  try_catch
    (console_log "Sending data to backend:";;
     response ← fetch (API_URL +:+ "/api/predict") (Some (predictOptions data));
     (if negb (ok response)
      then
        errorData ← try_catch (response_json response) (λ _, mret (VObject []));
        console_error "API Error:";;
        e ← field errorData "error";
        throw (Error (if truthy e then FromBody e
                      else RequestFailed (status response)))
      else mret tt);;
     result ← response_json response;
     console_log "Received prediction:";;
     field result "prediction")
    (λ error,
       console_error "Error in predictPriceFromAPI:";;
       mret VNull).

Definition checkAPIHealth : M bool :=
  try_catch
    (response ← fetch (API_URL +:+ "/api/model/status") (Some statusOptions);
     mret (ok response))
    (λ error,
       console_error "API health check failed:";;
       mret false).

Definition fetchWithHandling (url : string) (options : option RequestInit)
  : M value :=
  try_catch
    (response ← fetch url options;
     (if negb (ok response)
      then
        errorData ← try_catch
          (t ← response_text response;
           console_error "❌ API Error Response (Text):";;
           parse t)
          (λ _, mret (VObject [("message", VString "Non-JSON error response")]));
        m ← field errorData "message";
        throw (Error (if truthy m then FromBody m
                      else HttpError (status response)))
      else mret tt);;
     let contentType := contentType response in
     (if negb (is_json contentType)
      then throw (Error (InvalidContentType contentType))
      else mret tt);;
     result ← response_json response;
     console_log ("✅ API Success Response for " +:+ url +:+ ":");;
     mret result)
    (λ error,
       console_error ("❌ API request failed for " +:+ url +:+ ":");;
       throw error).

End Platform.

(** The parsed body of a successful exchange: the request is answered, the
    status is a success status, the body can be read and it parses. *)
Definition parsed_body (JSON_parse : string -> option value) (answer : FetchResult)
  : option value :=
  match answer with
  | Rejected => None
  | Fulfilled response =>
      if ok response then text response ≫= JSON_parse else None
  end.

(** The error [fetchWithHandling] builds from a response whose status is not
    a success status. *)
Definition http_failure (JSON_parse : string -> option value) (response : Response)
  : error :=
  let errorData :=
    default (VObject [("message", VString "Non-JSON error response")]%string)
            (text response ≫= JSON_parse) in
  match property errorData "message" with
  | Some m => Error (if truthy m then FromBody m else HttpError (status response))
  | None => TypeError
  end.

(** ** [formatPrice] *)

(** The options of an [Intl.NumberFormat] that [formatPrice] sets. *)
Record NumberFormatOptions : Type := {
  style : string;
  currency : string;
  minimumFractionDigits : nat;
  maximumFractionDigits : nat
}.

Section Format.

(** [new Intl.NumberFormat(locales, options).format(x)] *)
Variable Intl_NumberFormat_format : string -> NumberFormatOptions -> float -> string.

Definition formatPrice (price : float) : M string :=
  if is_nan price
  then
    console_warn "Attempted to format non-numeric price:";;
    mret "$0"%string
  else
    mret (Intl_NumberFormat_format "en-US"
            {| style := "currency";
               currency := "USD";
               minimumFractionDigits := 0;
               maximumFractionDigits := 0 |}
            price).

End Format.

(** ** The index page *)

(** The toast [handleFormSubmit] shows for a prediction from [source]. *)
Definition predictionToast (source : string) : Toast :=
  {| title := if String.eqb source "API"
              then "ML Model Prediction"
              else "Fallback Prediction";
     description := if String.eqb source "API"
                    then "Prediction from trained machine learning model"
                    else "Using simplified calculation as fallback";
     variant := if String.eqb source "API" then "default" else "destructive" |}.

Section Index.

(** The operation the page imports as [predictPriceFromAPI]. *)
Variable remote : HouseData -> M value.
(** The number [Math.random()] yields if [predictPrice] is called. *)
Variable r : Q.

Definition scrollToResults : M unit :=
  width ← read innerWidth;
  if (width <? 768)%Z then scheduleScroll else mret tt.

(** The block of [handleFormSubmit] that settles [price] and [source]. *)
Definition priceAndSource (data : HouseData) : M (value * string) :=
  let price := VNull in
  let source := ""%string in
  available ← read (λ w, modelStatus.isAvailable (modelStatus w));
  '(price, source) ←
    (if truthy available
     then
       try_catch
         (price ← remote data;
          mret (price, "API"%string))
         (λ apiError,
            console_warn "API prediction failed, falling back:";;
            mret (price, source))
     else mret (price, source));
  if is_null price
  then mret (VNumber (predictPrice data r), "fallback"%string)
  else mret (price, source).

Definition handleFormSubmitWith (data : HouseData) : M unit :=
  setIsLoading true;;
  setPredictedPrice VNull;;
  try_finally
    (try_catch
       ('(price, source) ← priceAndSource data;
        setPredictedPrice price;;
        toast (predictionToast source);;
        scrollToResults)
       (λ error,
          console_error "Prediction failed:";;
          toast {| title := "Prediction Error";
                   description := "An unexpected error occurred";
                   variant := "destructive" |}))
    (setIsLoading false).

End Index.

Section Page.

Variable network : Request -> FetchResult.
Variable JSON_parse : string -> option value.
Variable JSON_stringify : value -> string.

(** The effect run when the page is mounted. *)
Definition checkBackendStatus : M unit :=
  try_catch
    (status ← checkModelStatus network JSON_parse;
     trained ← field status "trained";
     setModelStatus {| modelStatus.isAvailable := trained;
                       modelStatus.isLoading := false;
                       modelStatus.error := None |};;
     if negb (truthy trained)
     then toast {| title := "Backend Model Not Ready";
                   description := "Using simplified prediction model";
                   variant := "default" |}
     else mret tt)
    (λ error,
       console_error "Failed to check model status:";;
       setModelStatus {| modelStatus.isAvailable := VBool false;
                         modelStatus.isLoading := false;
                         modelStatus.error := Some "Failed to connect to backend"%string |}).

Definition handleFormSubmit (r : Q) (data : HouseData) : M unit :=
  handleFormSubmitWith (predictPriceFromAPI network JSON_parse JSON_stringify) r data.

End Page.

(** The worked example, in a neighborhood named like a member of
    [Object.prototype]. *)
Definition constructorExample : HouseData :=
  in_neighborhood "constructor" oakParkExample.




(** The page as it is first rendered, in a window 1024 pixels wide. *)
Definition initialWorld : World :=
  {| console := [];
     requests := [];
     innerWidth := 1024;
     predictedPrice := VNull;
     isLoading := false;
     modelStatus := {| modelStatus.isAvailable := VNull;
                       modelStatus.isLoading := true;
                       modelStatus.error := None |};
     toasts := [];
     scrolls := 0 |}.

(** A network that cannot be reached, and one that answers every request
    with the given status and body. *)
Definition unreachable : Request -> FetchResult := λ _, Rejected.

Definition answering (code : Z) (contentType : option string) (t : string)
  : Request -> FetchResult :=
  λ _, Fulfilled {| status := code; statusText := ""; contentType := contentType;
                    text := Some t |}.



(** A parser that reads every body as [{prediction: 412000}]. *)
Definition parse_prediction : string -> option value :=
  λ _, Some (VObject [("prediction"%string, VNumber (Num 412000))]).

(** ** Binary64 numbers

    The kernel's [float] is the binary64 number of IEEE 754, the [number] of
    JavaScript; [Prim2SF] gives its sign, mantissa and exponent. A finite
    number stands for a rational, [F2Q]; the specification of the
    operations, [SpecFloat], rounds their exact result to the nearest
    binary64 number, a tie going to the even mantissa. *)

(** The exponent of the binary64 numbers of magnitude below [2^e]. *)
Definition fexp64 (e : Z) : Z := Z.max (e - 53) (-1074).

(** The invariant of the shifts: [X] is [m * 2^k + rem], the round bit says
    whether [rem] is at least half of [2^k], and a clear sticky bit says that
    [rem] is nothing or exactly half. *)
Definition shr_inv (k X : Z) (mrs : shr_record) : Prop :=
  exists rem : Z,
    (X = shr_m mrs * 2 ^ k + rem /\ 0 <= shr_m mrs /\ 0 <= rem < 2 ^ k /\
     (if shr_r mrs then 2 ^ k <= 2 * rem else 2 * rem < 2 ^ k) /\
     (shr_s mrs = false -> 2 * rem = if shr_r mrs then 2 ^ k else 0))%Z.

(** [2^e], for any integer [e]. *)
Definition pow2 (e : Z) : Q := Qpower 2 e.

(** The rational a finite number stands for; 0 for the others. *)
Definition SF2Q (x : spec_float) : Q :=
  match x with
  | S754_finite s m e => inject_Z (cond_Zopp s (Zpos m)) * pow2 e
  | _ => 0
  end.

(** Neither infinite nor [NaN]. *)
Definition SFfinite (x : spec_float) : bool :=
  match x with
  | S754_finite _ _ _ | S754_zero _ => true
  | _ => false
  end.

(** The relative error of one rounding, and half the distance between the
    smallest numbers. *)
Definition unit_roundoff : Q := pow2 (-53).
Definition underflow : Q := pow2 (-1075).

(** The value a sign, a mantissa and an exponent stand for. *)
Definition SFvalue (s : bool) (m : Z) (e : Z) : Q :=
  inject_Z (cond_Zopp s m) * pow2 e.

(** The same on [float]. *)
Definition F2Q (x : float) : Q := SF2Q (Prim2SF x).
Definition finite (x : float) : bool := SFfinite (Prim2SF x).

(** ** [predictPrice] in binary64

    The estimator as the platform runs it: every field and constant a
    binary64 number, every [+], [-] and [*] the rounded operation;
    [Math.random()] is the argument [r]. *)
Module Binary64.

(** The record of [HouseData], its numbers binary64. *)
Record HouseData : Type := {
  squareFootage : float;
  bedrooms : float;
  bathrooms : float;
  yearBuilt : float;
  neighborhood : string;
  lotSize : float;
  garage : float;
  basement : bool;
  centralAir : bool;
  kitchenQuality : float
}.

(** What [o[k]] yields on the factor table: an own property, a member of
    [Object.prototype], or [undefined]. *)
Inductive member : Type :=
  | MNumber (x : float)
  | MBuiltin
  | MUndefined.

Definition get (o : gmap string float) (k : string) : member :=
  match o !! k with
  | Some x => MNumber x
  | None => if inherited k then MBuiltin else MUndefined
  end.

(** A number is falsy when it is [0], [-0] or [NaN]. *)
Definition member_truthy (v : member) : bool :=
  match v with
  | MNumber x => negb (is_nan x) && negb (x =? 0)%float
  | MBuiltin => true
  | MUndefined => false
  end.

(** [a || b] *)
Definition or_else (a b : member) : member := if member_truthy a then a else b.

(** The conversion [*] applies to its operand. *)
Definition ToNumber (v : member) : float :=
  match v with
  | MNumber x => x
  | MBuiltin => nan
  | MUndefined => nan
  end.

Definition BASE_PRICE : float := 150000.
Definition PRICE_PER_SQFT : float := 100.
Definition BEDROOM_VALUE : float := 15000.
Definition BATHROOM_VALUE : float := 20000.
Definition YEAR_MULTIPLIER : float := 500.
Definition BASE_YEAR : float := 1950.
Definition LOT_SIZE_VALUE : float := 100000.
Definition GARAGE_VALUE : float := 10000.
Definition BASEMENT_VALUE : float := 20000.
Definition CENTRAL_AIR_VALUE : float := 15000.
Definition KITCHEN_QUALITY_MULTIPLIER : float := 10000.

#[warnings="-inexact-float"]
Definition neighborhoodFactors : gmap string float :=
  list_to_map
    [ ("Downtown", 1.2); ("Suburban Heights", 1.1); ("Riverside", 1.15);
      ("West End", 0.95); ("North Hills", 1.05); ("Oak Park", 1.0);
      ("Maplewood", 0.9); ("Cedar Ridge", 1.1); ("Brookside", 1.05);
      ("Highland Park", 1.2) ]%float.

(** [neighborhoodFactors[data.neighborhood] || 1.0] *)
Definition neighborhoodFactor (data : HouseData) : member :=
  or_else (get neighborhoodFactors (neighborhood data)) (MNumber 1.0).

Definition componentSum (data : HouseData) : float :=
  let sqftValue := (squareFootage data * PRICE_PER_SQFT)%float in
  let bedroomValue := (bedrooms data * BEDROOM_VALUE)%float in
  let bathroomValue := (bathrooms data * BATHROOM_VALUE)%float in
  let yearValue := ((yearBuilt data - BASE_YEAR) * YEAR_MULTIPLIER)%float in
  let lotSizeValue := (lotSize data * LOT_SIZE_VALUE)%float in
  let garageValue := (garage data * GARAGE_VALUE)%float in
  let basementValue := if basement data then BASEMENT_VALUE else 0%float in
  let centralAirValue := if centralAir data then CENTRAL_AIR_VALUE else 0%float in
  let kitchenQualityValue :=
    ((kitchenQuality data - 1) * KITCHEN_QUALITY_MULTIPLIER)%float in
  (BASE_PRICE + sqftValue + bedroomValue + bathroomValue +
   yearValue + lotSizeValue + garageValue +
   basementValue + centralAirValue + kitchenQualityValue)%float.

(** [0.95 + Math.random() * 0.1], for the draw [r]. *)
#[warnings="-inexact-float"]
Definition marketVariation (r : float) : float := (0.95 + r * 0.1)%float.

(** The price before [Math.round]. *)
Definition unroundedPrice (data : HouseData) (r : float) : float :=
  let predictedPrice := componentSum data in
  let predictedPrice := (predictedPrice * ToNumber (neighborhoodFactor data))%float in
  (predictedPrice * marketVariation r)%float.

(** [Math.round]: an integral number is returned as it is; any other finite
    number [n * 2^-k] becomes the integer [floor (n / 2^k + 1/2)], a zero
    taking the sign of the argument; infinities and [NaN] are returned as
    they are. *)
Definition round_half_up (n : Z) (k : Z) : Z := ((2 * n + 2 ^ k) / (2 * 2 ^ k))%Z.

(** The binary64 number of an integer. *)
Definition of_Z (z : Z) : float :=
  match z with
  | Z0 => 0%float
  | Zpos _ => of_uint63 (Uint63.of_Z z)
  | Zneg p => (- of_uint63 (Uint63.of_Z (Zpos p)))%float
  end.

Definition Math_round (x : float) : float :=
  match Prim2SF x with
  | S754_finite s m e =>
      if (0 <=? e)%Z then x
      else
        match round_half_up (cond_Zopp s (Zpos m)) (- e) with
        | Z0 => if s then (-0)%float else 0%float
        | z => of_Z z
        end
  | _ => x
  end.

Definition predictPrice (data : HouseData) (r : float) : float :=
  Math_round (unroundedPrice data r).

(** The closed form of the specification, computed in binary64: the
    table with its default, the subtotal, and their rounded product. *)
#[warnings="-inexact-float"]
Definition spec_factors : gmap string float :=
  list_to_map
    [ ("Downtown", 1.20); ("Suburban Heights", 1.10); ("Riverside", 1.15);
      ("West End", 0.95); ("North Hills", 1.05); ("Oak Park", 1.00);
      ("Maplewood", 0.90); ("Cedar Ridge", 1.10); ("Brookside", 1.05);
      ("Highland Park", 1.20) ]%float.

Definition spec_factor (k : string) : float :=
  default 1.0%float (spec_factors !! k).

Definition spec_subtotal (d : HouseData) : float :=
  (150000 + squareFootage d * 100 + bedrooms d * 15000 +
   bathrooms d * 20000 + (yearBuilt d - 1950) * 500 +
   lotSize d * 100000 + garage d * 10000 +
   (if basement d then 20000 else 0) +
   (if centralAir d then 15000 else 0) +
   (kitchenQuality d - 1) * 10000)%float.

Definition spec_estimate (d : HouseData) : float :=
  Math_round (spec_subtotal d * spec_factor (neighborhood d)).

(** The record with another neighborhood, and with one of the six linear
    fields set to [x]. *)
Definition in_neighborhood (k : string) (d : HouseData) : HouseData :=
  {| squareFootage := squareFootage d; bedrooms := bedrooms d;
     bathrooms := bathrooms d; yearBuilt := yearBuilt d;
     neighborhood := k;
     lotSize := lotSize d; garage := garage d; basement := basement d;
     centralAir := centralAir d; kitchenQuality := kitchenQuality d |}.

Inductive LinearField : Type :=
  | SquareFootage | Bedrooms | Bathrooms | YearBuilt | LotSize | Garage.

Definition field (f : LinearField) (d : HouseData) : float :=
  match f with
  | SquareFootage => squareFootage d
  | Bedrooms => bedrooms d
  | Bathrooms => bathrooms d
  | YearBuilt => yearBuilt d
  | LotSize => lotSize d
  | Garage => garage d
  end.

Definition coefficient (f : LinearField) : float :=
  match f with
  | SquareFootage => PRICE_PER_SQFT
  | Bedrooms => BEDROOM_VALUE
  | Bathrooms => BATHROOM_VALUE
  | YearBuilt => YEAR_MULTIPLIER
  | LotSize => LOT_SIZE_VALUE
  | Garage => GARAGE_VALUE
  end.

Definition with_field (f : LinearField) (x : float) (d : HouseData) : HouseData :=
  {| squareFootage := match f with SquareFootage => x | _ => squareFootage d end;
     bedrooms := match f with Bedrooms => x | _ => bedrooms d end;
     bathrooms := match f with Bathrooms => x | _ => bathrooms d end;
     yearBuilt := match f with YearBuilt => x | _ => yearBuilt d end;
     neighborhood := neighborhood d;
     lotSize := match f with LotSize => x | _ => lotSize d end;
     garage := match f with Garage => x | _ => garage d end;
     basement := basement d;
     centralAir := centralAir d;
     kitchenQuality := kitchenQuality d |}.

Definition with_centralAir (b : bool) (d : HouseData) : HouseData :=
  {| squareFootage := squareFootage d; bedrooms := bedrooms d;
     bathrooms := bathrooms d; yearBuilt := yearBuilt d;
     neighborhood := neighborhood d;
     lotSize := lotSize d; garage := garage d; basement := basement d;
     centralAir := b; kitchenQuality := kitchenQuality d |}.

Definition with_basement (b : bool) (d : HouseData) : HouseData :=
  {| squareFootage := squareFootage d; bedrooms := bedrooms d;
     bathrooms := bathrooms d; yearBuilt := yearBuilt d;
     neighborhood := neighborhood d;
     lotSize := lotSize d; garage := garage d; basement := b;
     centralAir := centralAir d; kitchenQuality := kitchenQuality d |}.

(** The record of the worked example. *)
Definition oakParkExample : HouseData := {|
  squareFootage := 2000;
  bedrooms := 3;
  bathrooms := 2;
  yearBuilt := 2000;
  neighborhood := "Oak Park";
  lotSize := 0.5;
  garage := 2;
  basement := true;
  centralAir := true;
  kitchenQuality := 3
|}.

Definition constructorExample : HouseData :=
  in_neighborhood "constructor" oakParkExample.

(** The worked example with 3150.5 square feet, in Riverside. *)
Definition riversideExample : HouseData :=
  in_neighborhood "Riverside" (with_field SquareFootage 3150.5 oakParkExample).

(** A hundredth of an acre. *)
#[warnings="-inexact-float"]
Definition hundredth : float := 0.01.

(** The worked example in Downtown on a lot of 0.11 acres, and on one of
    0.11 + 0.01. *)
#[warnings="-inexact-float"]
Definition downtownExample : HouseData :=
  in_neighborhood "Downtown" (with_field LotSize 0.11 oakParkExample).

Definition largerLotExample : HouseData :=
  with_field LotSize (lotSize downtownExample + hundredth) downtownExample.

(** The binary64 number nearest to 0.99, and the largest number below 1. *)
#[warnings="-inexact-float"]
Definition nearlyOne : float := 0.99.

#[warnings="-inexact-float"]
Definition largestDraw : float := 0.99999999999999989.

(** The constraints of the specification on a record. *)
Definition is_positive (x : float) : bool :=
  finite x && negb (Qle_bool (F2Q x) 0).

Definition is_integer (x : float) : bool :=
  finite x && Qeq_bool (F2Q x) (inject_Z (Qfloor (F2Q x))).

Definition is_at_least (lo : Q) (x : float) : bool :=
  finite x && Qle_bool lo (F2Q x).

Definition is_between (lo hi : Q) (x : float) : bool :=
  finite x && Qle_bool lo (F2Q x) && Qle_bool (F2Q x) hi.

Definition validHouseData (currentYear : Z) (d : HouseData) : bool :=
  is_positive (squareFootage d)
  && is_positive (bathrooms d)
  && is_positive (lotSize d)
  && (is_positive (bedrooms d) && is_integer (bedrooms d))
  && (is_at_least 0 (garage d) && is_integer (garage d))
  && is_between 1900 (inject_Z currentYear) (yearBuilt d)
  && (is_integer (kitchenQuality d) && is_between 1 5 (kitchenQuality d)).

End Binary64.

(** [q] rounded up to a multiple of [2^-100]. *)
Definition round_up (q : Q) : Q :=
  Qceiling (q * (1267650600228229401496703205376 # 1))
  # 1267650600228229401496703205376.

(** [x] is a finite number within [E] of [v], and [v] is at most [M] in
    magnitude. *)
Definition approx (x : float) (v M E : Q) : Prop :=
  finite x = true /\ Qabs (F2Q x - v) <= E /\ Qabs v <= M.

(** The error of a sum or difference, and of a product, of two numbers
    known within [Ex] and [Ey] of values of magnitude at most [Mx] and
    [My]: the errors carried over, and one rounding. *)
Definition add_error (Mx Ex My Ey : Q) : Q :=
  round_up (Ex + Ey + unit_roundoff * (Mx + My + Ex + Ey) + underflow).

Definition mul_error (Mx Ex My Ey : Q) : Q :=
  round_up (Mx * Ey + My * Ex + Ex * Ey + unit_roundoff * ((Mx + Ex) * (My + Ey)) + underflow).

(** ** The closed form over the reals

    What the specification writes, read in exact arithmetic on the values of
    the fields of a record: its table, as decimals, with the default 1.0;
    its subtotal; the variation [0.95 + r * 0.1] of a draw [r]; their
    product, the price before rounding; the coefficient of each of the six
    fields the subtotal is linear in. *)
Definition exact_neighborhoodFactors : gmap string Q :=
  list_to_map
    [ ("Downtown", 1.20); ("Suburban Heights", 1.10); ("Riverside", 1.15);
      ("West End", 0.95); ("North Hills", 1.05); ("Oak Park", 1.00);
      ("Maplewood", 0.90); ("Cedar Ridge", 1.10); ("Brookside", 1.05);
      ("Highland Park", 1.20) ]%string.

Definition exact_neighborhoodFactor (k : string) : Q :=
  default 1.0 (exact_neighborhoodFactors !! k).

(** A finite number of magnitude at most [B]. *)
Definition within (B : Q) (x : float) : bool :=
  finite x && Qle_bool (Qabs (F2Q x)) B.

(** A number of [0, 1], as [Math.random()] returns. *)
Definition is_draw (r : float) : bool :=
  finite r && Qle_bool 0 (F2Q r) && Qle_bool (F2Q r) 1.

(** A record whose seven numeric fields are finite, of magnitude at most
    [B]. *)
Definition bounded (B : Q) (d : Binary64.HouseData) : bool :=
  within B (Binary64.squareFootage d) && within B (Binary64.bedrooms d) &&
  within B (Binary64.bathrooms d) && within B (Binary64.yearBuilt d) &&
  within B (Binary64.lotSize d) && within B (Binary64.garage d) &&
  within B (Binary64.kitchenQuality d).

Definition exact_subtotal (d : Binary64.HouseData) : Q :=
  150000 + F2Q (Binary64.squareFootage d) * 100 +
  F2Q (Binary64.bedrooms d) * 15000 + F2Q (Binary64.bathrooms d) * 20000 +
  (F2Q (Binary64.yearBuilt d) - 1950) * 500 +
  F2Q (Binary64.lotSize d) * 100000 + F2Q (Binary64.garage d) * 10000 +
  (if Binary64.basement d then 20000 else 0) +
  (if Binary64.centralAir d then 15000 else 0) +
  (F2Q (Binary64.kitchenQuality d) - 1) * 10000.

Definition exact_marketVariation (r : float) : Q := 0.95 + F2Q r * 0.1.

Definition exact_price (d : Binary64.HouseData) (r : float) : Q :=
  exact_subtotal d * exact_neighborhoodFactor (Binary64.neighborhood d) *
  exact_marketVariation r.

Definition exact_coefficient (f : Binary64.LinearField) : Q :=
  match f with
  | Binary64.SquareFootage => 100
  | Binary64.Bedrooms => 15000
  | Binary64.Bathrooms => 20000
  | Binary64.YearBuilt => 500
  | Binary64.LotSize => 100000
  | Binary64.Garage => 10000
  end.

(** ** More vocabulary for the client *)

(** The window and the state of the page are the same in both worlds. *)
Definition same_page (w w' : World) : Prop :=
  innerWidth w' = innerWidth w /\ predictedPrice w' = predictedPrice w
  /\ isLoading w' = isLoading w /\ modelStatus w' = modelStatus w
  /\ toasts w' = toasts w /\ scrolls w' = scrolls w.

(** Run from [w], the operation sends the request [q] and no other, keeps
    what the console held and leaves the page alone. *)
Definition sends_only {A : Type} (op : M A) (q : Request) (w : World) : Prop :=
  requests (op w).1 = requests w ++ [q]
  /\ console w `prefix_of` console (op w).1
  /\ same_page w (op w).1.

Definition is_error_line (l : line) : bool :=
  match l.1 with
  | Err => true
  | _ => false
  end.

(** The labels of the [console.error] lines written between [w] and [w']. *)
Definition errors_logged (w w' : World) : list string :=
  (List.filter is_error_line (drop (length (console w)) (console w'))).*2.

(** The names of the properties of an object. *)
Definition keys (v : value) : list string :=
  match v with
  | VObject props => props.*1
  | _ => []
  end.


(** ** The form: [HouseForm]

    The state of the form beside the world: the data typed so far, the
    neighborhoods offered, and whether they are still being loaded.
    [formData] is the object the form holds, a map from field names to
    values: [handleChange] stores any value under any field. *)
Module HouseForm.

Record State : Type := {
  formData : gmap string value;
  neighborhoods : list value;
  isLoadingNeighborhoods : bool
}.

(** A computation of the form: it runs from a state of the form and of the
    world, and leaves both. *)
Definition FM (A : Type) : Type := State * World -> (State * World) * outcome A.

#[export] Instance FM_ret : MRet FM := λ A a s, (s, Returned a).

#[export] Instance FM_bind : MBind FM := λ A B f m s,
  match m s with
  | (s', Returned a) => f a s'
  | (s', Thrown e) => (s', Thrown e)
  end.

(** A computation of the world, run from the form. *)
Definition lift {A : Type} (m : M A) : FM A := λ s,
  match m s.2 with
  | (w', o) => ((s.1, w'), o)
  end.

(** [try { m } catch (e) { h e }] *)
Definition try_catch {A : Type} (m : FM A) (h : error -> FM A) : FM A := λ s,
  match m s with
  | (s', Thrown e) => h e s'
  | (s', Returned a) => (s', Returned a)
  end.

(** [try { m } finally { f }] *)
Definition try_finally {A : Type} (m : FM A) (f : FM unit) : FM A := λ s,
  match m s with
  | (s', o) =>
      match f s' with
      | (s'', Returned _) => (s'', o)
      | (s'', Thrown e) => (s'', Thrown e)
      end
  end.

Definition update (f : State -> State) : FM unit := λ s, ((f s.1, s.2), Returned tt).

(** [setFormData(prev => f prev)] *)
Definition setFormData (f : gmap string value -> gmap string value) : FM unit :=
  update (λ st, {| formData := f (formData st);
                   neighborhoods := neighborhoods st;
                   isLoadingNeighborhoods := isLoadingNeighborhoods st |}).

Definition setNeighborhoods (l : list value) : FM unit :=
  update (λ st, {| formData := formData st;
                   neighborhoods := l;
                   isLoadingNeighborhoods := isLoadingNeighborhoods st |}).

Definition setIsLoadingNeighborhoods (b : bool) : FM unit :=
  update (λ st, {| formData := formData st;
                   neighborhoods := neighborhoods st;
                   isLoadingNeighborhoods := b |}).

Definition DEFAULT_NEIGHBORHOODS : list value :=
  [ VString "Downtown"; VString "Suburban Heights"; VString "Riverside";
    VString "West End"; VString "North Hills" ].

(** The options of the request for the neighborhoods. *)
Definition neighborhoodsOptions : RequestInit :=
  {| method := None;
     headers := [("Accept", "application/json")]%string;
     body := None;
     mode := None;
     credentials := None |}.

Definition neighborhoodsRequest : Request :=
  ("http://localhost:5000/api/neighborhoods"%string, Some neighborhoodsOptions).

(** [new Error(s)] for a string [s]. *)
Definition Error_of (s : string) : error := Error (FromBody (VString s)).

(** [Array.isArray(v)] *)
Definition isArray (v : value) : bool :=
  match v with
  | VArray _ => true
  | _ => false
  end.

(** The elements of an array. *)
Definition elements_of (v : value) : list value :=
  match v with
  | VArray items => items
  | _ => []
  end.

(** [handleChange(field, value)] *)
Definition handleChange (field : string) (v : value) : FM unit :=
  setFormData (λ prev, <[field := v]> prev).

Section Loading.

Variable network : Request -> FetchResult.
Variable JSON_parse : string -> option value.
(** [error.message] of an error the platform raised. *)
Variable platform_message : error -> string.

(** [error.message]: the string an [Error] was built from, and what the
    platform says for any other error. *)
Definition message_of (e : error) : string :=
  match e with
  | Error (FromBody (VString s)) => s
  | _ => platform_message e
  end.

(** The toast shown when the neighborhoods could not be loaded. *)
Definition warningToast (e : error) : Toast :=
  {| title := "Warning";
     description := if String.eqb (message_of e) ""
                    then "Using default neighborhood options"
                    else message_of e;
     variant := "destructive" |}.

(** The effect run when the form is mounted. *)
Definition fetchNeighborhoods : FM unit :=
  try_finally
    (try_catch
       (response ← lift (fetch network "http://localhost:5000/api/neighborhoods"
                           (Some neighborhoodsOptions));
        (if negb (ok response)
         then lift (throw (Error_of ("HTTP error! status: "
                                     +:+ pretty (status response))))
         else mret tt);;
        let contentType := contentType response in
        (if negb (is_json contentType)
         then lift (throw (Error_of "Received non-JSON response"))
         else mret tt);;
        data ← lift (response_json JSON_parse response);
        data_neighborhoods ← lift (field data "neighborhoods");
        (if negb (truthy data_neighborhoods) || negb (isArray data_neighborhoods)
         then lift (throw (Error_of "Invalid neighborhoods data format"))
         else mret tt);;
        setNeighborhoods (elements_of data_neighborhoods);;
        match elements_of data_neighborhoods with
        | first :: _ => setFormData (λ prev, <["neighborhood"%string := first]> prev)
        | [] => mret tt
        end)
       (λ error,
          lift (console_error "Neighborhood loading failed:");;
          setNeighborhoods DEFAULT_NEIGHBORHOODS;;
          lift (toast (warningToast error))))
    (setIsLoadingNeighborhoods false).

End Loading.

(** The neighborhoods a response is accepted with: the exchange succeeded,
    the content type is JSON, and the parsed body holds an array under
    [neighborhoods]. *)
Definition accepted (JSON_parse : string -> option value) (answer : FetchResult)
  : option (list value) :=
  match answer with
  | Rejected => None
  | Fulfilled response =>
      if ok response && is_json (contentType response) then
        match text response ≫= JSON_parse with
        | Some data =>
            match property data "neighborhoods" with
            | Some (VArray items) => Some items
            | _ => None
            end
        | None => None
        end
      else None
  end.

End HouseForm.

(** The error the load of the neighborhoods ends its [try] block with, for
    an answer that is not accepted. *)
Definition loading_error (JSON_parse : string -> option value)
    (answer : FetchResult) : error :=
  match answer with
  | Rejected => TypeError
  | Fulfilled response =>
      if negb (ok response)
      then HouseForm.Error_of ("HTTP error! status: " +:+ pretty (status response))
      else if negb (is_json (contentType response))
      then HouseForm.Error_of "Received non-JSON response"
      else
        match text response with
        | None => TypeError
        | Some t =>
            match JSON_parse t with
            | None => SyntaxError
            | Some data =>
                match property data "neighborhoods" with
                | None => TypeError
                | Some _ => HouseForm.Error_of "Invalid neighborhoods data format"
                end
            end
        end
  end.

(** The form data after the neighborhoods [items] were loaded. *)
Definition with_first_neighborhood (items : list value)
    (data : gmap string value) : gmap string value :=
  match items with
  | first :: _ => <["neighborhood"%string := first]> data
  | [] => data
  end.

(** A state of the form whose data is the empty object, the list not yet
    loaded. The data a mounted form starts from, [defaultHouseData], is
    declared in none of the sources. *)
Definition emptyForm : HouseForm.State :=
  {| HouseForm.formData := ∅;
     HouseForm.neighborhoods := [];
     HouseForm.isLoadingNeighborhoods := true |}.

(** * Properties *)

(** ** Numbers *)

#[export] Instance number_eq_equivalence : Equivalence number_eq.
Proof.
  split.
  - intros [|p]; simpl; [exact I | reflexivity].
  - intros [|p] [|q]; simpl; try tauto. intros H. symmetry. exact H.
  - intros [|p] [|q] [|t]; simpl; try tauto. intros H1 H2.
    rewrite H1. exact H2.
Qed.

Lemma lift2_proper (f : Q -> Q -> Q) :
  Proper (Qeq ==> Qeq ==> Qeq) f ->
  Proper (number_eq ==> number_eq ==> number_eq) (lift2 f).
Proof.
  intros Hf [|p] [|p'] Hp [|q] [|q'] Hq; simpl in *; try tauto.
  apply Hf; assumption.
Qed.

#[export] Instance nadd_proper : Proper (number_eq ==> number_eq ==> number_eq) nadd.
Proof. apply lift2_proper. exact Qplus_comp. Qed.

#[export] Instance nsub_proper : Proper (number_eq ==> number_eq ==> number_eq) nsub.
Proof. apply lift2_proper. exact Qminus_comp. Qed.

#[export] Instance nmul_proper : Proper (number_eq ==> number_eq ==> number_eq) nmul.
Proof. apply lift2_proper. exact Qmult_comp. Qed.

(** [Math.round] sends equal numbers to the same numeral. *)
Lemma Math_round_proper (x y : number) : x ≡ y -> Math_round x = Math_round y.
Proof.
  unfold equiv, number_equiv.
  destruct x as [|p], y as [|q]; simpl; try tauto.
  intros H. unfold round_half_up. f_equal. f_equal.
  apply Qfloor_comp. rewrite H. reflexivity.
Qed.

(** ** The estimator *)

(** Every factor of the table lies between 0.9 and 1.2. *)
Lemma neighborhoodFactors_range (k : string) (q : Q) :
  neighborhoodFactors !! k = Some q -> 0.9 <= q <= 1.2.
Proof.
  unfold neighborhoodFactors. intros H.
  apply elem_of_list_to_map_2 in H.
  repeat (apply elem_of_cons in H as [H|H]; [inversion H; subst; lra|]).
  apply elem_of_nil in H. destruct H.
Qed.

(** No key of the table is the name of a member of [Object.prototype]. *)
Lemma inherited_not_own (k : string) :
  inherited k = true -> neighborhoodFactors !! k = None.
Proof.
  unfold inherited. intros H. apply bool_decide_eq_true in H.
  unfold Object_prototype in H.
  repeat (apply elem_of_cons in H as [H|H]; [subst; vm_compute; reflexivity|]).
  apply elem_of_nil in H. destruct H.
Qed.

(** The factor applied to a record: [NaN] when the neighborhood names a
    member of [Object.prototype], else a number between 0.9 and 1.2. *)
Lemma neighborhoodFactor_cases (d : HouseData) :
  (inherited (neighborhood d) = true /\ ToNumber (neighborhoodFactor d) = NaN)
  \/ (inherited (neighborhood d) = false
      /\ exists q, ToNumber (neighborhoodFactor d) = Num q /\ 0.9 <= q <= 1.2).
Proof.
  unfold neighborhoodFactor, get.
  destruct (inherited (neighborhood d)) eqn:Hin.
  - left. rewrite (inherited_not_own _ Hin). split; reflexivity.
  - right. split; [reflexivity|].
    destruct (neighborhoodFactors !! neighborhood d) as [q|] eqn:Hq.
    + apply neighborhoodFactors_range in Hq.
      exists q. unfold or_else. simpl.
      destruct (Qeq_bool q 0) eqn:Hz.
      * apply Qeq_bool_eq in Hz. lra.
      * simpl. split; [reflexivity | exact Hq].
    + exists 1.0. simpl. split; [reflexivity | lra].
Qed.

(** A name the table does not hold and [Object.prototype] does not define is
    given the factor 1.0. *)
Lemma neighborhoodFactor_unknown (d : HouseData) :
  neighborhoodFactors !! neighborhood d = None ->
  inherited (neighborhood d) = false ->
  neighborhoodFactor d = MNumber (Num 1.0).
Proof.
  intros Hq Hin. unfold neighborhoodFactor, get. rewrite Hq, Hin. reflexivity.
Qed.

Lemma is_positive_spec (n : number) :
  is_positive n = true -> exists q, n = Num q /\ 0 < q.
Proof.
  destruct n as [|q]; simpl; [discriminate|].
  intros H. exists q. split; [reflexivity|].
  apply negb_true_iff in H. apply Qnot_le_lt. intros Hle.
  apply Qle_bool_iff in Hle. congruence.
Qed.

Lemma is_at_least_spec (lo : Q) (n : number) :
  is_at_least lo n = true -> exists q, n = Num q /\ lo <= q.
Proof.
  destruct n as [|q]; simpl; [discriminate|].
  intros H. exists q. split; [reflexivity|]. apply Qle_bool_iff. exact H.
Qed.

Lemma is_between_spec (lo hi : Q) (n : number) :
  is_between lo hi n = true -> exists q, n = Num q /\ lo <= q <= hi.
Proof.
  destruct n as [|q]; simpl; [discriminate|].
  intros H. apply andb_true_iff in H as [H1 H2].
  exists q. split; [reflexivity|]. split; apply Qle_bool_iff; assumption.
Qed.

(** The components of a valid record add up to at least 125000. *)
Lemma componentSum_valid (currentYear : Z) (d : HouseData) :
  validHouseData currentYear d = true ->
  exists s, componentSum d = Num s /\ 125000 <= s.
Proof.
  unfold validHouseData. intros H.
  rewrite !andb_true_iff in H. destruct_and!.
  destruct (is_positive_spec (squareFootage d)) as (a & Ea & Ha); [assumption|].
  destruct (is_positive_spec (bathrooms d)) as (c & Ec & Hc); [assumption|].
  destruct (is_positive_spec (lotSize d)) as (l & El & Hl); [assumption|].
  destruct (is_positive_spec (bedrooms d)) as (b & Eb & Hb); [assumption|].
  destruct (is_at_least_spec 0 (garage d)) as (g & Eg & Hg); [assumption|].
  destruct (is_between_spec 1900 (inject_Z currentYear) (yearBuilt d))
    as (y & Ey & Hy); [assumption|].
  destruct (is_between_spec 1 5 (kitchenQuality d)) as (k & Ek & Hk); [assumption|].
  unfold componentSum. rewrite Ea, Ec, El, Eb, Eg, Ey, Ek.
  destruct (basement d), (centralAir d); simpl;
    eexists; (split; [reflexivity|]); lra.
Qed.

Lemma round_half_up_nonneg (x : Q) : 0 <= x -> (0 <= round_half_up x)%Z.
Proof.
  intros Hx. unfold round_half_up.
  change 0%Z with (Qfloor 0). apply Qfloor_resp_le. lra.
Qed.

(** The estimate of a valid record is a non-negative integer, unless the
    neighborhood names a member of [Object.prototype]. *)
Lemma predictPrice_nonneg_integer (currentYear : Z) (d : HouseData) (r : Q) :
  validHouseData currentYear d = true ->
  inherited (neighborhood d) = false ->
  0 <= r <= 1 ->
  nonneg_integer (predictPrice d r).
Proof.
  intros Hv Hin Hr.
  destruct (componentSum_valid _ _ Hv) as (s & Es & Hs).
  destruct (neighborhoodFactor_cases d) as [[Hin' _]|(_ & q & Eq & Hq)];
    [congruence|].
  unfold predictPrice, unroundedPrice, marketVariation.
  rewrite Es, Eq. simpl.
  eexists. split; [reflexivity|].
  apply round_half_up_nonneg.
  apply Qmult_le_0_compat; [apply Qmult_le_0_compat|]; lra.
Qed.

Lemma predictPrice_nonneg_integer_witness :
  nonneg_integer (predictPrice oakParkExample 0.5).
Proof.
  apply (predictPrice_nonneg_integer 2026 oakParkExample 0.5);
    [reflexivity | reflexivity | lra].
Defined.

(** C6. The estimate of a valid record is not always a non-negative integer:
    the worked example moved to the neighborhood "constructor" is valid,
    and its estimate is [NaN] whatever the draw. *)
Theorem predictPrice_valid_record_NaN (r : Q) :
  validHouseData 2026 constructorExample = true
  /\ predictPrice constructorExample r = NaN
  /\ ~ nonneg_integer (predictPrice constructorExample r).
Proof.
  assert (H : predictPrice constructorExample r = NaN) by reflexivity.
  split; [reflexivity|]. split; [exact H|].
  rewrite H. intros (z & Hz & _). discriminate.
Qed.

(** *** The market variation *)

(** Two results for the worked example that are further apart than 5% of
    its deterministic value. *)
Lemma oakParkExample_spread :
  predictPrice oakParkExample 0 = Num 555750
  /\ predictPrice oakParkExample 0.99 = Num 613665.
Proof. split; reflexivity. Qed.

(** C8, as stated, fails: two results for the same record can be further
    apart than 5% of the deterministic value, even with 1 allowed for the
    two roundings. *)
Lemma two_draws_further_apart_than_5_percent :
  ~ (forall (d : HouseData) (r1 r2 D : Q),
       0 <= r1 < 1 -> 0 <= r2 < 1 ->
       deterministicValue d = Num D ->
       differ_by_at_most (0.05 * Qabs D + 1) (predictPrice d r1) (predictPrice d r2)).
Proof.
  intros H.
  specialize (H oakParkExample 0 0.99 _ ltac:(lra) ltac:(lra) eq_refl).
  vm_compute in H. apply H. reflexivity.
Qed.

(** *** Unknown neighborhoods *)

Lemma neighborhoodFactor_known (d : HouseData) (k : string) (q : Q) :
  neighborhoodFactors !! k = Some q ->
  ToNumber (neighborhoodFactor (in_neighborhood k d)) = Num q.
Proof.
  intros Hk. pose proof (neighborhoodFactors_range k q Hk) as Hq.
  unfold neighborhoodFactor, get. simpl. rewrite Hk.
  unfold or_else. simpl.
  destruct (Qeq_bool q 0) eqn:Hz; [|reflexivity].
  apply Qeq_bool_eq in Hz. lra.
Qed.

(** A neighborhood that is no key of the table and no member of
    [Object.prototype] is estimated like a key of factor 1.0, the draw being
    the same. *)
Lemma predictPrice_unknown_neighborhood (d : HouseData) (k : string) (q r : Q) :
  neighborhoodFactors !! neighborhood d = None ->
  inherited (neighborhood d) = false ->
  neighborhoodFactors !! k = Some q -> q == 1 ->
  predictPrice d r = predictPrice (in_neighborhood k d) r.
Proof.
  intros Hnone Hin Hk Hq.
  unfold predictPrice, unroundedPrice. apply Math_round_proper.
  rewrite (neighborhoodFactor_known d k q Hk).
  rewrite (neighborhoodFactor_unknown d Hnone Hin).
  change (componentSum (in_neighborhood k d)) with (componentSum d).
  assert (E : Num 1.0 ≡ Num q).
  { unfold equiv, number_equiv. simpl. rewrite Hq. reflexivity. }
  cbn [ToNumber]. rewrite E. reflexivity.
Qed.

Lemma predictPrice_unknown_neighborhood_witness :
  predictPrice (in_neighborhood "Elm Grove" oakParkExample) 0.3
  = predictPrice (in_neighborhood "Oak Park" (in_neighborhood "Elm Grove" oakParkExample)) 0.3.
Proof.
  apply (predictPrice_unknown_neighborhood
           (in_neighborhood "Elm Grove" oakParkExample) "Oak Park" 1.0 0.3);
    reflexivity.
Defined.

(** C9. A neighborhood outside the table is not always given the factor
    1.0: "constructor" is none of the ten keys, yet the estimate of the
    worked example in that neighborhood is [NaN], not the estimate it gets
    in "Oak Park", whose factor is 1.0. *)
Theorem predictPrice_constructor_neighborhood (r : Q) :
  neighborhoodFactors !! neighborhood constructorExample = None
  /\ neighborhoodFactors !! "Oak Park"%string = Some 1.0
  /\ predictPrice constructorExample r = NaN
  /\ predictPrice constructorExample r
     <> predictPrice (in_neighborhood "Oak Park" constructorExample) r.
Proof.
  split; [reflexivity|]. split; [reflexivity|]. split; [reflexivity|].
  change (predictPrice constructorExample r) with NaN.
  unfold predictPrice. destruct (unroundedPrice _ r) eqn:E.
  - discriminate E.
  - discriminate.
Qed.

(** ** The prediction client *)

Ltac run :=
  unfold try_catch, try_finally, fetch, response_json, response_text, parse,
    field, throw, modify, read, console_log, console_warn, console_error,
    mbind, M_bind, mret, M_ret; simpl.

Section ClientProperties.

Variable network : Request -> FetchResult.
Variable JSON_parse : string -> option value.
Variable JSON_stringify : value -> string.

(** A run of [checkModelStatus]: one request is sent; the parsed body of a
    successful exchange is returned, and anything else is logged and
    answered with [untrained]. *)
Lemma checkModelStatus_run (w : World) :
  checkModelStatus network JSON_parse w =
  let w1 := record_request statusRequest w in
  match parsed_body JSON_parse (network statusRequest) with
  | Some v => (w1, Returned v)
  | None => (write_line (Err, "Error checking model status:"%string) w1,
             Returned untrained)
  end.
Proof.
  unfold checkModelStatus, parsed_body. run.
  fold statusRequest.
  destruct (network statusRequest) as [|response]; simpl; [reflexivity|].
  destruct (ok response); simpl; [|reflexivity].
  destruct (text response) as [t|]; simpl; [|reflexivity].
  destruct (JSON_parse t); reflexivity.
Qed.

(** A run of [predictPriceFromAPI]. *)
Lemma predictPriceFromAPI_run (d : HouseData) (w : World) :
  predictPriceFromAPI network JSON_parse JSON_stringify d w =
  let request := predictRequest JSON_stringify d in
  let w1 := record_request request
              (write_line (Log, "Sending data to backend:"%string) w) in
  let failed := write_line (Err, "Error in predictPriceFromAPI:"%string) in
  match network request with
  | Rejected => (failed w1, Returned VNull)
  | Fulfilled response =>
      if ok response then
        match text response ≫= JSON_parse with
        | Some v =>
            let w2 := write_line (Log, "Received prediction:"%string) w1 in
            match property v "prediction" with
            | Some x => (w2, Returned x)
            | None => (failed w2, Returned VNull)
            end
        | None => (failed w1, Returned VNull)
        end
      else (failed (write_line (Err, "API Error:"%string) w1), Returned VNull)
  end.
Proof.
  unfold predictPriceFromAPI. run.
  fold (predictRequest JSON_stringify d).
  destruct (network (predictRequest JSON_stringify d)) as [|response];
    simpl; [reflexivity|].
  destruct (ok response); simpl.
  - destruct (text response) as [t|]; simpl; [|reflexivity].
    destruct (JSON_parse t) as [v|]; simpl; [|reflexivity].
    destruct (property v "prediction"); reflexivity.
  - destruct (text response) as [t|]; simpl.
    + destruct (JSON_parse t) as [v|]; simpl.
      * destruct (property v "error"); reflexivity.
      * reflexivity.
    + reflexivity.
Qed.

(** A run of [checkAPIHealth]. *)
Lemma checkAPIHealth_run (w : World) :
  checkAPIHealth network w =
  let w1 := record_request statusRequest w in
  match network statusRequest with
  | Rejected => (write_line (Err, "API health check failed:"%string) w1,
                 Returned false)
  | Fulfilled response => (w1, Returned (ok response))
  end.
Proof.
  unfold checkAPIHealth. run. fold statusRequest.
  destruct (network statusRequest); reflexivity.
Qed.

(** How [fetchWithHandling] ends. *)
Lemma fetchWithHandling_outcome (url : string) (options : option RequestInit)
    (w : World) :
  (fetchWithHandling network JSON_parse url options w).2 =
  match network (url, options) with
  | Rejected => Thrown TypeError
  | Fulfilled response =>
      if ok response then
        if is_json (contentType response) then
          match text response with
          | Some t =>
              match JSON_parse t with
              | Some v => Returned v
              | None => Thrown SyntaxError
              end
          | None => Thrown TypeError
          end
        else Thrown (Error (InvalidContentType (contentType response)))
      else Thrown (http_failure JSON_parse response)
  end.
Proof.
  unfold fetchWithHandling, http_failure. run.
  destruct (network (url, options)) as [|response]; simpl; [reflexivity|].
  destruct (ok response); simpl.
  - destruct (is_json (contentType response)); simpl; [|reflexivity].
    destruct (text response) as [t|]; simpl; [|reflexivity].
    destruct (JSON_parse t); reflexivity.
  - destruct (text response) as [t|]; simpl.
    + destruct (JSON_parse t) as [v|]; simpl.
      * destruct (property v "message"); reflexivity.
      * reflexivity.
    + reflexivity.
Qed.

(** C5. [checkModelStatus] never throws. It answers [untrained], that is
    [{trained: false, modelPath: null}], when the request is rejected
    (network failure, unreachable host), when the status is not a success
    status, and when the body cannot be read or parsed; after a
    successful exchange it returns the parsed body. *)
Theorem checkModelStatus_result (w : World) :
  ~ throws (checkModelStatus network JSON_parse) w
  /\ (network statusRequest = Rejected ->
      result (checkModelStatus network JSON_parse) w = Some untrained)
  /\ (forall response, network statusRequest = Fulfilled response ->
      ok response = false ->
      result (checkModelStatus network JSON_parse) w = Some untrained)
  /\ (forall response, network statusRequest = Fulfilled response ->
      text response ≫= JSON_parse = None ->
      result (checkModelStatus network JSON_parse) w = Some untrained)
  /\ (forall response v, network statusRequest = Fulfilled response ->
      ok response = true -> text response ≫= JSON_parse = Some v ->
      result (checkModelStatus network JSON_parse) w = Some v).
Proof.
  unfold throws, result. rewrite checkModelStatus_run. cbv zeta.
  split; [|split; [|split; [|split]]].
  - destruct (parsed_body JSON_parse (network statusRequest)); simpl; tauto.
  - intros ->. reflexivity.
  - intros response -> Hok. simpl. rewrite Hok. reflexivity.
  - intros response -> Hbody. simpl. rewrite Hbody.
    destruct (ok response); reflexivity.
  - intros response v -> Hok Hbody. simpl. rewrite Hok, Hbody. reflexivity.
Qed.

(** C4. [predictPriceFromAPI] never throws. It returns [null] when the
    status is not a success status and when anything is thrown: the
    request is rejected, or the body cannot be read or parsed, or it
    parses to [null]. After a successful exchange it returns whatever the
    field [prediction] of the parsed body holds, [undefined] included. *)
Theorem predictPriceFromAPI_result (d : HouseData) (w : World) :
  let call := predictPriceFromAPI network JSON_parse JSON_stringify d in
  let answer := network (predictRequest JSON_stringify d) in
  ~ throws call w
  /\ (answer = Rejected -> result call w = Some VNull)
  /\ (forall response, answer = Fulfilled response ->
      ok response = false -> result call w = Some VNull)
  /\ (forall response, answer = Fulfilled response ->
      text response ≫= JSON_parse = None -> result call w = Some VNull)
  /\ (forall response v, answer = Fulfilled response ->
      ok response = true -> text response ≫= JSON_parse = Some v ->
      result call w = Some (default VNull (property v "prediction")))
  /\ (forall response props, answer = Fulfilled response ->
      ok response = true -> text response ≫= JSON_parse = Some (VObject props) ->
      result call w = Some (default VUndefined (assoc "prediction" props))).
Proof.
  cbv zeta. unfold throws, result. rewrite predictPriceFromAPI_run. cbv zeta.
  split; [|split; [|split; [|split; [|split]]]].
  - destruct (network (predictRequest JSON_stringify d)) as [|response];
      [simpl; tauto|].
    destruct (ok response); [|simpl; tauto].
    destruct (text response ≫= JSON_parse) as [v|]; [|simpl; tauto].
    destruct (property v "prediction"); simpl; tauto.
  - intros ->. reflexivity.
  - intros response -> ->. reflexivity.
  - intros response -> ->. destruct (ok response); reflexivity.
  - intros response v -> -> ->. destruct (property v "prediction"); reflexivity.
  - intros response props -> -> ->. reflexivity.
Qed.


End ClientProperties.


(** On an unreachable host [checkModelStatus] answers [untrained],
    [checkAPIHealth] answers [false], and both write one line to the
    console. *)
Example checkModelStatus_unreachable :
  checkModelStatus unreachable parse_prediction initialWorld
  = (write_line (Err, "Error checking model status:"%string)
       (record_request statusRequest initialWorld),
     Returned untrained)
  /\ result (checkAPIHealth unreachable) initialWorld = Some false.
Proof. split; reflexivity. Qed.

(** On HTTP 500 [predictPriceFromAPI] returns [null]; on HTTP 200 it returns
    the prediction of the body. *)
Example predictPriceFromAPI_500 :
  result (predictPriceFromAPI (answering 500 (Some "application/json"%string) "")
            parse_prediction (λ _, ""%string) oakParkExample) initialWorld
  = Some VNull
  /\ result (predictPriceFromAPI (answering 200 (Some "application/json"%string) "")
               parse_prediction (λ _, ""%string) oakParkExample) initialWorld
     = Some (VNumber (Num 412000)).
Proof. split; reflexivity. Qed.

(** ** The fallback policy *)

Section IndexProperties.

Variable remote : HouseData -> M value.
Variable r : Q.

(** A run of the block that settles [price] and [source]. *)
Lemma priceAndSource_run (d : HouseData) (w : World) :
  priceAndSource remote r d w =
  let estimate := (VNumber (predictPrice d r), "fallback"%string) in
  if truthy (modelStatus.isAvailable (modelStatus w)) then
    match remote d w with
    | (w', Returned price) =>
        (w', Returned (if is_null price then estimate else (price, "API"%string)))
    | (w', Thrown e) =>
        (write_line (Warn, "API prediction failed, falling back:"%string) w',
         Returned estimate)
    end
  else (w, Returned estimate).
Proof.
  unfold priceAndSource. run.
  destruct (truthy (modelStatus.isAvailable (modelStatus w))); [|reflexivity].
  destruct (remote d w) as [w' [price|e]]; simpl; [|reflexivity].
  destruct (is_null price); reflexivity.
Qed.



(** [handleFormSubmit] shows the price the policy settled on, with the
    toast of its source, and leaves the page no longer loading. *)
Lemma handleFormSubmitWith_run (d : HouseData) (w w2 : World)
    (price : value) (source : string) :
  priceAndSource remote r d (with_predictedPrice VNull (with_isLoading true w))
  = (w2, Returned (price, source)) ->
  let shown := with_toast (predictionToast source) (with_predictedPrice price w2) in
  handleFormSubmitWith remote r d w
  = (with_isLoading false
       (if (innerWidth w2 <? 768)%Z then with_scroll shown else shown),
     Returned tt).
Proof.
  intros H. unfold handleFormSubmitWith, scrollToResults, setIsLoading,
    setPredictedPrice, toast, scheduleScroll. run.
  rewrite H. simpl.
  destruct (innerWidth w2 <? 768)%Z; reflexivity.
Qed.

End IndexProperties.




(** ** The status check of the page *)

(** After the status check the page holds what [trained] was in the parsed
    body of a successful exchange; a failed exchange leaves it at [false]. *)
Lemma checkBackendStatus_isAvailable (network : Request -> FetchResult)
    (JSON_parse : string -> option value) (w : World) :
  let w' := (checkBackendStatus network JSON_parse w).1 in
  match parsed_body JSON_parse (network statusRequest) with
  | Some status =>
      modelStatus.isAvailable (modelStatus w')
      = default (VBool false) (property status "trained")
  | None => modelStatus.isAvailable (modelStatus w') = VBool false
  end.
Proof.
  cbv zeta. unfold checkBackendStatus, setModelStatus, toast. run.
  rewrite checkModelStatus_run. cbv zeta.
  destruct (parsed_body JSON_parse (network statusRequest)) as [status|]; simpl.
  - destruct (property status "trained") as [v|]; simpl; [|reflexivity].
    destruct (truthy v); reflexivity.
  - reflexivity.
Qed.

(** * Further properties of the prediction client *)

Lemma errors_logged_app (w w' : World) (added : list line) :
  console w' = console w ++ added ->
  errors_logged w w' = (List.filter is_error_line added).*2.
Proof.
  intros E. unfold errors_logged. rewrite E, drop_app_length. reflexivity.
Qed.

Ltac frame :=
  repeat split; simpl;
  rewrite <- ?app_assoc;
  try reflexivity; try (apply prefix_app_r; reflexivity);
  try (eexists; reflexivity).

Section ClientFrame.

Variable network : Request -> FetchResult.
Variable JSON_parse : string -> option value.
Variable JSON_stringify : value -> string.

(** Each operation of the client sends one request, the one it is meant to
    send, whatever the answer: none retries. None erases a line of the
    console, and none touches the state of the page. *)
Theorem client_sends_one_request (d : HouseData) (url : string)
    (options : option RequestInit) (w : World) :
  sends_only (checkModelStatus network JSON_parse) statusRequest w
  /\ sends_only (predictPriceFromAPI network JSON_parse JSON_stringify d)
       (predictRequest JSON_stringify d) w
  /\ sends_only (checkAPIHealth network) statusRequest w
  /\ sends_only (fetchWithHandling network JSON_parse url options) (url, options) w.
Proof.
  unfold sends_only, same_page. split; [|split; [|split]].
  - rewrite checkModelStatus_run. cbv zeta.
    destruct (parsed_body JSON_parse (network statusRequest)); frame.
  - rewrite predictPriceFromAPI_run. cbv zeta.
    destruct (network (predictRequest JSON_stringify d)) as [|response]; [frame|].
    destruct (ok response); [|frame].
    destruct (text response ≫= JSON_parse) as [v|]; [|frame].
    destruct (property v "prediction"); frame.
  - rewrite checkAPIHealth_run. cbv zeta.
    destruct (network statusRequest); frame.
  - unfold fetchWithHandling. run.
    destruct (network (url, options)) as [|response]; simpl; [frame|].
    destruct (ok response); simpl.
    + destruct (is_json (contentType response)); simpl; [|frame].
      destruct (text response) as [t|]; simpl; [|frame].
      destruct (JSON_parse t); frame.
    + destruct (text response) as [t|]; simpl; [|frame].
      destruct (JSON_parse t) as [v|]; simpl; [|frame].
      destruct (property v "message"); frame.
Qed.

(** What the fail-soft operations report on the console.
    [checkModelStatus] writes an error line exactly when the exchange
    failed. [predictPriceFromAPI] writes one exactly when it has no
    [prediction] to read: the exchange failed, or the body is [null].
    [checkAPIHealth] writes one only when no response was obtained: a
    response whose status is not a success status is answered with [false]
    and not reported. *)
Theorem failures_are_logged (d : HouseData) (w : World) :
  (errors_logged w (checkModelStatus network JSON_parse w).1 = []
   <-> is_Some (parsed_body JSON_parse (network statusRequest)))
  /\ (errors_logged w
        (predictPriceFromAPI network JSON_parse JSON_stringify d w).1 = []
      <-> is_Some (parsed_body JSON_parse (network (predictRequest JSON_stringify d))
                   ≫= λ v, property v "prediction"))
  /\ (errors_logged w (checkAPIHealth network w).1 = []
      <-> network statusRequest <> Rejected).
Proof.
  split; [|split].
  - rewrite checkModelStatus_run. cbv zeta.
    destruct (parsed_body JSON_parse (network statusRequest)) as [v|].
    + rewrite (errors_logged_app _ _ []) by (simpl; rewrite app_nil_r; reflexivity).
      split; [eauto|reflexivity].
    + rewrite (errors_logged_app _ _ [(Err, "Error checking model status:"%string)])
        by reflexivity.
      split; [discriminate|]. intros [? ?]. discriminate.
  - rewrite predictPriceFromAPI_run. cbv zeta. unfold parsed_body.
    destruct (network (predictRequest JSON_stringify d)) as [|response].
    + erewrite errors_logged_app by (simpl; rewrite <- app_assoc; reflexivity).
      split; [discriminate|]. intros [? ?]. discriminate.
    + destruct (ok response).
      * destruct (text response ≫= JSON_parse) as [v|]; simpl.
        -- destruct (property v "prediction") as [x|].
           ++ erewrite errors_logged_app
                by (simpl; rewrite <- !app_assoc; reflexivity).
              split; [eauto|reflexivity].
           ++ erewrite errors_logged_app
                by (simpl; rewrite <- !app_assoc; reflexivity).
              split; [discriminate|]. intros [? ?]. discriminate.
        -- erewrite errors_logged_app by (simpl; rewrite <- app_assoc; reflexivity).
           split; [discriminate|]. intros [? ?]. discriminate.
      * erewrite errors_logged_app by (simpl; rewrite <- !app_assoc; reflexivity).
        split; [discriminate|]. intros [? ?]. discriminate.
  - rewrite checkAPIHealth_run. cbv zeta.
    destruct (network statusRequest) as [|response].
    + rewrite (errors_logged_app _ _ [(Err, "API health check failed:"%string)])
        by reflexivity.
      split; [discriminate|]. intros H. destruct H. reflexivity.
    + rewrite (errors_logged_app _ _ []) by (simpl; rewrite app_nil_r; reflexivity).
      split; [discriminate|reflexivity].
Qed.

(** The health check and the status check send the same request. When the
    status check gets the body of a successful exchange, the health check
    answers [true]; when the health check answers [false], the status check
    answers [untrained]. *)
Theorem health_and_status (w w' : World) :
  (forall v, parsed_body JSON_parse (network statusRequest) = Some v ->
     result (checkModelStatus network JSON_parse) w = Some v
     /\ result (checkAPIHealth network) w' = Some true)
  /\ (result (checkAPIHealth network) w' = Some false ->
      result (checkModelStatus network JSON_parse) w = Some untrained).
Proof.
  unfold result. rewrite checkModelStatus_run, checkAPIHealth_run. cbv zeta.
  unfold parsed_body.
  destruct (network statusRequest) as [|response]; simpl.
  - split; [discriminate|reflexivity].
  - destruct (ok response); simpl.
    + split; [|discriminate]. intros v ->. split; reflexivity.
    + split; [discriminate|reflexivity].
Qed.

End ClientFrame.

(** The object sent to the service has the ten fields of the record and
    nothing else, and determines the record: no field is left out or
    merged. *)
Theorem requestObject_carries_the_record (d d' : HouseData) :
  keys (requestObject d)
  = [ "squareFootage"; "bedrooms"; "bathrooms"; "yearBuilt"; "neighborhood";
      "lotSize"; "garage"; "basement"; "centralAir"; "kitchenQuality" ]%string
  /\ (requestObject d = requestObject d' -> d = d').
Proof.
  split; [reflexivity|].
  destruct d, d'. unfold requestObject. simpl. intros H.
  injection H as -> -> -> -> -> -> -> -> -> ->. reflexivity.
Qed.

(** * Further properties of the index page *)

Section PageProperties.

Variable network : Request -> FetchResult.
Variable JSON_parse : string -> option value.
Variable JSON_stringify : value -> string.

(** The status check of the page never throws and always ends the
    "checking" state. A failed exchange (no response, a status that is not a
    success status, a body that does not parse) is not reported as a
    connection error: [error] stays [null], the model counts as unavailable
    and the "Backend Model Not Ready" toast is shown. [error] is set only
    when the body of a successful exchange is [null]. The prediction shown
    and the loading flag of the page are left alone. *)
Theorem checkBackendStatus_settles (w : World) :
  let w' := (checkBackendStatus network JSON_parse w).1 in
  let body := parsed_body JSON_parse (network statusRequest) in
  ~ throws (checkBackendStatus network JSON_parse) w
  /\ modelStatus.isLoading (modelStatus w') = false
  /\ (modelStatus.error (modelStatus w')
      = match body with
        | Some status =>
            match property status "trained" with
            | Some _ => None
            | None => Some "Failed to connect to backend"%string
            end
        | None => None
        end)
  /\ (body = None ->
      modelStatus.isAvailable (modelStatus w') = VBool false
      /\ toasts w' = toasts w ++ [{| title := "Backend Model Not Ready";
                                     description := "Using simplified prediction model";
                                     variant := "default" |}])
  /\ predictedPrice w' = predictedPrice w /\ isLoading w' = isLoading w.
Proof.
  cbv zeta. unfold throws, checkBackendStatus, setModelStatus, toast. run.
  rewrite checkModelStatus_run. cbv zeta.
  destruct (parsed_body JSON_parse (network statusRequest)) as [status|]; simpl.
  - destruct (property status "trained") as [v|] eqn:Hv; simpl.
    + destruct (truthy v); simpl; repeat split; try tauto; discriminate.
    + repeat split; try tauto; discriminate.
  - repeat split; tauto.
Qed.


(** What a submit does besides showing a price, with the page's own client.
    It sends one request when [isAvailable] is truthy and none otherwise,
    and never a second one after a failure. It schedules one scroll when the
    window is narrower than 768 pixels and none otherwise, ends with the
    page no longer loading, and leaves the model status alone. *)
Theorem handleFormSubmit_effects (r : Q) (d : HouseData) (w : World) :
  let w' := (handleFormSubmit network JSON_parse JSON_stringify r d w).1 in
  ~ throws (handleFormSubmit network JSON_parse JSON_stringify r d) w
  /\ requests w'
     = requests w ++ (if truthy (modelStatus.isAvailable (modelStatus w))
                      then [predictRequest JSON_stringify d] else [])
  /\ scrolls w' = (scrolls w + if (innerWidth w <? 768)%Z then 1 else 0)%nat
  /\ isLoading w' = false
  /\ modelStatus w' = modelStatus w.
Proof.
  cbv zeta. unfold throws, handleFormSubmit, handleFormSubmitWith, priceAndSource,
    scrollToResults, setIsLoading, setPredictedPrice, toast, scheduleScroll.
  run.
  assert (S1 : forall n, S n = (n + 1)%nat) by (intros; lia).
  assert (S0 : forall n, n = (n + 0)%nat) by (intros; lia).
  destruct (truthy (modelStatus.isAvailable (modelStatus w))); simpl.
  - rewrite predictPriceFromAPI_run. cbv zeta.
    destruct (network (predictRequest JSON_stringify d)) as [|response]; simpl.
    + destruct (innerWidth w <? 768)%Z; simpl; repeat split; auto.
    + destruct (ok response); simpl.
      * destruct (text response ≫= JSON_parse) as [v|]; simpl.
        -- destruct (property v "prediction") as [x|]; simpl.
           ++ destruct (is_null x); simpl;
                destruct (innerWidth w <? 768)%Z; simpl; repeat split; auto.
           ++ destruct (innerWidth w <? 768)%Z; simpl; repeat split; auto.
        -- destruct (innerWidth w <? 768)%Z; simpl; repeat split; auto.
      * destruct (innerWidth w <? 768)%Z; simpl; repeat split; auto.
  - rewrite app_nil_r.
    destruct (innerWidth w <? 768)%Z; simpl; repeat split; auto.
Qed.

End PageProperties.

(** Whatever the remote operation does, return, throw or change the world,
    a submit does not throw, ends with the page no longer loading, shows a
    price that is not [null], and its last toast is the one of a remote or
    of a local prediction. *)
Theorem handleFormSubmitWith_settles (remote : HouseData -> M value) (r : Q)
    (d : HouseData) (w : World) :
  let w' := (handleFormSubmitWith remote r d w).1 in
  ~ throws (handleFormSubmitWith remote r d) w
  /\ isLoading w' = false
  /\ is_null (predictedPrice w') = false
  /\ exists source, (source = "API" \/ source = "fallback")%string
       /\ last (toasts w') = Some (predictionToast source).
Proof.
  cbv zeta.
  destruct (priceAndSource remote r d
              (with_predictedPrice VNull (with_isLoading true w)))
    as [w2 o] eqn:E.
  assert (H : exists price source, o = Returned (price, source)
            /\ is_null price = false
            /\ (source = "API" \/ source = "fallback")%string).
  { rewrite priceAndSource_run in E. cbv zeta in E.
    destruct (truthy _) in E.
    - destruct (remote d _) as [w3 [price|e]]; injection E as <- <-.
      + destruct (is_null price) eqn:Hp; do 2 eexists; eauto.
      + do 2 eexists; eauto.
    - injection E as <- <-. do 2 eexists; eauto. }
  destruct H as (price & source & -> & Hp & Hs).
  unfold throws. rewrite (handleFormSubmitWith_run remote r d w w2 price source E).
  cbv zeta. split; [simpl; tauto|].
  destruct (innerWidth w2 <? 768)%Z; cbn;
    (split; [reflexivity|]); (split; [exact Hp|]);
    exists source; (split; [exact Hs|]); apply last_snoc.
Qed.

(** * Properties of the form *)

#[local] Existing Instance HouseForm.FM_bind.

Ltac form_run :=
  unfold HouseForm.try_catch, HouseForm.try_finally, HouseForm.lift,
    HouseForm.setFormData, HouseForm.setNeighborhoods,
    HouseForm.setIsLoadingNeighborhoods, HouseForm.update, HouseForm.handleChange,
    mbind, HouseForm.FM_bind, mret, HouseForm.FM_ret;
  run.

Section FormProperties.

Variable network : Request -> FetchResult.
Variable JSON_parse : string -> option value.
Variable platform_message : error -> string.

(** A run of the load of the neighborhoods. *)
Lemma fetchNeighborhoods_run (st : HouseForm.State) (w : World) :
  HouseForm.fetchNeighborhoods network JSON_parse platform_message (st, w) =
  let answer := network HouseForm.neighborhoodsRequest in
  let w1 := record_request HouseForm.neighborhoodsRequest w in
  match HouseForm.accepted JSON_parse answer with
  | Some items =>
      (({| HouseForm.formData :=
             with_first_neighborhood items (HouseForm.formData st);
           HouseForm.neighborhoods := items;
           HouseForm.isLoadingNeighborhoods := false |}, w1), Returned tt)
  | None =>
      (({| HouseForm.formData := HouseForm.formData st;
           HouseForm.neighborhoods := HouseForm.DEFAULT_NEIGHBORHOODS;
           HouseForm.isLoadingNeighborhoods := false |},
        with_toast
          (HouseForm.warningToast platform_message (loading_error JSON_parse answer))
          (write_line (Err, "Neighborhood loading failed:"%string) w1)),
       Returned tt)
  end.
Proof.
  unfold HouseForm.fetchNeighborhoods, HouseForm.accepted, loading_error,
    toast, with_first_neighborhood.
  form_run. fold HouseForm.neighborhoodsRequest.
  destruct (network HouseForm.neighborhoodsRequest) as [|response]; simpl;
    [reflexivity|].
  destruct (ok response); simpl; [|reflexivity].
  destruct (is_json (contentType response)); simpl; [|reflexivity].
  destruct (text response) as [t|]; simpl; [|reflexivity].
  destruct (JSON_parse t) as [data|]; simpl; [|reflexivity].
  destruct (property data "neighborhoods") as [v|]; simpl; [|reflexivity].
  destruct v as [| |b|[|q]|s|items|props]; simpl; try reflexivity.
  - destruct b; reflexivity.
  - destruct (Qeq_bool q 0); reflexivity.
  - destruct (String.eqb s ""); reflexivity.
  - destruct items; reflexivity.
Qed.

(** The load of the neighborhoods never throws and always ends the loading
    state of the form, so the submit button is released whatever the
    service does. It sends one request, touches no field of the form data
    but [neighborhood], and nothing of the index page. *)
Theorem fetchNeighborhoods_settles (st : HouseForm.State) (w : World) :
  let run := HouseForm.fetchNeighborhoods network JSON_parse platform_message (st, w) in
  run.2 = Returned tt
  /\ HouseForm.isLoadingNeighborhoods run.1.1 = false
  /\ requests run.1.2 = requests w ++ [HouseForm.neighborhoodsRequest]
  /\ (forall k, k <> "neighborhood"%string ->
        HouseForm.formData run.1.1 !! k = HouseForm.formData st !! k)
  /\ predictedPrice run.1.2 = predictedPrice w
  /\ isLoading run.1.2 = isLoading w
  /\ modelStatus run.1.2 = modelStatus w.
Proof.
  cbv zeta. rewrite fetchNeighborhoods_run. cbv zeta.
  destruct (HouseForm.accepted JSON_parse (network HouseForm.neighborhoodsRequest))
    as [items|]; simpl.
  - repeat split; try reflexivity.
    intros k Hk. destruct items as [|first rest]; simpl; [reflexivity|].
    apply lookup_insert_ne. congruence.
  - repeat split; reflexivity.
Qed.

(** What the load leaves. An accepted answer (a successful exchange, a JSON
    content type and an array under [neighborhoods]) sets the options to
    that array, whatever its elements, and selects the first one; an empty
    array leaves the form with no option, the selection as it was, and no
    toast. Any other answer sets the five default options, keeps the
    selection, and shows one destructive "Warning" toast that carries the
    message of the error, which is also logged. *)
Theorem fetchNeighborhoods_outcome (st : HouseForm.State) (w : World) :
  let run := HouseForm.fetchNeighborhoods network JSON_parse platform_message (st, w) in
  let answer := network HouseForm.neighborhoodsRequest in
  match HouseForm.accepted JSON_parse answer with
  | Some items =>
      HouseForm.neighborhoods run.1.1 = items
      /\ HouseForm.formData run.1.1
         = with_first_neighborhood items (HouseForm.formData st)
      /\ toasts run.1.2 = toasts w /\ console run.1.2 = console w
  | None =>
      HouseForm.neighborhoods run.1.1 = HouseForm.DEFAULT_NEIGHBORHOODS
      /\ HouseForm.formData run.1.1 = HouseForm.formData st
      /\ toasts run.1.2
         = toasts w ++ [HouseForm.warningToast platform_message
                          (loading_error JSON_parse answer)]
      /\ console run.1.2
         = console w ++ [(Err, "Neighborhood loading failed:"%string)]
  end.
Proof.
  cbv zeta. rewrite fetchNeighborhoods_run. cbv zeta.
  destruct (HouseForm.accepted JSON_parse (network HouseForm.neighborhoodsRequest));
    simpl; repeat split; reflexivity.
Qed.

(** The form loads the neighborhoods with [fetch] and checks of its own, not
    with [fetchWithHandling]; the two agree: an answer is accepted with the
    array [items] exactly when [fetchWithHandling], on the same request,
    returns a body that holds [items] under [neighborhoods]. *)
Theorem fetchNeighborhoods_like_fetchWithHandling (items : list value) (w : World) :
  HouseForm.accepted JSON_parse (network HouseForm.neighborhoodsRequest) = Some items
  <-> exists v,
        result (fetchWithHandling network JSON_parse
                  "http://localhost:5000/api/neighborhoods"
                  (Some HouseForm.neighborhoodsOptions)) w = Some v
        /\ property v "neighborhoods" = Some (VArray items).
Proof.
  unfold result. rewrite fetchWithHandling_outcome.
  fold HouseForm.neighborhoodsRequest. unfold HouseForm.accepted.
  destruct (network HouseForm.neighborhoodsRequest) as [|response].
  { split; [discriminate|]. intros (v & H & _). discriminate. }
  destruct (ok response); simpl;
    [|split; [discriminate|]; intros (v & H & _); discriminate].
  destruct (is_json (contentType response)); simpl;
    [|split; [discriminate|]; intros (v & H & _); discriminate].
  destruct (text response) as [t|]; simpl;
    [|split; [discriminate|]; intros (v & H & _); discriminate].
  destruct (JSON_parse t) as [data|]; simpl;
    [|split; [discriminate|]; intros (v & H & _); discriminate].
  split.
  - intros H. exists data. split; [reflexivity|].
    destruct (property data "neighborhoods") as [[| | | | |l|]|];
      try discriminate. injection H as ->. reflexivity.
  - intros (v & Hv & Hp). injection Hv as <-. rewrite Hp. reflexivity.
Qed.

(** When the neighborhoods cannot be loaded, every option the form offers
    is a key of the factor table of the local estimator: the estimate of a
    record in that neighborhood applies the factor the table gives it, not
    the default and not [NaN]. *)
Theorem default_options_have_factors (d : HouseData) (st : HouseForm.State)
    (w : World) :
  HouseForm.accepted JSON_parse (network HouseForm.neighborhoodsRequest) = None ->
  Forall (λ option, exists k q,
            option = VString k /\ neighborhoodFactors !! k = Some q
            /\ ToNumber (neighborhoodFactor (in_neighborhood k d)) = Num q)
    (HouseForm.neighborhoods
       (HouseForm.fetchNeighborhoods network JSON_parse platform_message (st, w)).1.1).
Proof.
  intros H. rewrite fetchNeighborhoods_run. cbv zeta. rewrite H. simpl.
  unfold HouseForm.DEFAULT_NEIGHBORHOODS.
  repeat (apply Forall_cons; split;
          [do 2 eexists; split; [reflexivity|];
           assert (E : forall k q, neighborhoodFactors !! k = Some q ->
                         neighborhoodFactors !! k = Some q
                         /\ ToNumber (neighborhoodFactor (in_neighborhood k d)) = Num q)
             by (intros k q E; split; [exact E | exact (neighborhoodFactor_known d k q E)]);
           apply E; vm_compute; reflexivity|]).
  apply Forall_nil. exact I.
Qed.

(** Typing into a field other than [neighborhood] and the load of the
    neighborhoods commute: what the user typed while the list was loading
    is kept, in whichever order the two updates land. *)
Theorem handleChange_commutes_with_loading (field : string) (v : value)
    (st : HouseForm.State) (w : World) :
  field <> "neighborhood"%string ->
  (HouseForm.handleChange field v
     ≫= λ _, HouseForm.fetchNeighborhoods network JSON_parse platform_message) (st, w)
  = (HouseForm.fetchNeighborhoods network JSON_parse platform_message
       ≫= λ _, HouseForm.handleChange field v) (st, w).
Proof.
  intros Hf. unfold mbind, HouseForm.FM_bind.
  rewrite fetchNeighborhoods_run.
  unfold HouseForm.handleChange at 1, HouseForm.setFormData, HouseForm.update.
  cbn [fst snd]. rewrite fetchNeighborhoods_run. cbv zeta.
  destruct (HouseForm.accepted JSON_parse (network HouseForm.neighborhoodsRequest))
    as [items|]; simpl.
  - unfold HouseForm.handleChange, HouseForm.setFormData, HouseForm.update. simpl.
    destruct items as [|first rest]; simpl; [reflexivity|].
    rewrite insert_insert_ne by congruence. reflexivity.
  - reflexivity.
Qed.

End FormProperties.

Lemma default_options_have_factors_witness :
  Forall (λ option, exists k q,
            option = VString k /\ neighborhoodFactors !! k = Some q
            /\ ToNumber (neighborhoodFactor (in_neighborhood k oakParkExample)) = Num q)
    (HouseForm.neighborhoods
       (HouseForm.fetchNeighborhoods unreachable parse_prediction (λ _, ""%string)
          (emptyForm, initialWorld)).1.1).
Proof.
  apply (default_options_have_factors unreachable parse_prediction (λ _, ""%string)
           oakParkExample emptyForm initialWorld).
  reflexivity.
Defined.

Lemma handleChange_commutes_with_loading_witness :
  (HouseForm.handleChange "bedrooms" (VNumber (Num 4))
     ≫= λ _, HouseForm.fetchNeighborhoods unreachable parse_prediction (λ _, ""%string))
    (emptyForm, initialWorld)
  = (HouseForm.fetchNeighborhoods unreachable parse_prediction (λ _, ""%string)
       ≫= λ _, HouseForm.handleChange "bedrooms" (VNumber (Num 4)))
      (emptyForm, initialWorld).
Proof.
  apply (handleChange_commutes_with_loading unreachable parse_prediction
           (λ _, ""%string) "bedrooms" (VNumber (Num 4)) emptyForm initialWorld).
  discriminate.
Defined.

(** On HTTP 500 the form offers the defaults, and the toast names the
    status. *)
Example fetchNeighborhoods_500 :
  let run := HouseForm.fetchNeighborhoods
               (answering 500 (Some "text/html"%string) "") parse_prediction
               (λ _, ""%string) (emptyForm, initialWorld) in
  HouseForm.neighborhoods run.1.1 = HouseForm.DEFAULT_NEIGHBORHOODS
  /\ description <$> last (toasts run.1.2) = Some "HTTP error! status: 500"%string.
Proof. split; reflexivity. Qed.

(** * From the status check to a submit *)



(** * Binary64 arithmetic

    The operations of [SpecFloat] round the exact result to the nearest
    binary64 number: the result of [+], [-] and [*] on finite numbers is
    within [unit_roundoff] of the exact one, relatively, or within
    [underflow] of it, unless it overflows. *)

(** ** Shifting and rounding a mantissa *)

Local Open Scope Z_scope.

(** [fexp64] is the exponent function [SpecFloat] uses for binary64. *)
Lemma fexp64_eq e : SpecFloat.fexp prec emax e = fexp64 e.
Proof. reflexivity. Qed.

(** A mantissa of [d] digits lies in [[2^(d-1), 2^d)]. *)
Lemma digits2_pos_bounds (m : positive) :
  2 ^ (Zpos (digits2_pos m) - 1) <= Zpos m < 2 ^ Zpos (digits2_pos m).
Proof.
  induction m as [p IH|p IH|]; cbn [digits2_pos].
  - rewrite Pos2Z.inj_succ.
    replace (Z.succ (Z.pos (digits2_pos p)) - 1) with (Z.succ (Z.pos (digits2_pos p) - 1)) by lia.
    rewrite !Z.pow_succ_r by lia. lia.
  - rewrite Pos2Z.inj_succ.
    replace (Z.succ (Z.pos (digits2_pos p)) - 1) with (Z.succ (Z.pos (digits2_pos p) - 1)) by lia.
    rewrite !Z.pow_succ_r by lia. lia.
  - cbn. lia.
Qed.

Lemma shr_inv_init X : 0 <= X -> shr_inv 0 X (shr_record_of_loc X loc_Exact).
Proof.
  intros HX. exists 0. cbn. repeat split; try lia.
Qed.

Lemma shr_inv_step k X mrs :
  0 <= k -> shr_inv k X mrs -> shr_inv (k + 1) X (shr_1 mrs).
Proof.
  intros Hk (rem & HX & Hm & Hrem & Hr & Hs).
  destruct mrs as [m r s]. cbn [shr_m shr_r shr_s] in *.
  assert (H2 : 2 ^ (k + 1) = 2 * 2 ^ k) by (rewrite Z.pow_add_r by lia; lia).
  assert (Hp : 0 < 2 ^ k) by (apply Z.pow_pos_nonneg; lia).
  unfold shr_1.
  destruct m as [|[p|p|]|p]; try lia; cbn [shr_m shr_r shr_s].
  - exists rem. cbn [shr_m shr_r shr_s]. rewrite H2. do 4 (split; [lia|]).
    intros Hrs. apply orb_false_iff in Hrs as [-> ->]. specialize (Hs eq_refl). lia.
  - exists (2 ^ k + rem). cbn [shr_m shr_r shr_s]. rewrite H2. do 4 (split; [lia|]).
    intros Hrs. apply orb_false_iff in Hrs as [-> ->]. specialize (Hs eq_refl). lia.
  - exists rem. cbn [shr_m shr_r shr_s]. rewrite H2. do 4 (split; [lia|]).
    intros Hrs. apply orb_false_iff in Hrs as [-> ->]. specialize (Hs eq_refl). lia.
  - exists (2 ^ k + rem). cbn [shr_m shr_r shr_s]. rewrite H2. do 4 (split; [lia|]).
    intros Hrs. apply orb_false_iff in Hrs as [-> ->]. specialize (Hs eq_refl). lia.
Qed.

(** [n] shifts to the right keep the invariant, [n] places further. *)
Lemma shr_inv_iter n : forall k X mrs,
  0 <= k -> shr_inv k X mrs -> shr_inv (k + Zpos n) X (SpecFloat.iter_pos shr_1 n mrs).
Proof.
  induction n as [n IH|n IH|]; intros k X mrs Hk H; cbn [SpecFloat.iter_pos].
  - replace (k + Z.pos n~1) with (((k + 1) + Zpos n) + Zpos n) by lia.
    apply IH; [lia|]. apply IH; [lia|]. now apply shr_inv_step.
  - replace (k + Z.pos n~0) with ((k + Zpos n) + Zpos n) by lia.
    apply IH; [lia|]. now apply IH.
  - now apply shr_inv_step.
Qed.

(** Rounding to nearest, ties to even, after a shift by [k >= 1] places. *)
Lemma round_nearest_even_near k X mrs :
  1 <= k -> shr_inv k X mrs ->
  let m' := round_nearest_even (shr_m mrs) (loc_of_shr_record mrs) in
  shr_m mrs <= m' <= shr_m mrs + 1 /\ 2 * Z.abs (m' * 2 ^ k - X) <= 2 ^ k.
Proof.
  intros Hk (rem & HX & Hm & Hrem & Hr & Hs).
  destruct mrs as [m r s]. cbn [shr_m shr_r shr_s] in *.
  destruct r, s; cbn [loc_of_shr_record round_nearest_even].
  - split; [lia|]. nia.
  - specialize (Hs eq_refl). destruct (Z.even m); split; try lia; nia.
  - split; [lia|]. nia.
  - split; [lia|]. nia.
Qed.

Lemma digits2_pos_le (q : positive) (b : Z) :
  0 <= b -> Zpos q < 2 ^ b -> Zpos (digits2_pos q) <= b.
Proof.
  intros Hb Hq. pose proof (digits2_pos_bounds q) as [Hlo _].
  assert (H : 2 ^ (Zpos (digits2_pos q) - 1) < 2 ^ b) by lia.
  apply Z.pow_lt_mono_r_iff in H; lia.
Qed.

(** The rounding of [mx * 2^ex]: the mantissa and the exponent of the
    result, which is exact when no digit is shifted out, and else within
    half a unit of the last place kept; a result above the largest exponent
    is an infinity. *)
Lemma binary_round_aux_spec (s : bool) (mx : positive) (ex : Z) :
  let d := Zpos (digits2_pos mx) in
  let e1 := fexp64 (d + ex) in
  exists (m' e' : Z),
    binary_round_aux prec emax s (Zpos mx) ex loc_Exact =
      match m' with
      | Zpos p => if e' <=? 971 then S754_finite s p e' else S754_infinity s
      | _ => S754_zero s
      end
    /\ 0 <= m' /\
    ((e1 <= ex /\ m' = Zpos mx /\ e' = ex) \/
     (ex < e1 /\ (e' = e1 \/ (e' = e1 + 1 /\ m' = 2 ^ 52)) /\
      2 * Z.abs (m' * 2 ^ (e' - ex) - Zpos mx) <= 2 ^ (e1 - ex))).
Proof.
  intros d e1.
  unfold binary_round_aux, shr_fexp. cbn [Zdigits2]. rewrite fexp64_eq.
  fold d. fold e1. change (emax - prec) with 971.
  destruct (e1 - ex) as [|n|n] eqn:Hn.
  - (* no shift *)
    cbn [shr shr_record_of_loc shr_m loc_of_shr_record round_nearest_even Zdigits2].
    rewrite fexp64_eq. fold d. fold e1. rewrite Hn. cbn [shr shr_m].
    exists (Zpos mx), ex. split; [reflexivity|].
    split; [lia|]. left. repeat split; lia.
  - (* a shift by [n] places *)
    cbn [shr shr_record_of_loc].
    pose proof (shr_inv_iter n 0 (Zpos mx) _ (Z.le_refl 0)
                  (shr_inv_init (Zpos mx) (Pos2Z.is_nonneg mx))) as Hinv.
    cbn [shr_record_of_loc] in Hinv.
    set (mrs := SpecFloat.iter_pos shr_1 n _) in *.
    replace (0 + Zpos n) with (Zpos n) in Hinv by lia.
    pose proof (round_nearest_even_near (Zpos n) (Zpos mx) mrs ltac:(lia) Hinv) as Hnear.
    cbn zeta in Hnear.
    set (m2 := round_nearest_even (shr_m mrs) (loc_of_shr_record mrs)) in *.
    destruct Hnear as [Hm2 Herr].
    destruct Hinv as (rem & HX & Hm1 & Hrem & _ & _).
    pose proof (digits2_pos_bounds mx) as [_ Hd]. fold d in Hd.
    assert (He1 : e1 = ex + Zpos n) by lia.
    assert (He1lo : d + ex - 53 <= e1 /\ -1074 <= e1) by (unfold e1, fexp64; lia).
    assert (Hm253 : m2 <= 2 ^ 53).
    { assert (H : 2 ^ d <= 2 ^ 53 * 2 ^ Zpos n).
      { rewrite <- Z.pow_add_r by lia. apply Z.pow_le_mono_r; lia. }
      assert (Hp : 0 < 2 ^ Zpos n) by (apply Z.pow_pos_nonneg; lia).
      assert (shr_m mrs < 2 ^ 53) by nia. lia. }
    destruct m2 as [|q|q] eqn:Hq; [| |lia].
    + (* the result is zero *)
      cbn [Zdigits2]. rewrite fexp64_eq.
      replace (fexp64 (0 + (ex + Zpos n)) - (ex + Zpos n)) with
        (fexp64 e1 - e1) by (rewrite He1; f_equal; f_equal; lia).
      destruct (fexp64 e1 - e1) as [|k|k] eqn:Hk;
        [|unfold fexp64 in Hk; lia|]; cbn [shr shr_m];
        exists 0, e1; (split; [reflexivity|]); (split; [lia|]); right;
        (split; [lia|]); (split; [left; reflexivity|]);
        replace (e1 - ex) with (Zpos n) by lia; exact Herr.
    + cbn [Zdigits2]. rewrite fexp64_eq.
      replace (ex + Zpos n) with e1 by lia.
      destruct (Z.eq_dec (Zpos q) (2 ^ 53)) as [Htop|Htop].
      * (* the rounding carried into a new digit *)
        assert (q = 9007199254740992%positive) as -> by (vm_compute in Htop; congruence).
        change (Z.pos (digits2_pos 9007199254740992)) with 54.
        replace (fexp64 (54 + e1) - e1) with 1 by (unfold fexp64; lia).
        cbn [shr SpecFloat.iter_pos shr_1 shr_m].
        exists (2 ^ 52), (e1 + 1). split; [reflexivity|].
        split; [lia|]. right. split; [lia|]. split; [right; split; reflexivity|].
        replace (e1 + 1 - ex) with (Zpos n + 1) by lia.
        rewrite Z.pow_add_r by lia.
        replace (e1 - ex) with (Zpos n) by lia.
        change (2 ^ 52 * (2 ^ Zpos n * 2 ^ 1)) with (2 ^ 52 * (2 ^ Zpos n * 2)).
        replace (2 ^ 52 * (2 ^ Z.pos n * 2)) with (2 ^ 53 * 2 ^ Zpos n)
          by (change (2 ^ 53) with (2 ^ 52 * 2); ring).
        rewrite <- Htop at 1. exact Herr.
      * assert (Hdq : Zpos (digits2_pos q) <= 53) by (apply digits2_pos_le; lia).
        destruct (fexp64 (Zpos (digits2_pos q) + e1) - e1) as [|k|k] eqn:Hk;
          [|unfold fexp64 in Hk; lia|]; cbn [shr shr_m];
          exists (Zpos q), e1; (split; [reflexivity|]);
          (split; [lia|]); right; (split; [lia|]); (split; [left; reflexivity|]);
          replace (e1 - ex) with (Zpos n) by lia; exact Herr.
  - (* no shift *)
    cbn [shr shr_record_of_loc shr_m loc_of_shr_record round_nearest_even Zdigits2].
    rewrite fexp64_eq. fold d. fold e1. rewrite Hn. cbn [shr shr_m].
    exists (Zpos mx), ex. split; [reflexivity|].
    split; [lia|]. left. repeat split; lia.
Qed.

Local Close Scope Z_scope.

(** ** The value of a rounded result *)

Lemma pow2_pos e : 0 < pow2 e.
Proof. apply Qpower_0_lt. reflexivity. Qed.

Lemma pow2_add a b : pow2 (a + b) == pow2 a * pow2 b.
Proof. apply Qpower_plus. discriminate. Qed.

Lemma pow2_Z k : (0 <= k)%Z -> pow2 k == inject_Z (2 ^ k).
Proof. intros H. unfold pow2. now rewrite Zpower_Qpower. Qed.

Lemma pow2_le a b : (a <= b)%Z -> pow2 a <= pow2 b.
Proof. intros H. apply Qpower_le_compat_l; [exact H|discriminate]. Qed.

Lemma pow2_le_inv a b : pow2 a <= pow2 b -> (a <= b)%Z.
Proof. intros H. apply (Qpower_le_compat_l_inv 2); [exact H|reflexivity]. Qed.

Lemma pow2_lt_inv a b : pow2 a < pow2 b -> (a < b)%Z.
Proof. intros H. apply (Qpower_lt_compat_l_inv 2); [exact H|reflexivity]. Qed.

Lemma inject_Z_cond_Zopp s z :
  inject_Z (cond_Zopp s z) == (if s then -1 else 1) * inject_Z z.
Proof.
  destruct s; cbn [cond_Zopp].
  - rewrite inject_Z_opp. ring.
  - ring.
Qed.

Lemma Qabs_sign (s : bool) x : Qabs ((if s then -1 else 1) * x) == Qabs x.
Proof.
  destruct s.
  - setoid_replace (-1 * x) with (- x) using relation Qeq by ring. apply Qabs_opp.
  - now setoid_replace (1 * x) with x using relation Qeq by ring.
Qed.

Lemma digits2_pos_pow2 (m : positive) :
  pow2 (Zpos (digits2_pos m) - 1) <= inject_Z (Zpos m) /\
  inject_Z (Zpos m) < pow2 (Zpos (digits2_pos m)).
Proof.
  pose proof (digits2_pos_bounds m) as [Hlo Hhi].
  assert (1 <= Zpos (digits2_pos m))%Z by lia.
  rewrite !pow2_Z by lia. split.
  - now rewrite <- Zle_Qle.
  - now rewrite <- Zlt_Qlt.
Qed.

(** The value of a rounded result that does not overflow is within
    [unit_roundoff], relatively, or [underflow] of the exact value. *)
Lemma binary_round_aux_Q s mx ex :
  let d := Zpos (digits2_pos mx) in
  (fexp64 (d + ex) <= ex -> ex <= 971)%Z -> (d + ex <= 1023)%Z ->
  let z := binary_round_aux prec emax s (Zpos mx) ex loc_Exact in
  let v := inject_Z (cond_Zopp s (Zpos mx)) * pow2 ex in
  SFfinite z = true /\ Qabs (SF2Q z - v) <= unit_roundoff * Qabs v + underflow.
Proof.
  intros d Hsmall Hbig z v.
  assert (Hu : 0 < unit_roundoff) by apply pow2_pos.
  assert (Heta : 0 < underflow) by apply pow2_pos.
  pose proof (Qabs_nonneg v) as Hv.
  destruct (binary_round_aux_spec s mx ex) as (m' & e' & Hz & Hm' & Hcases).
  fold z in Hz. fold d in Hcases.
  assert (He'971 : (e' <=? 971)%Z = true).
  { apply Z.leb_le. unfold fexp64 in *. lia. }
  rewrite He'971 in Hz.
  assert (Hval : SF2Q z == inject_Z (cond_Zopp s m') * pow2 e').
  { rewrite Hz. destruct m' as [|p|p]; cbn [SF2Q]; try reflexivity.
    - destruct s; cbn [cond_Zopp]; [change (- 0)%Z with 0%Z|];
        change (inject_Z 0) with 0; ring.
    - lia. }
  split; [rewrite Hz; now destruct m'|].
  destruct Hcases as [(_ & -> & ->)|(Hlt & Hle & Herr)].
  - setoid_replace (SF2Q z - v) with 0 using relation Qeq by (rewrite Hval; unfold v; ring).
    change (Qabs 0) with 0. nra.
  - set (e1 := fexp64 (d + ex)) in *.
    remember (e' - ex)%Z as k eqn:Hkdef.
    assert (Hk : (0 <= k)%Z) by lia.
    assert (He' : pow2 e' == pow2 ex * inject_Z (2 ^ k)).
    { replace e' with (ex + k)%Z by lia. rewrite pow2_add, (pow2_Z k Hk). reflexivity. }
    assert (Hdiff : SF2Q z - v ==
                    (if s then -1 else 1) *
                    (inject_Z (m' * 2 ^ k - Zpos mx) * pow2 ex)).
    { rewrite Hval. unfold v. rewrite !inject_Z_cond_Zopp, He'.
      unfold Z.sub. rewrite inject_Z_plus, inject_Z_mult, inject_Z_opp. ring. }
    rewrite Hdiff, Qabs_sign, Qabs_Qmult.
    pose proof (pow2_pos ex) as Hpex.
    rewrite (Qabs_pos (pow2 ex)) by lra.
    change (Qabs (inject_Z (m' * 2 ^ k - Zpos mx)))
      with (inject_Z (Z.abs (m' * 2 ^ k - Zpos mx))).
    assert (Herr' : 2 * inject_Z (Z.abs (m' * 2 ^ k - Z.pos mx)) <=
                    inject_Z (2 ^ (e1 - ex))).
    { change 2 with (inject_Z 2). rewrite <- inject_Z_mult, <- Zle_Qle. exact Herr. }
    assert (He1 : pow2 e1 == pow2 ex * inject_Z (2 ^ (e1 - ex))).
    { replace e1 with (ex + (e1 - ex))%Z at 1 by lia.
      rewrite pow2_add, (pow2_Z (e1 - ex)) by lia. reflexivity. }
    assert (Hhalf : inject_Z (Z.abs (m' * 2 ^ k - Z.pos mx)) * pow2 ex <=
                    pow2 (e1 - 1)).
    { assert (H2 : pow2 e1 == 2 * pow2 (e1 - 1)).
      { replace e1 with (1 + (e1 - 1))%Z at 1 by lia. now rewrite pow2_add. }
      nra. }
    assert (Hbound : pow2 (e1 - 1) <= unit_roundoff * Qabs v + underflow).
    { unfold e1, fexp64. destruct (Z.max_spec (d + ex - 53) (-1074)) as [[_ ->]|[_ ->]].
      - change (pow2 (-1074 - 1)) with underflow. nra.
      - unfold v. rewrite inject_Z_cond_Zopp, Qabs_Qmult, Qabs_sign.
        rewrite (Qabs_pos (pow2 ex)) by lra.
        change (Qabs (inject_Z (Zpos mx))) with (inject_Z (Zpos mx)).
        pose proof (digits2_pos_pow2 mx) as [Hlo _]. fold d in Hlo.
        replace (d + ex - 53 - 1)%Z with (-53 + ((d - 1) + ex))%Z by lia.
        rewrite !pow2_add. fold unit_roundoff.
        assert (H1 : pow2 (d - 1) * pow2 ex <= inject_Z (Zpos mx) * pow2 ex)
          by (apply Qmult_le_compat_r; lra).
        set (A := pow2 (d - 1) * pow2 ex) in *.
        set (B := inject_Z (Zpos mx) * pow2 ex) in *.
        clearbody A B. nra. }
    lra.
Qed.

(** ** Products, sums and differences *)

(** A valid finite number has a canonical mantissa and an exponent of at
    most 971. *)
Lemma valid_finite s m e :
  SpecFloat.valid_binary prec emax (S754_finite s m e) = true ->
  (fexp64 (Zpos (digits2_pos m) + e) = e /\ e <= 971)%Z.
Proof.
  cbn [SpecFloat.valid_binary].
  unfold SpecFloat.bounded, SpecFloat.canonical_mantissa.
  rewrite fexp64_eq. intros H. apply andb_true_iff in H as [H1 H2].
  apply Z.eqb_eq in H1. apply Z.leb_le in H2.
  change (emax - prec)%Z with 971%Z in H2. now split.
Qed.

Lemma iter_xO_value (m d : positive) :
  Zpos (Pos.iter xO m d) = (Zpos m * 2 ^ Zpos d)%Z.
Proof.
  induction d as [|d IH] using Pos.peano_ind.
  - cbn. lia.
  - rewrite Pos.iter_succ, Pos2Z.inj_succ, Z.pow_succ_r by lia.
    rewrite Pos2Z.inj_xO, IH. ring.
Qed.

Lemma iter_xO_digits (m d : positive) :
  Zpos (digits2_pos (Pos.iter xO m d)) = (Zpos (digits2_pos m) + Zpos d)%Z.
Proof.
  induction d as [|d IH] using Pos.peano_ind.
  - cbn [Pos.iter digits2_pos]. lia.
  - rewrite Pos.iter_succ. cbn [digits2_pos]. rewrite !Pos2Z.inj_succ, IH. lia.
Qed.

Lemma shl_align_value (m : positive) (e e' : Z) :
  let '(m', e'') := shl_align m e e' in
  (e'' = Z.min e e' /\ Zpos m' = Zpos m * 2 ^ (e - e'') /\
   Zpos (digits2_pos m') = Zpos (digits2_pos m) + (e - e''))%Z.
Proof.
  unfold shl_align. destruct (e' - e)%Z as [|d|d] eqn:Hd.
  - replace (e - e)%Z with 0%Z by lia. cbn. lia.
  - replace (e - e)%Z with 0%Z by lia. cbn. lia.
  - rewrite iter_xO_value, iter_xO_digits.
    replace (e - e')%Z with (Zpos d) by lia. lia.
Qed.

Lemma digits_exponent (s : bool) (m : positive) (e : Z) :
  Qabs (SFvalue s (Zpos m) e) <= pow2 1000 ->
  (Zpos (digits2_pos m) + e <= 1001)%Z.
Proof.
  unfold SFvalue. rewrite inject_Z_cond_Zopp, Qabs_Qmult, Qabs_sign.
  pose proof (pow2_pos e) as He. rewrite (Qabs_pos (pow2 e)) by lra.
  change (Qabs (inject_Z (Zpos m))) with (inject_Z (Zpos m)).
  intros H. pose proof (digits2_pos_pow2 m) as [Hlo _].
  assert (H1 : pow2 (Zpos (digits2_pos m) - 1 + e) <= pow2 1000).
  { rewrite pow2_add.
    assert (pow2 (Z.pos (digits2_pos m) - 1) * pow2 e <= inject_Z (Z.pos m) * pow2 e)
      by (apply Qmult_le_compat_r; lra).
    lra. }
  apply pow2_le_inv in H1. lia.
Qed.

Lemma binary_round_Q s m e :
  Qabs (SFvalue s (Zpos m) e) <= pow2 1000 ->
  let z := binary_round prec emax s m e in
  SFfinite z = true /\
  Qabs (SF2Q z - SFvalue s (Zpos m) e) <= unit_roundoff * Qabs (SFvalue s (Zpos m) e) + underflow.
Proof.
  intros Hv z. pose proof (digits_exponent s m e Hv) as Hd.
  unfold z, binary_round. rewrite fexp64_eq.
  pose proof (shl_align_value m e (fexp64 (Zpos (digits2_pos m) + e))) as Hal.
  destruct (shl_align m e _) as [m' e''].
  destruct Hal as (He'' & Hm' & Hd').
  assert (Hsame : SFvalue s (Zpos m') e'' == SFvalue s (Zpos m) e).
  { assert (He : pow2 e == pow2 (e - e'') * pow2 e'').
    { rewrite <- pow2_add. now replace (e - e'' + e'')%Z with e by lia. }
    unfold SFvalue. rewrite !inject_Z_cond_Zopp, Hm', inject_Z_mult.
    rewrite <- (pow2_Z (e - e'')) by lia. rewrite He. ring. }
  rewrite <- Hsame.
  apply binary_round_aux_Q.
  - rewrite Hd'. replace (Zpos (digits2_pos m) + (e - e'') + e'')%Z
      with (Zpos (digits2_pos m) + e)%Z by lia.
    unfold fexp64 in *. lia.
  - lia.
Qed.

Lemma binary_normalize_Q (M : Z) (e : Z) (szero : bool) :
  Qabs (inject_Z M * pow2 e) <= pow2 1000 ->
  let z := binary_normalize prec emax M e szero in
  SFfinite z = true /\
  Qabs (SF2Q z - inject_Z M * pow2 e) <= unit_roundoff * Qabs (inject_Z M * pow2 e) + underflow.
Proof.
  intros Hv z.
  assert (Hu : 0 < unit_roundoff) by apply pow2_pos.
  assert (Heta : 0 < underflow) by apply pow2_pos.
  destruct M as [|m|m]; cbn [binary_normalize] in z; unfold z.
  - split; [reflexivity|].
    assert (H0 : SF2Q (S754_zero szero) - inject_Z 0 * pow2 e == 0)
      by (cbn [SF2Q]; ring).
    rewrite H0. pose proof (Qabs_nonneg (inject_Z 0 * pow2 e)).
    change (Qabs 0) with 0. nra.
  - apply (binary_round_Q false m e). exact Hv.
  - apply (binary_round_Q true m e). exact Hv.
Qed.

Lemma SF2Q_finite s m e : SF2Q (S754_finite s m e) = SFvalue s (Zpos m) e.
Proof. reflexivity. Qed.

Lemma SFvalue_mul sx mx ex sy my ey :
  SFvalue (xorb sx sy) (Zpos (mx * my)) (ex + ey) ==
  SFvalue sx (Zpos mx) ex * SFvalue sy (Zpos my) ey.
Proof.
  unfold SFvalue. rewrite !inject_Z_cond_Zopp, pow2_add, Pos2Z.inj_mul, inject_Z_mult.
  destruct sx, sy; cbn [xorb]; ring.
Qed.

Lemma exact_result (z v : Q) : z == v -> Qabs (z - v) <= unit_roundoff * Qabs v + underflow.
Proof.
  intros H. assert (Hu : 0 < unit_roundoff) by apply pow2_pos.
  assert (Heta : 0 < underflow) by apply pow2_pos.
  pose proof (Qabs_nonneg v).
  setoid_replace (z - v) with 0 using relation Qeq by (rewrite H; ring).
  change (Qabs 0) with 0. nra.
Qed.

(** The product of two finite numbers, when the exact product is at most
    [2^1000] in magnitude, is finite and within one rounding of it. *)
Lemma SFmul_Q (x y : spec_float) :
  SpecFloat.valid_binary prec emax x = true ->
  SpecFloat.valid_binary prec emax y = true ->
  SFfinite x = true -> SFfinite y = true ->
  Qabs (SF2Q x * SF2Q y) <= pow2 1000 ->
  SFfinite (SFmul prec emax x y) = true /\
  Qabs (SF2Q (SFmul prec emax x y) - SF2Q x * SF2Q y) <=
    unit_roundoff * Qabs (SF2Q x * SF2Q y) + underflow.
Proof.
  intros Vx Vy Fx Fy Hv.
  destruct x as [sx|sx| |sx mx ex], y as [sy|sy| |sy my ey];
    try discriminate; cbn [SFmul];
    try (split; [reflexivity|]; apply exact_result; cbn [SF2Q]; ring).
  rewrite !SF2Q_finite in *. rewrite <- SFvalue_mul in *.
  pose proof (digits_exponent _ _ _ Hv) as Hd.
  apply valid_finite in Vx as [Cx Bx]. apply valid_finite in Vy as [Cy By].
  apply binary_round_aux_Q; [|lia].
  intros Hsmall.
  pose proof (digits2_pos_bounds mx) as [Lx _].
  pose proof (digits2_pos_bounds my) as [Ly _].
  pose proof (digits2_pos_bounds (mx * my)) as [_ Hxy].
  set (dx := Zpos (digits2_pos mx)) in *. set (dy := Zpos (digits2_pos my)) in *.
  set (d := Zpos (digits2_pos (mx * my))) in *.
  assert (Hdx : (1 <= dx)%Z) by (unfold dx; lia).
  assert (Hdy : (1 <= dy)%Z) by (unfold dy; lia).
  assert (Hdd : (dx + dy - 2 < d)%Z).
  { apply (Z.pow_lt_mono_r_iff 2); [lia|unfold d; lia|].
    replace (dx + dy - 2)%Z with ((dx - 1) + (dy - 1))%Z by lia.
    rewrite Z.pow_add_r by lia. rewrite Pos2Z.inj_mul in Hxy.
    assert (0 < 2 ^ (dx - 1))%Z by (apply Z.pow_pos_nonneg; lia).
    assert (0 < 2 ^ (dy - 1))%Z by (apply Z.pow_pos_nonneg; lia).
    nia. }
  unfold fexp64 in *. lia.
Qed.

Lemma shl_align_fst (m : positive) (e e' : Z) :
  (e' <= e)%Z -> Zpos (fst (shl_align m e e')) = (Zpos m * 2 ^ (e - e'))%Z.
Proof.
  intros H. pose proof (shl_align_value m e e') as Hal.
  destruct (shl_align m e e') as [m' e'']. cbn [fst].
  destruct Hal as (He'' & Hm' & _). rewrite Hm'. f_equal. f_equal. lia.
Qed.

Lemma SFvalue_align s (m : positive) (e e' : Z) :
  (e' <= e)%Z ->
  inject_Z (cond_Zopp s (Zpos (fst (shl_align m e e')))) * pow2 e' ==
  SFvalue s (Zpos m) e.
Proof.
  intros H. rewrite inject_Z_cond_Zopp, shl_align_fst, inject_Z_mult by exact H.
  rewrite <- (pow2_Z (e - e')) by lia.
  assert (He : pow2 e == pow2 (e - e') * pow2 e').
  { rewrite <- pow2_add. now replace (e - e' + e')%Z with e by lia. }
  unfold SFvalue. rewrite inject_Z_cond_Zopp, He. ring.
Qed.

(** So are the sum and the difference. *)
Lemma SFadd_Q (x y : spec_float) :
  SFfinite x = true -> SFfinite y = true ->
  Qabs (SF2Q x + SF2Q y) <= pow2 1000 ->
  SFfinite (SFadd prec emax x y) = true /\
  Qabs (SF2Q (SFadd prec emax x y) - (SF2Q x + SF2Q y)) <=
    unit_roundoff * Qabs (SF2Q x + SF2Q y) + underflow.
Proof.
  intros Fx Fy Hv.
  destruct x as [sx|sx| |sx mx ex], y as [sy|sy| |sy my ey];
    try discriminate; cbn [SFadd].
  - destruct sx, sy; (split; [reflexivity|]); apply exact_result; cbn [SF2Q]; ring.
  - split; [reflexivity|]. apply exact_result; cbn [SF2Q]; ring.
  - split; [reflexivity|]. apply exact_result; cbn [SF2Q]; ring.
  - cbn zeta. rewrite !SF2Q_finite in *.
    set (ez := Z.min ex ey).
    assert (Hsum : inject_Z (cond_Zopp sx (Zpos (fst (shl_align mx ex ez))) +
                             cond_Zopp sy (Zpos (fst (shl_align my ey ez)))) * pow2 ez ==
                   SFvalue sx (Zpos mx) ex + SFvalue sy (Zpos my) ey).
    { rewrite inject_Z_plus, Qmult_plus_distr_l.
      rewrite !SFvalue_align by (unfold ez; lia). reflexivity. }
    rewrite <- Hsum in *.
    now apply binary_normalize_Q.
Qed.

Lemma SFsub_Q (x y : spec_float) :
  SFfinite x = true -> SFfinite y = true ->
  Qabs (SF2Q x - SF2Q y) <= pow2 1000 ->
  SFfinite (SFsub prec emax x y) = true /\
  Qabs (SF2Q (SFsub prec emax x y) - (SF2Q x - SF2Q y)) <=
    unit_roundoff * Qabs (SF2Q x - SF2Q y) + underflow.
Proof.
  intros Fx Fy Hv.
  destruct x as [sx|sx| |sx mx ex], y as [sy|sy| |sy my ey];
    try discriminate; cbn [SFsub].
  - destruct sx, sy; (split; [reflexivity|]); apply exact_result; cbn [SF2Q]; ring.
  - split; [reflexivity|]. apply exact_result. rewrite !SF2Q_finite. unfold SFvalue.
    rewrite !inject_Z_cond_Zopp. cbn [SF2Q]. destruct sy; cbn [negb]; ring.
  - split; [reflexivity|]. apply exact_result; cbn [SF2Q]; ring.
  - cbn zeta. rewrite !SF2Q_finite in *.
    set (ez := Z.min ex ey).
    assert (Hsum : inject_Z (cond_Zopp sx (Zpos (fst (shl_align mx ex ez))) -
                             cond_Zopp sy (Zpos (fst (shl_align my ey ez)))) * pow2 ez ==
                   SFvalue sx (Zpos mx) ex - SFvalue sy (Zpos my) ey).
    { unfold Z.sub. rewrite inject_Z_plus, inject_Z_opp.
      setoid_replace ((inject_Z (cond_Zopp sx (Zpos (fst (shl_align mx ex ez)))) +
                       - inject_Z (cond_Zopp sy (Zpos (fst (shl_align my ey ez))))) * pow2 ez)
        with (inject_Z (cond_Zopp sx (Zpos (fst (shl_align mx ex ez)))) * pow2 ez -
              inject_Z (cond_Zopp sy (Zpos (fst (shl_align my ey ez)))) * pow2 ez) using relation Qeq by ring.
      rewrite !SFvalue_align by (unfold ez; lia). reflexivity. }
    rewrite <- Hsum in *.
    now apply binary_normalize_Q.
Qed.

(** ** The operations on [float] *)

Lemma mul_Q (x y : float) :
  finite x = true -> finite y = true ->
  Qabs (F2Q x * F2Q y) <= pow2 1000 ->
  finite (x * y) = true /\
  Qabs (F2Q (x * y) - F2Q x * F2Q y) <= unit_roundoff * Qabs (F2Q x * F2Q y) + underflow.
Proof.
  unfold finite, F2Q. rewrite FloatAxioms.mul_spec. unfold SF64mul.
  apply SFmul_Q; apply Prim2SF_valid.
Qed.

Lemma add_Q (x y : float) :
  finite x = true -> finite y = true ->
  Qabs (F2Q x + F2Q y) <= pow2 1000 ->
  finite (x + y) = true /\
  Qabs (F2Q (x + y) - (F2Q x + F2Q y)) <= unit_roundoff * Qabs (F2Q x + F2Q y) + underflow.
Proof.
  unfold finite, F2Q. rewrite FloatAxioms.add_spec. unfold SF64add. apply SFadd_Q.
Qed.

Lemma sub_Q (x y : float) :
  finite x = true -> finite y = true ->
  Qabs (F2Q x - F2Q y) <= pow2 1000 ->
  finite (x - y) = true /\
  Qabs (F2Q (x - y) - (F2Q x - F2Q y)) <= unit_roundoff * Qabs (F2Q x - F2Q y) + underflow.
Proof.
  unfold finite, F2Q. rewrite FloatAxioms.sub_spec. unfold SF64sub. apply SFsub_Q.
Qed.

(** ** Results that are exact *)

Lemma binary_round_aux_exact s mx ex :
  (fexp64 (Zpos (digits2_pos mx) + ex) <= ex)%Z -> (ex <= 971)%Z ->
  (Zpos (digits2_pos mx) + ex <= 1023)%Z ->
  binary_round_aux prec emax s (Zpos mx) ex loc_Exact = S754_finite s mx ex.
Proof.
  intros Hle Hex Hbig.
  destruct (binary_round_aux_spec s mx ex)
    as (m' & e' & Hz & Hm' & [(_ & -> & ->)|(Hlt & _)]).
  - rewrite Hz. now replace (ex <=? 971)%Z with true by (symmetry; apply Z.leb_le; lia).
  - lia.
Qed.

Lemma binary_round_exact s m e :
  (fexp64 (Zpos (digits2_pos m) + e) <= e)%Z ->
  (Zpos (digits2_pos m) + e <= 1023)%Z ->
  let z := binary_round prec emax s m e in
  SFfinite z = true /\ SF2Q z == SFvalue s (Zpos m) e.
Proof.
  intros Hle Hbig z. unfold z, binary_round. rewrite fexp64_eq.
  pose proof (shl_align_value m e (fexp64 (Zpos (digits2_pos m) + e))) as Hal.
  destruct (shl_align m e _) as [m' e''].
  destruct Hal as (He'' & Hm' & Hd').
  assert (Hsame : SFvalue s (Zpos m') e'' == SFvalue s (Zpos m) e).
  { assert (He : pow2 e == pow2 (e - e'') * pow2 e'').
    { rewrite <- pow2_add. now replace (e - e'' + e'')%Z with e by lia. }
    unfold SFvalue. rewrite !inject_Z_cond_Zopp, Hm', inject_Z_mult.
    rewrite <- (pow2_Z (e - e'')) by lia. rewrite He. ring. }
  rewrite binary_round_aux_exact.
  - split; [reflexivity|]. rewrite SF2Q_finite. exact Hsame.
  - rewrite Hd'. replace (Zpos (digits2_pos m) + (e - e'') + e'')%Z
      with (Zpos (digits2_pos m) + e)%Z by lia. lia.
  - unfold fexp64 in *. lia.
  - lia.
Qed.

Lemma digits2_pos_shift (m m' : positive) (k : Z) :
  (0 <= k)%Z -> (Zpos m = Zpos m' * 2 ^ k)%Z ->
  (Zpos (digits2_pos m) = Zpos (digits2_pos m') + k)%Z.
Proof.
  intros Hk Hm.
  pose proof (digits2_pos_bounds m) as [L H].
  pose proof (digits2_pos_bounds m') as [L' H'].
  set (d := Zpos (digits2_pos m)) in *. set (d' := Zpos (digits2_pos m')) in *.
  assert (1 <= d)%Z by (unfold d; lia). assert (1 <= d')%Z by (unfold d'; lia).
  assert (Hp : (0 < 2 ^ k)%Z) by (apply Z.pow_pos_nonneg; lia).
  assert (Hup : (2 ^ (d - 1) < 2 ^ (d' + k))%Z).
  { rewrite Z.pow_add_r by lia. nia. }
  assert (Hdn : (2 ^ (d' - 1 + k) < 2 ^ d)%Z).
  { rewrite Z.pow_add_r by lia. nia. }
  apply Z.pow_lt_mono_r_iff in Hup; [|lia|lia].
  apply Z.pow_lt_mono_r_iff in Hdn; [|lia|lia].
  lia.
Qed.

(** A rounding whose exact value is a binary64 number yields that number. *)
Lemma binary_round_aux_representable s mx ex (m : positive) (e : Z) :
  SpecFloat.valid_binary prec emax (S754_finite s m e) = true ->
  (ex <= e)%Z -> (Zpos mx = Zpos m * 2 ^ (e - ex))%Z ->
  binary_round_aux prec emax s (Zpos mx) ex loc_Exact = S754_finite s m e.
Proof.
  intros Vx Hex Hmx.
  apply valid_finite in Vx as [Cx Bx].
  pose proof (digits2_pos_shift mx m (e - ex) ltac:(lia) Hmx) as Hd.
  assert (He1 : fexp64 (Zpos (digits2_pos mx) + ex) = e)
    by (rewrite Hd; replace (Zpos (digits2_pos m) + (e - ex) + ex)%Z
          with (Zpos (digits2_pos m) + e)%Z by lia; exact Cx).
  assert (H971 : (e <=? 971)%Z = true) by (apply Z.leb_le; lia).
  destruct (binary_round_aux_spec s mx ex)
    as (m' & e' & Hz & Hm' & [(Hle & -> & ->)|(Hlt & He' & Herr)]).
  - rewrite He1 in Hle. assert (e = ex) as -> by lia.
    replace (ex - ex)%Z with 0%Z in Hmx by lia.
    rewrite Hz, H971. f_equal. lia.
  - rewrite He1 in *.
    assert (Hee : (e <= e')%Z) by lia.
    assert (Hp : (0 < 2 ^ (e - ex))%Z) by (apply Z.pow_pos_nonneg; lia).
    assert (Hsplit : (2 ^ (e' - ex) = 2 ^ (e' - e) * 2 ^ (e - ex))%Z).
    { rewrite <- Z.pow_add_r by lia. f_equal. lia. }
    assert (Hm : (m' * 2 ^ (e' - e) = Zpos m)%Z).
    { rewrite Hsplit, Hmx in Herr.
      assert ((m' * (2 ^ (e' - e) * 2 ^ (e - ex)) - Zpos m * 2 ^ (e - ex) =
               (m' * 2 ^ (e' - e) - Zpos m) * 2 ^ (e - ex))%Z) as Hfac by ring.
      rewrite Hfac, Z.abs_mul in Herr.
      rewrite (Z.abs_eq (2 ^ (e - ex))) in Herr by lia.
      assert (Z.abs (m' * 2 ^ (e' - e) - Zpos m) < 1)%Z by nia. lia. }
    destruct He' as [->|[-> ->]].
    + replace (e - e)%Z with 0%Z in Hm by lia.
      rewrite Hz, H971. destruct m' as [|p|p]; [lia| |lia]. f_equal. lia.
    + exfalso. replace (e + 1 - e)%Z with 1%Z in Hm by lia.
      assert (m = 9007199254740992%positive) as -> by (vm_compute in Hm; congruence).
      change (Zpos (digits2_pos 9007199254740992)) with 54%Z in Cx.
      unfold fexp64 in Cx. lia.
Qed.

(** Multiplying by 1 changes no number, finite or not. *)
Lemma mul_1_r (x : float) : (x * 1)%float = x.
Proof.
  apply Prim2SF_inj. rewrite FloatAxioms.mul_spec. unfold SF64mul.
  pose proof (Prim2SF_valid x) as Vx.
  change (Prim2SF 1) with (S754_finite false 4503599627370496 (-52)).
  destruct (Prim2SF x) as [s|s| |s m e]; cbn [SFmul];
    try reflexivity; try (now destruct s).
  replace (xorb s false) with s by (now destruct s).
  apply binary_round_aux_representable; [exact Vx|lia|].
  replace (e - (e + -52))%Z with 52%Z by lia.
  rewrite Pos2Z.inj_mul. reflexivity.
Qed.

(** ** Bounds on the error of an expression *)

Lemma round_up_ge (q : Q) : q <= round_up q.
Proof.
  unfold round_up. set (G := 1267650600228229401496703205376%positive).
  pose proof (Qle_ceiling (q * (Zpos G # 1))) as H.
  set (c := Qceiling (q * (Zpos G # 1))) in *.
  assert (Hc : c # G == inject_Z c * (1 # G)).
  { unfold Qeq, inject_Z. cbn [Qnum Qden Qmult]. lia. }
  assert (HG : (Zpos G # 1) * (1 # G) == 1) by reflexivity.
  rewrite Hc.
  assert (Hq : q == q * (Zpos G # 1) * (1 # G)) by (rewrite <- Qmult_assoc, HG; ring).
  rewrite Hq at 1. apply Qmult_le_compat_r; [exact H|discriminate].
Qed.

Lemma approx_bounds (x : float) (v M E : Q) :
  approx x v M E -> 0 <= M /\ 0 <= E /\ Qabs (F2Q x) <= M + E.
Proof.
  intros (_ & HE & HM).
  pose proof (Qabs_nonneg v). pose proof (Qabs_nonneg (F2Q x - v)).
  repeat split; try lra.
  setoid_replace (F2Q x) with ((F2Q x - v) + v) using relation Qeq by ring.
  pose proof (Qabs_triangle (F2Q x - v) v). lra.
Qed.

Lemma Qabs_mul_le (a b A B : Q) :
  Qabs a <= A -> Qabs b <= B -> Qabs (a * b) <= A * B.
Proof.
  intros Ha Hb. rewrite Qabs_Qmult.
  pose proof (Qabs_nonneg a). pose proof (Qabs_nonneg b).
  set (x := Qabs a) in *. set (y := Qabs b) in *. clearbody x y. nra.
Qed.

(** The bounds of a sum, a difference and a product from those of their
    operands. *)
Lemma approx_add (x y : float) (vx vy Mx My Ex Ey : Q) :
  approx x vx Mx Ex -> approx y vy My Ey ->
  Qle_bool (Mx + My + Ex + Ey) (pow2 1000) = true ->
  approx (x + y) (vx + vy) (Mx + My) (add_error Mx Ex My Ey).
Proof.
  intros Hx Hy Hbig. apply Qle_bool_imp_le in Hbig.
  pose proof (approx_bounds _ _ _ _ Hx) as (HMx & HEx & Bx).
  pose proof (approx_bounds _ _ _ _ Hy) as (HMy & HEy & By).
  destruct Hx as (Fx & Ex' & Mx'), Hy as (Fy & Ey' & My').
  assert (Hsum : Qabs (F2Q x + F2Q y) <= Mx + My + Ex + Ey).
  { pose proof (Qabs_triangle (F2Q x) (F2Q y)). lra. }
  destruct (add_Q x y Fx Fy) as [Fz Hz]; [lra|].
  split; [exact Fz|]. split.
  - unfold add_error. eapply Qle_trans; [|apply round_up_ge].
    setoid_replace (F2Q (x + y) - (vx + vy))
      with ((F2Q (x + y) - (F2Q x + F2Q y)) + ((F2Q x - vx) + (F2Q y - vy)))
      using relation Qeq by ring.
    pose proof (Qabs_triangle (F2Q (x + y) - (F2Q x + F2Q y))
                  ((F2Q x - vx) + (F2Q y - vy))).
    pose proof (Qabs_triangle (F2Q x - vx) (F2Q y - vy)).
    assert (0 < unit_roundoff) by apply pow2_pos.
    assert (unit_roundoff * Qabs (F2Q x + F2Q y) <= unit_roundoff * (Mx + My + Ex + Ey))
      by (apply Qmult_le_l; assumption).
    lra.
  - pose proof (Qabs_triangle vx vy). lra.
Qed.

Lemma approx_sub (x y : float) (vx vy Mx My Ex Ey : Q) :
  approx x vx Mx Ex -> approx y vy My Ey ->
  Qle_bool (Mx + My + Ex + Ey) (pow2 1000) = true ->
  approx (x - y) (vx - vy) (Mx + My) (add_error Mx Ex My Ey).
Proof.
  intros Hx Hy Hbig. apply Qle_bool_imp_le in Hbig.
  pose proof (approx_bounds _ _ _ _ Hx) as (HMx & HEx & Bx).
  pose proof (approx_bounds _ _ _ _ Hy) as (HMy & HEy & By).
  destruct Hx as (Fx & Ex' & Mx'), Hy as (Fy & Ey' & My').
  assert (Hopp : forall a, Qabs (- a) <= Qabs a) by (intros a; rewrite Qabs_opp; lra).
  assert (Hsum : Qabs (F2Q x - F2Q y) <= Mx + My + Ex + Ey).
  { pose proof (Qabs_triangle (F2Q x) (- F2Q y)). pose proof (Hopp (F2Q y)).
    unfold Qminus. lra. }
  destruct (sub_Q x y Fx Fy) as [Fz Hz]; [lra|].
  split; [exact Fz|]. split.
  - unfold add_error. eapply Qle_trans; [|apply round_up_ge].
    setoid_replace (F2Q (x - y) - (vx - vy))
      with ((F2Q (x - y) - (F2Q x - F2Q y)) + ((F2Q x - vx) + - (F2Q y - vy)))
      using relation Qeq by ring.
    pose proof (Qabs_triangle (F2Q (x - y) - (F2Q x - F2Q y))
                  ((F2Q x - vx) + - (F2Q y - vy))).
    pose proof (Qabs_triangle (F2Q x - vx) (- (F2Q y - vy))).
    pose proof (Hopp (F2Q y - vy)).
    assert (0 < unit_roundoff) by apply pow2_pos.
    assert (unit_roundoff * Qabs (F2Q x - F2Q y) <= unit_roundoff * (Mx + My + Ex + Ey))
      by (apply Qmult_le_l; assumption).
    lra.
  - pose proof (Qabs_triangle vx (- vy)). pose proof (Hopp vy). unfold Qminus. lra.
Qed.

Lemma approx_mul (x y : float) (vx vy Mx My Ex Ey : Q) :
  approx x vx Mx Ex -> approx y vy My Ey ->
  Qle_bool ((Mx + Ex) * (My + Ey)) (pow2 1000) = true ->
  approx (x * y) (vx * vy) (Mx * My) (mul_error Mx Ex My Ey).
Proof.
  intros Hx Hy Hbig. apply Qle_bool_imp_le in Hbig.
  pose proof (approx_bounds _ _ _ _ Hx) as (HMx & HEx & Bx).
  pose proof (approx_bounds _ _ _ _ Hy) as (HMy & HEy & By).
  destruct Hx as (Fx & Ex' & Mx'), Hy as (Fy & Ey' & My').
  pose proof (Qabs_mul_le _ _ _ _ Bx By) as Hprod.
  destruct (mul_Q x y Fx Fy) as [Fz Hz]; [lra|].
  split; [exact Fz|]. split.
  - unfold mul_error. eapply Qle_trans; [|apply round_up_ge].
    setoid_replace (F2Q (x * y) - vx * vy)
      with ((F2Q (x * y) - F2Q x * F2Q y) +
            ((F2Q x - vx) * vy + (vx * (F2Q y - vy) + (F2Q x - vx) * (F2Q y - vy))))
      using relation Qeq by ring.
    pose proof (Qabs_triangle (F2Q (x * y) - F2Q x * F2Q y)
                  ((F2Q x - vx) * vy + (vx * (F2Q y - vy) + (F2Q x - vx) * (F2Q y - vy)))).
    pose proof (Qabs_triangle ((F2Q x - vx) * vy)
                  (vx * (F2Q y - vy) + (F2Q x - vx) * (F2Q y - vy))).
    pose proof (Qabs_triangle (vx * (F2Q y - vy)) ((F2Q x - vx) * (F2Q y - vy))).
    pose proof (Qabs_mul_le _ _ _ _ Ex' My').
    pose proof (Qabs_mul_le _ _ _ _ Mx' Ey').
    pose proof (Qabs_mul_le _ _ _ _ Ex' Ey').
    assert (0 < unit_roundoff) by apply pow2_pos.
    assert (unit_roundoff * Qabs (F2Q x * F2Q y) <= unit_roundoff * ((Mx + Ex) * (My + Ey)))
      by (apply Qmult_le_l; assumption).
    lra.
  - now apply Qabs_mul_le.
Qed.

(** A number taken as it is, and a literal read as the decimal it is
    written as. *)
Lemma approx_exact (x : float) (M : Q) :
  finite x = true -> Qabs (F2Q x) <= M -> approx x (F2Q x) M 0.
Proof.
  intros F H. split; [exact F|]. split; [|exact H].
  setoid_replace (F2Q x - F2Q x) with 0 using relation Qeq by ring.
  discriminate.
Qed.

Lemma approx_literal (x : float) (q M E : Q) :
  finite x = true -> Qle_bool (Qabs (F2Q x - q)) E = true ->
  Qle_bool (Qabs q) M = true -> approx x q M E.
Proof.
  intros F HE HM. split; [exact F|].
  split; now apply Qle_bool_imp_le.
Qed.

Lemma approx_value (x : float) (v v' M E : Q) :
  approx x v M E -> v == v' -> approx x v' M E.
Proof. intros (F & HE & HM) Hv. unfold approx. rewrite <- Hv. now split. Qed.

Lemma approx_weaken (x : float) (v M E M' E' : Q) :
  approx x v M E -> Qle_bool M M' = true -> Qle_bool E E' = true ->
  approx x v M' E'.
Proof.
  intros (F & HE & HM) H1 H2. apply Qle_bool_imp_le in H1, H2.
  split; [exact F|]. split; lra.
Qed.

(** * The estimate in binary64 against the closed form *)

Lemma within_approx (B : Q) (x : float) :
  within B x = true -> approx x (F2Q x) B 0.
Proof.
  unfold within. intros H. apply andb_true_iff in H as [F H].
  apply approx_exact; [exact F|now apply Qle_bool_imp_le].
Qed.

Lemma approx_option (b : bool) (x : float) (q : Q) :
  approx x q q 0 -> approx (if b then x else 0%float) (if b then q else 0) q 0.
Proof.
  intros H. destruct b; [exact H|].
  pose proof (approx_bounds _ _ _ _ H) as (Hq & _ & _).
  split; [reflexivity|]. split; [discriminate|exact Hq].
Qed.

Ltac approx_tree :=
  lazymatch goal with
  | |- approx (_ + _)%float _ _ _ =>
      eapply approx_add; [approx_tree|approx_tree|vm_compute; reflexivity]
  | |- approx (_ - _)%float _ _ _ =>
      eapply approx_sub; [approx_tree|approx_tree|vm_compute; reflexivity]
  | |- approx (_ * _)%float _ _ _ =>
      eapply approx_mul; [approx_tree|approx_tree|vm_compute; reflexivity]
  | |- approx (if _ then _ else _) _ _ _ =>
      eapply approx_option; approx_tree
  | |- approx ?x ?q _ _ =>
      first
        [ eassumption
        | let e := eval vm_compute in (Qred (Qabs (F2Q x - q))) in
          apply (approx_literal x q q e); vm_compute; reflexivity ]
  end.

(** The sum of the components of a record whose fields are at most 10^6
    is within 1/9000 of the closed-form subtotal. *)
Lemma componentSum_approx (d : Binary64.HouseData) :
  bounded 1000000 d = true ->
  approx (Binary64.componentSum d) (exact_subtotal d) 155601170000 (1 # 9000).
Proof.
  unfold bounded. rewrite !andb_true_iff. intros H. destruct_and!.
  repeat match goal with H : within _ _ = true |- _ => apply within_approx in H end.
  unfold Binary64.componentSum, exact_subtotal. cbn zeta.
  unfold Binary64.BASE_PRICE, Binary64.PRICE_PER_SQFT, Binary64.BEDROOM_VALUE,
    Binary64.BATHROOM_VALUE, Binary64.YEAR_MULTIPLIER, Binary64.BASE_YEAR,
    Binary64.LOT_SIZE_VALUE, Binary64.GARAGE_VALUE, Binary64.BASEMENT_VALUE,
    Binary64.CENTRAL_AIR_VALUE, Binary64.KITCHEN_QUALITY_MULTIPLIER.
  eapply approx_weaken; [approx_tree| |]; vm_compute; reflexivity.
Qed.

(** The market variation of a draw is within 1/(3 * 10^15) of
    [0.95 + r * 0.1]. *)
Lemma marketVariation_approx (r : float) :
  is_draw r = true ->
  approx (Binary64.marketVariation r) (exact_marketVariation r)
    (21 # 20) (1 # 3000000000000000).
Proof.
  unfold is_draw. rewrite !andb_true_iff. intros [[F H0] H1].
  apply Qle_bool_imp_le in H0, H1.
  assert (Hr : approx r (F2Q r) 1 0).
  { apply approx_exact; [exact F|]. rewrite Qabs_pos; assumption. }
  unfold Binary64.marketVariation, exact_marketVariation.
  eapply approx_weaken; [approx_tree| |]; vm_compute; reflexivity.
Qed.

(** The factor applied to a neighborhood that is not an inherited name is
    the binary64 number nearest to the factor of the specification's
    table, default 1.0. *)
Lemma neighborhoodFactor_approx (d : Binary64.HouseData) :
  inherited (Binary64.neighborhood d) = false ->
  approx (Binary64.ToNumber (Binary64.neighborhoodFactor d))
    (exact_neighborhoodFactor (Binary64.neighborhood d))
    (6 # 5) (1 # 4000000000000000).
Proof.
  unfold Binary64.neighborhoodFactor, Binary64.get, exact_neighborhoodFactor.
  generalize (Binary64.neighborhood d). intros k Hin. rewrite Hin.
  destruct (Binary64.neighborhoodFactors !! k) as [x|] eqn:Hk.
  - unfold Binary64.neighborhoodFactors in Hk.
    apply elem_of_list_to_map_2 in Hk.
    repeat (apply elem_of_cons in Hk as [Hk|Hk];
            [inversion Hk; subst; apply approx_literal; vm_compute; reflexivity|]).
    apply elem_of_nil in Hk. destruct Hk.
  - apply not_elem_of_list_to_map_2 in Hk.
    unfold exact_neighborhoodFactors.
    rewrite (not_elem_of_list_to_map_1 _ k) by exact Hk.
    apply approx_literal; vm_compute; reflexivity.
Qed.

(** The price before [Math.round] is within 1/2500 of the closed form. *)
Lemma unroundedPrice_approx (d : Binary64.HouseData) (r : float) :
  bounded 1000000 d = true ->
  inherited (Binary64.neighborhood d) = false ->
  is_draw r = true ->
  approx (Binary64.unroundedPrice d r) (exact_price d r)
    200000000000 (1 # 2500).
Proof.
  intros Hd Hin Hr. unfold Binary64.unroundedPrice, exact_price. cbn zeta.
  eapply approx_weaken.
  - eapply approx_mul.
    + eapply approx_mul.
      * apply componentSum_approx, Hd.
      * apply neighborhoodFactor_approx, Hin.
      * vm_compute; reflexivity.
    + apply marketVariation_approx, Hr.
    + vm_compute; reflexivity.
  - vm_compute; reflexivity.
  - vm_compute; reflexivity.
Qed.

(** ** [Math.round] *)

Lemma Qfloor_unique (q : Q) (z : Z) :
  inject_Z z <= q -> q < inject_Z (z + 1) -> Qfloor q = z.
Proof.
  intros Hlo Hhi.
  pose proof (Qfloor_le q) as H1. pose proof (Qlt_floor q) as H2.
  assert (inject_Z z < inject_Z (Qfloor q + 1)) as H3 by lra.
  assert (inject_Z (Qfloor q) < inject_Z (z + 1)) as H4 by lra.
  rewrite <- Zlt_Qlt in H3, H4. lia.
Qed.

Lemma SF2Q_opp (y : spec_float) : SF2Q (SFopp y) == - SF2Q y.
Proof.
  destruct y as [s|s| |s m e]; cbn [SFopp SF2Q]; try ring.
  rewrite !inject_Z_cond_Zopp. destruct s; cbn [negb]; ring.
Qed.

Lemma SFfinite_opp (y : spec_float) : SFfinite (SFopp y) = SFfinite y.
Proof. now destruct y. Qed.

Lemma of_uint63_Q (p : positive) :
  (Zpos p < 2 ^ 53)%Z ->
  finite (of_uint63 (Uint63.of_Z (Zpos p))) = true /\
  F2Q (of_uint63 (Uint63.of_Z (Zpos p))) == inject_Z (Zpos p).
Proof.
  intros Hp. unfold finite, F2Q.
  rewrite FloatAxioms.of_uint63_spec, Uint63.of_Z_spec.
  rewrite Z.mod_small by (change Uint63.wB with (2 ^ 63)%Z; lia).
  cbn [binary_normalize].
  pose proof (digits2_pos_le p 53 ltac:(lia) Hp) as Hd.
  destruct (binary_round_exact false p 0) as [F V].
  - unfold fexp64. lia.
  - lia.
  - split; [exact F|]. rewrite V. unfold SFvalue. cbn [cond_Zopp].
    change (pow2 0) with 1. ring.
Qed.

(** An integer below [2^53] in magnitude is a binary64 number. *)
Lemma of_Z_Q (z : Z) :
  (Z.abs z < 2 ^ 53)%Z ->
  finite (Binary64.of_Z z) = true /\ F2Q (Binary64.of_Z z) == inject_Z z.
Proof.
  intros Hz. destruct z as [|p|p]; cbn [Binary64.of_Z].
  - split; reflexivity.
  - apply of_uint63_Q. lia.
  - destruct (of_uint63_Q p ltac:(lia)) as [F V].
    unfold finite, F2Q in *. rewrite FloatAxioms.opp_spec.
    rewrite SFfinite_opp, SF2Q_opp, V. split; [exact F|].
    change (Zneg p) with (- Zpos p)%Z. now rewrite inject_Z_opp.
Qed.

Lemma round_half_up_bounds (n k : Z) :
  (0 <= k)%Z ->
  (2 * 2 ^ k * Binary64.round_half_up n k <= 2 * n + 2 ^ k
   < 2 * 2 ^ k * (Binary64.round_half_up n k + 1))%Z.
Proof.
  intros Hk. unfold Binary64.round_half_up.
  assert (Hp : (0 < 2 ^ k)%Z) by (apply Z.pow_pos_nonneg; lia).
  pose proof (Z.mul_div_le (2 * n + 2 ^ k) (2 * 2 ^ k) ltac:(lia)).
  pose proof (Z.mul_succ_div_gt (2 * n + 2 ^ k) (2 * 2 ^ k) ltac:(lia)).
  lia.
Qed.

(** [Math.round] of a finite number is [floor (x + 1/2)]. *)
Lemma Math_round_Q (x : float) :
  finite x = true ->
  finite (Binary64.Math_round x) = true /\
  F2Q (Binary64.Math_round x) == inject_Z (Qfloor (F2Q x + (1 # 2))).
Proof.
  unfold Binary64.Math_round. intros F.
  pose proof (Prim2SF_valid x) as Vx.
  unfold finite, F2Q in F |- *.
  destruct (Prim2SF x) as [s|s| |s m e] eqn:Hx; try discriminate.
  - rewrite Hx. split; reflexivity.
  - destruct (0 <=? e)%Z eqn:He.
    + apply Z.leb_le in He. rewrite Hx. split; [reflexivity|].
      cbn [SF2Q]. rewrite pow2_Z, <- inject_Z_mult by exact He.
      rewrite (Qfloor_unique _ (cond_Zopp s (Zpos m) * 2 ^ e)); [reflexivity| |].
      * lra.
      * rewrite inject_Z_plus. change (inject_Z 1) with 1. lra.
    + apply Z.leb_gt in He.
      pose proof (round_half_up_bounds (cond_Zopp s (Zpos m)) (- e) ltac:(lia))
        as [Hlo Hhi].
      set (n := cond_Zopp s (Zpos m)) in *.
      set (z := Binary64.round_half_up n (- e)) in *.
      assert (Hp : (2 <= 2 ^ (- e))%Z).
      { change 2%Z with (2 ^ 1)%Z at 1. apply Z.pow_le_mono_r; lia. }
      assert (Hn : (Z.abs n < 2 ^ 53)%Z).
      { apply valid_finite in Vx as [Cx _].
        pose proof (digits2_pos_bounds m) as [_ Hm].
        assert (Zpos (digits2_pos m) <= 53)%Z by (unfold fexp64 in Cx; lia).
        assert (2 ^ Zpos (digits2_pos m) <= 2 ^ 53)%Z
          by (apply Z.pow_le_mono_r; lia).
        unfold n. destruct s; cbn [cond_Zopp]; lia. }
      assert (Hz : (Z.abs z < 2 ^ 53)%Z).
      { change (2 ^ 53)%Z with 9007199254740992%Z in *. nia. }
      assert (Hfloor : Qfloor (SF2Q (S754_finite s m e) + (1 # 2)) = z).
      { cbn [SF2Q]. fold n.
        assert (Hpe : pow2 e * inject_Z (2 ^ (- e)) == 1).
        { rewrite <- pow2_Z by lia. rewrite <- pow2_add.
          now replace (e + - e)%Z with 0%Z by lia. }
        pose proof (pow2_pos e) as Hpos.
        assert (HP : 0 < inject_Z (2 ^ (- e))).
        { change 0 with (inject_Z 0). rewrite <- Zlt_Qlt. lia. }
        assert (Hlo' : 2 * inject_Z (2 ^ (- e)) * inject_Z z <=
                       2 * inject_Z n + inject_Z (2 ^ (- e))).
        { change 2 with (inject_Z 2).
          rewrite <- !inject_Z_mult, <- inject_Z_plus, <- Zle_Qle. exact Hlo. }
        assert (Hhi' : 2 * inject_Z n + inject_Z (2 ^ (- e)) <
                       2 * inject_Z (2 ^ (- e)) * inject_Z (z + 1)).
        { change 2 with (inject_Z 2).
          rewrite <- !inject_Z_mult, <- inject_Z_plus, <- Zlt_Qlt. exact Hhi. }
        apply Qfloor_unique;
          set (P := inject_Z (2 ^ (- e))) in *; set (p := pow2 e) in *;
          set (N := inject_Z n) in *; set (Z0' := inject_Z z) in *;
          set (Z1 := inject_Z (z + 1)) in *; clearbody P p N Z0' Z1.
        - assert (H : 2 * P * Z0' * p <= (2 * N + P) * p)
            by (apply Qmult_le_compat_r; lra).
          assert (E1 : 2 * P * Z0' * p == 2 * Z0' * (p * P)) by ring.
          assert (E2 : (2 * N + P) * p == 2 * (N * p) + p * P) by ring.
          rewrite E1, E2, Hpe in H. lra.
        - assert (H : (2 * N + P) * p < 2 * P * Z1 * p)
            by (apply Qmult_lt_compat_r; lra).
          assert (E1 : 2 * P * Z1 * p == 2 * Z1 * (p * P)) by ring.
          assert (E2 : (2 * N + P) * p == 2 * (N * p) + p * P) by ring.
          rewrite E1, E2, Hpe in H. lra. }
      rewrite Hfloor.
      destruct z as [|q|q] eqn:Hzq.
      * destruct s; split; reflexivity.
      * apply of_Z_Q. exact Hz.
      * apply of_Z_Q. exact Hz.
Qed.

(** ** The factor applied *)

(** [NaN] is absorbing for [*]. *)
Lemma mul_nan_r (x : float) : (x * nan)%float = nan.
Proof.
  apply Prim2SF_inj. rewrite FloatAxioms.mul_spec. unfold SF64mul.
  change (Prim2SF nan) with S754_nan. now destruct (Prim2SF x).
Qed.

Lemma mul_nan_l (x : float) : (nan * x)%float = nan.
Proof.
  apply Prim2SF_inj. rewrite FloatAxioms.mul_spec. unfold SF64mul.
  change (Prim2SF nan) with S754_nan. reflexivity.
Qed.

Lemma SFeqb_refl (x : spec_float) : SFfinite x = true -> SFeqb x x = true.
Proof.
  destruct x as [s|s| |s m e]; try discriminate; intros _; [reflexivity|].
  unfold SFeqb, SFcompare.
  rewrite Z.compare_refl, Pos.compare_cont_refl. now destruct s.
Qed.

Lemma finite_is_nan (x : float) : finite x = true -> is_nan x = false.
Proof.
  intros F. unfold is_nan. rewrite FloatAxioms.eqb_spec.
  now rewrite SFeqb_refl.
Qed.

(** [isNaN] holds of [NaN] alone. *)
Lemma is_nan_spec (x : float) : is_nan x = true <-> x = nan.
Proof.
  split; [|now intros ->].
  unfold is_nan. rewrite FloatAxioms.eqb_spec. intros H.
  apply Prim2SF_inj. change (Prim2SF nan) with S754_nan.
  destruct (Prim2SF x) as [s|s| |s m e]; [..|reflexivity|].
  - discriminate H.
  - now destruct s.
  - rewrite (SFeqb_refl (S754_finite s m e) eq_refl) in H. discriminate H.
Qed.

Lemma Binary64_inherited_not_own (k : string) :
  inherited k = true -> Binary64.neighborhoodFactors !! k = None.
Proof.
  unfold inherited. intros H. apply bool_decide_eq_true in H.
  unfold Object_prototype in H.
  repeat (apply elem_of_cons in H as [H|H]; [subst; vm_compute; reflexivity|]).
  apply elem_of_nil in H. destruct H.
Qed.

(** The factor read for the name of a member of [Object.prototype] is
    [NaN]. *)
Lemma Binary64_factor_inherited (d : Binary64.HouseData) :
  inherited (Binary64.neighborhood d) = true ->
  Binary64.ToNumber (Binary64.neighborhoodFactor d) = nan.
Proof.
  intros H. unfold Binary64.neighborhoodFactor, Binary64.get.
  now rewrite (Binary64_inherited_not_own _ H), H.
Qed.

(** For every other name the factor applied is the one of the
    specification's table, default 1.0. *)
Lemma Binary64_factor_spec (d : Binary64.HouseData) :
  inherited (Binary64.neighborhood d) = false ->
  Binary64.ToNumber (Binary64.neighborhoodFactor d) =
  Binary64.spec_factor (Binary64.neighborhood d).
Proof.
  unfold Binary64.neighborhoodFactor, Binary64.get, Binary64.spec_factor.
  generalize (Binary64.neighborhood d). intros k Hin. rewrite Hin.
  destruct (Binary64.neighborhoodFactors !! k) as [x|] eqn:Hk.
  - unfold Binary64.neighborhoodFactors in Hk.
    apply elem_of_list_to_map_2 in Hk.
    repeat (apply elem_of_cons in Hk as [Hk|Hk];
            [inversion Hk; subst; vm_compute; reflexivity|]).
    apply elem_of_nil in Hk. destruct Hk.
  - apply not_elem_of_list_to_map_2 in Hk.
    unfold Binary64.spec_factors.
    rewrite (not_elem_of_list_to_map_1 _ k) by exact Hk.
    reflexivity.
Qed.

(** An inherited name makes the estimate [NaN], whatever the fields and
    the draw. *)
Lemma Binary64_predictPrice_inherited (d : Binary64.HouseData) (r : float) :
  inherited (Binary64.neighborhood d) = true ->
  Binary64.predictPrice d r = nan.
Proof.
  intros H. unfold Binary64.predictPrice, Binary64.unroundedPrice. cbn zeta.
  now rewrite (Binary64_factor_inherited d H), mul_nan_r, mul_nan_l.
Qed.

Lemma Binary64_marketVariation_pinned : Binary64.marketVariation 0.5 = 1%float.
Proof. reflexivity. Qed.

(** At the draw 0.5 the estimate is the closed form of the
    specification. *)
Lemma Binary64_predictPrice_pinned (d : Binary64.HouseData) :
  inherited (Binary64.neighborhood d) = false ->
  Binary64.predictPrice d 0.5 = Binary64.spec_estimate d.
Proof.
  intros H. unfold Binary64.predictPrice, Binary64.unroundedPrice,
    Binary64.spec_estimate. cbn zeta.
  rewrite Binary64_marketVariation_pinned, mul_1_r, (Binary64_factor_spec d H).
  reflexivity.
Qed.

(** ** The pinned estimate *)

(** C1. With the market variation pinned to 1.0 (the draw 0.5) the
    estimate is [Math.round] of the closed-form subtotal times the factor of
    the specification's table, default 1.0, for every record whose
    neighborhood is not the name of a member of [Object.prototype]; the
    record of the worked example is estimated at exactly 585000. For the
    same record in the neighborhood "constructor" the closed form is 585000
    and the estimate is [NaN]. *)
Theorem predictPrice_pinned_closed_form :
  Binary64.marketVariation 0.5 = 1%float
  /\ (forall d : Binary64.HouseData,
        inherited (Binary64.neighborhood d) = false ->
        Binary64.predictPrice d 0.5 = Binary64.spec_estimate d)
  /\ Binary64.predictPrice Binary64.oakParkExample 0.5 = 585000%float
  /\ Binary64.spec_estimate Binary64.constructorExample = 585000%float
  /\ Binary64.predictPrice Binary64.constructorExample 0.5 = nan.
Proof.
  split; [reflexivity|]. split; [exact Binary64_predictPrice_pinned|].
  repeat split; vm_compute; reflexivity.
Qed.

(** The closed form is the one binary64 computes: for the worked example
    with 3150.5 square feet in Riverside the estimate and the closed form
    are 805057, where the subtotal 700050 times 1.15, over the reals, is
    805057.5 and rounds to 805058. *)
Example pinned_estimate_is_the_binary64_closed_form :
  Binary64.predictPrice Binary64.riversideExample 0.5 = 805057%float
  /\ Binary64.spec_estimate Binary64.riversideExample = 805057%float
  /\ exact_subtotal Binary64.riversideExample
     * exact_neighborhoodFactor "Riverside" == 805057.5
  /\ Qfloor (exact_subtotal Binary64.riversideExample
             * exact_neighborhoodFactor "Riverside" + (1 # 2)) = 805058%Z.
Proof. repeat split; vm_compute; reflexivity. Qed.

(** ** Linearity *)

Lemma bounded_with_field (B : Q) (f : Binary64.LinearField) (x : float)
    (d : Binary64.HouseData) :
  bounded B d = true -> within B x = true ->
  bounded B (Binary64.with_field f x d) = true.
Proof.
  unfold bounded. rewrite !andb_true_iff. intros H Hx. destruct_and!.
  destruct f; cbn; repeat split; assumption.
Qed.

Lemma exact_price_with_field (f : Binary64.LinearField) (x : float)
    (d : Binary64.HouseData) (r : float) :
  exact_price (Binary64.with_field f x d) r - exact_price d r ==
  (F2Q x - F2Q (Binary64.field f d)) * exact_coefficient f *
  exact_neighborhoodFactor (Binary64.neighborhood d) * exact_marketVariation r.
Proof.
  unfold exact_price, exact_subtotal.
  destruct f; cbn [Binary64.with_field Binary64.field exact_coefficient
    Binary64.squareFootage Binary64.bedrooms Binary64.bathrooms
    Binary64.yearBuilt Binary64.lotSize Binary64.garage Binary64.basement
    Binary64.centralAir Binary64.kitchenQuality Binary64.neighborhood]; ring.
Qed.

(** The prices of two records before [Math.round] differ as their closed
    forms do, up to the rounding of the arithmetic. *)
Lemma unroundedPrice_difference (d d' : Binary64.HouseData) (r : float) :
  bounded 1000000 d = true -> bounded 1000000 d' = true ->
  inherited (Binary64.neighborhood d) = false ->
  inherited (Binary64.neighborhood d') = false ->
  is_draw r = true ->
  finite (Binary64.unroundedPrice d r) = true /\
  finite (Binary64.unroundedPrice d' r) = true /\
  Qabs (F2Q (Binary64.unroundedPrice d' r) - F2Q (Binary64.unroundedPrice d r)
        - (exact_price d' r - exact_price d r)) <= 1 # 1000.
Proof.
  intros Hd Hd' Hin Hin' Hr.
  destruct (unroundedPrice_approx d r Hd Hin Hr) as (F & E & _).
  destruct (unroundedPrice_approx d' r Hd' Hin' Hr) as (F' & E' & _).
  split; [exact F|]. split; [exact F'|].
  apply Qabs_Qle_condition in E, E'. apply Qabs_Qle_condition.
  split; lra.
Qed.

(** C7, amended. For a record whose numeric fields are finite and at most
    10^6 in magnitude, whose neighborhood is not the name of a member of
    [Object.prototype], and a draw in [0, 1]: setting one of squareFootage,
    bedrooms, bathrooms, yearBuilt, lotSize and garage to another such
    number, everything else and the draw being kept, gives finite prices
    before rounding, and moves the price by the change of the field times
    its coefficient times the factor of the table times [0.95 + r * 0.1],
    up to 1/1000 for the rounding of the binary64 operations. *)
Theorem unroundedPrice_linear_up_to_rounding
    (f : Binary64.LinearField) (x : float) (d : Binary64.HouseData) (r : float) :
  bounded 1000000 d = true -> within 1000000 x = true ->
  inherited (Binary64.neighborhood d) = false -> is_draw r = true ->
  finite (Binary64.unroundedPrice d r) = true /\
  finite (Binary64.unroundedPrice (Binary64.with_field f x d) r) = true /\
  Qabs (F2Q (Binary64.unroundedPrice (Binary64.with_field f x d) r)
        - F2Q (Binary64.unroundedPrice d r)
        - (F2Q x - F2Q (Binary64.field f d)) * exact_coefficient f *
          exact_neighborhoodFactor (Binary64.neighborhood d) *
          exact_marketVariation r) <= 1 # 1000.
Proof.
  intros Hd Hx Hin Hr.
  pose proof (bounded_with_field _ f x d Hd Hx) as Hd'.
  destruct (unroundedPrice_difference d (Binary64.with_field f x d) r
              Hd Hd' Hin Hin Hr) as (F & F' & E).
  split; [exact F|]. split; [exact F'|].
  rewrite exact_price_with_field in E. exact E.
Qed.

Lemma unroundedPrice_linear_up_to_rounding_witness :
  finite (Binary64.unroundedPrice Binary64.downtownExample 0.75) = true /\
  finite (Binary64.unroundedPrice
            (Binary64.with_field Binary64.LotSize
               (Binary64.lotSize Binary64.largerLotExample)
               Binary64.downtownExample) 0.75) = true /\
  Qabs (F2Q (Binary64.unroundedPrice
               (Binary64.with_field Binary64.LotSize
                  (Binary64.lotSize Binary64.largerLotExample)
                  Binary64.downtownExample) 0.75)
        - F2Q (Binary64.unroundedPrice Binary64.downtownExample 0.75)
        - (F2Q (Binary64.lotSize Binary64.largerLotExample)
           - F2Q (Binary64.field Binary64.LotSize Binary64.downtownExample)) *
          exact_coefficient Binary64.LotSize *
          exact_neighborhoodFactor (Binary64.neighborhood Binary64.downtownExample) *
          exact_marketVariation 0.75) <= 1 # 1000.
Proof.
  apply (unroundedPrice_linear_up_to_rounding Binary64.LotSize
           (Binary64.lotSize Binary64.largerLotExample)
           Binary64.downtownExample 0.75); vm_compute; reflexivity.
Defined.

(** C7, as stated, fails in binary64. The worked example in Downtown on
    a lot of 0.11 acres costs 671580 before rounding for the draw 0.75; a
    hundredth of an acre more should add 0.01 * 100000 * 1.2 * 1.025 = 1230,
    and the price of the larger lot is not 672810, neither against the
    binary64 product nor against the exact one. *)
Lemma unroundedPrice_not_exactly_linear :
  Binary64.unroundedPrice Binary64.downtownExample 0.75 = 671580%float
  /\ (Binary64.unroundedPrice Binary64.downtownExample 0.75 +
      Binary64.hundredth * Binary64.coefficient Binary64.LotSize *
      Binary64.ToNumber (Binary64.neighborhoodFactor Binary64.downtownExample) *
      Binary64.marketVariation 0.75)%float
     = 672810%float
  /\ Binary64.unroundedPrice Binary64.largerLotExample 0.75 <> 672810%float
  /\ ~ F2Q (Binary64.unroundedPrice Binary64.largerLotExample 0.75)
       - F2Q (Binary64.unroundedPrice Binary64.downtownExample 0.75)
       == (F2Q (Binary64.lotSize Binary64.largerLotExample)
           - F2Q (Binary64.lotSize Binary64.downtownExample))
          * exact_coefficient Binary64.LotSize
          * exact_neighborhoodFactor "Downtown" * exact_marketVariation 0.75.
Proof.
  split; [vm_compute; reflexivity|]. split; [vm_compute; reflexivity|].
  split.
  - intros H. apply (f_equal Prim2SF) in H. vm_compute in H. discriminate H.
  - intros H. apply Qeq_eq_bool in H. vm_compute in H. discriminate H.
Qed.

(** ** The market variation *)

Lemma exact_marketVariation_range (r : float) :
  is_draw r = true -> 0.95 <= exact_marketVariation r <= 1.05.
Proof.
  unfold is_draw, exact_marketVariation. rewrite !andb_true_iff.
  intros [[_ H0] H1]. apply Qle_bool_imp_le in H0, H1. lra.
Qed.

(** [Math.round] moves a finite number by at most 1/2. *)
Lemma Math_round_near (x : float) :
  finite x = true ->
  finite (Binary64.Math_round x) = true /\
  Qabs (F2Q (Binary64.Math_round x) - F2Q x) <= 1 # 2.
Proof.
  intros F. destruct (Math_round_Q x F) as [F' V].
  split; [exact F'|]. rewrite V.
  pose proof (Qfloor_le (F2Q x + (1 # 2))).
  pose proof (Qlt_floor (F2Q x + (1 # 2))) as H1.
  rewrite inject_Z_plus in H1. change (inject_Z 1) with 1 in H1.
  apply Qabs_Qle_condition. split; lra.
Qed.

(** One call lands within 5% of the deterministic value, up to 1/2 for
    [Math.round] and 1/2500 for the arithmetic. *)
Lemma Binary64_predictPrice_near (d : Binary64.HouseData) (r : float) :
  bounded 1000000 d = true ->
  inherited (Binary64.neighborhood d) = false ->
  is_draw r = true ->
  finite (Binary64.predictPrice d r) = true /\
  Qabs (F2Q (Binary64.predictPrice d r) -
        exact_subtotal d * exact_neighborhoodFactor (Binary64.neighborhood d))
  <= (5 # 100) * Qabs (exact_subtotal d *
                       exact_neighborhoodFactor (Binary64.neighborhood d))
     + (1 # 2) + (1 # 2500).
Proof.
  intros Hd Hin Hr.
  destruct (unroundedPrice_approx d r Hd Hin Hr) as (F & E & _).
  destruct (Math_round_near _ F) as [F' R].
  pose proof (exact_marketVariation_range r Hr) as Hm.
  unfold Binary64.predictPrice. split; [exact F'|].
  unfold exact_price in E.
  set (D := exact_subtotal d * exact_neighborhoodFactor (Binary64.neighborhood d)) in *.
  set (m := exact_marketVariation r) in *.
  set (p := F2Q (Binary64.Math_round (Binary64.unroundedPrice d r))) in *.
  set (U := F2Q (Binary64.unroundedPrice d r)) in *.
  clearbody D m p U.
  apply Qabs_Qle_condition in E, R.
  assert (HD : Qabs (D * m - D) <= (5 # 100) * Qabs D).
  { setoid_replace (D * m - D) with (D * (m - 1)) using relation Qeq by ring.
    rewrite Qabs_Qmult, Qmult_comm. apply Qmult_le_compat_r; [|apply Qabs_nonneg].
    apply Qabs_Qle_condition. split; lra. }
  apply Qabs_Qle_condition in HD. apply Qabs_Qle_condition. split; lra.
Qed.

(** C8, amended. The market variation [predictPrice] applies is within
    10^-15 of [0.95 + r * 0.1], which lies in [0.95, 1.05]; at the draw 0 it
    is just below 0.95 and at the largest draw just above 1.05. Two calls on
    one record can return different results: 555750 and 599625 for the
    worked example. For a record whose numeric fields are finite and at most
    10^6 in magnitude and whose neighborhood is not the name of a member of
    [Object.prototype], every result is a finite number within 5% of the
    magnitude of the deterministic value [D], the subtotal times the factor
    of the table, up to 1/2 for [Math.round] and 1/1000 for the binary64
    operations; two results are within 10% of [|D|], up to 1 + 2/1000, of
    each other. *)
Theorem predictPrice_spread (d : Binary64.HouseData) (r1 r2 : float) :
  bounded 1000000 d = true ->
  inherited (Binary64.neighborhood d) = false ->
  is_draw r1 = true -> is_draw r2 = true ->
  (0.95 <= exact_marketVariation r1 <= 1.05 /\
   Qabs (F2Q (Binary64.marketVariation r1) - exact_marketVariation r1)
   <= 1 # 1000000000000000)
  /\ (F2Q (Binary64.marketVariation 0) < 0.95 /\
      is_draw Binary64.largestDraw = true /\
      1.05 < F2Q (Binary64.marketVariation Binary64.largestDraw))
  /\ (Binary64.predictPrice Binary64.oakParkExample 0 = 555750%float /\
      Binary64.predictPrice Binary64.oakParkExample 0.75 = 599625%float)
  /\ finite (Binary64.predictPrice d r1) = true
  /\ Qabs (F2Q (Binary64.predictPrice d r1) -
           exact_subtotal d * exact_neighborhoodFactor (Binary64.neighborhood d))
     <= (5 # 100) * Qabs (exact_subtotal d *
                          exact_neighborhoodFactor (Binary64.neighborhood d))
        + (1 # 2) + (1 # 1000)
  /\ Qabs (F2Q (Binary64.predictPrice d r1) - F2Q (Binary64.predictPrice d r2))
     <= (10 # 100) * Qabs (exact_subtotal d *
                           exact_neighborhoodFactor (Binary64.neighborhood d))
        + 1 + (2 # 1000).
Proof.
  intros Hd Hin Hr1 Hr2.
  destruct (Binary64_predictPrice_near d r1 Hd Hin Hr1) as [F1 E1].
  destruct (Binary64_predictPrice_near d r2 Hd Hin Hr2) as [F2 E2].
  destruct (marketVariation_approx r1 Hr1) as (_ & Em & _).
  split.
  { split; [exact (exact_marketVariation_range r1 Hr1)|].
    eapply Qle_trans; [exact Em|]. discriminate. }
  split; [repeat split; vm_compute; reflexivity|].
  split; [split; vm_compute; reflexivity|].
  split; [exact F1|].
  set (D := exact_subtotal d * exact_neighborhoodFactor (Binary64.neighborhood d)) in *.
  pose proof (Qabs_nonneg D) as HD.
  apply Qabs_Qle_condition in E1, E2.
  split; apply Qabs_Qle_condition; split; lra.
Qed.

Lemma predictPrice_spread_witness :
  (0.95 <= exact_marketVariation 0 <= 1.05 /\
   Qabs (F2Q (Binary64.marketVariation 0) - exact_marketVariation 0)
   <= 1 # 1000000000000000)
  /\ (F2Q (Binary64.marketVariation 0) < 0.95 /\
      is_draw Binary64.largestDraw = true /\
      1.05 < F2Q (Binary64.marketVariation Binary64.largestDraw))
  /\ (Binary64.predictPrice Binary64.oakParkExample 0 = 555750%float /\
      Binary64.predictPrice Binary64.oakParkExample 0.75 = 599625%float)
  /\ finite (Binary64.predictPrice Binary64.oakParkExample 0) = true
  /\ Qabs (F2Q (Binary64.predictPrice Binary64.oakParkExample 0) -
           exact_subtotal Binary64.oakParkExample *
           exact_neighborhoodFactor
             (Binary64.neighborhood Binary64.oakParkExample))
     <= (5 # 100) * Qabs (exact_subtotal Binary64.oakParkExample *
                          exact_neighborhoodFactor
                            (Binary64.neighborhood Binary64.oakParkExample))
        + (1 # 2) + (1 # 1000)
  /\ Qabs (F2Q (Binary64.predictPrice Binary64.oakParkExample 0) -
           F2Q (Binary64.predictPrice Binary64.oakParkExample 0.75))
     <= (10 # 100) * Qabs (exact_subtotal Binary64.oakParkExample *
                           exact_neighborhoodFactor
                             (Binary64.neighborhood Binary64.oakParkExample))
        + 1 + (2 # 1000).
Proof.
  apply (predictPrice_spread Binary64.oakParkExample 0 0.75);
    vm_compute; reflexivity.
Defined.

(** In binary64 too the draws 0 and 0.99 give the worked example the
    results 555750 and 613665, which are further apart than 5% of the
    deterministic value 585000. *)
Example Binary64_oakParkExample_spread :
  Binary64.predictPrice Binary64.oakParkExample 0 = 555750%float
  /\ Binary64.predictPrice Binary64.oakParkExample Binary64.nearlyOne
     = 613665%float.
Proof. split; vm_compute; reflexivity. Qed.

(** ** Valid records *)

Lemma exact_neighborhoodFactor_range (k : string) :
  0.9 <= exact_neighborhoodFactor k <= 1.2.
Proof.
  unfold exact_neighborhoodFactor.
  destruct (exact_neighborhoodFactors !! k) as [q|] eqn:Hk;
    [change (0.9 <= q <= 1.2)|change (0.9 <= 1.0 <= 1.2); lra].
  unfold exact_neighborhoodFactors in Hk. apply elem_of_list_to_map_2 in Hk.
  repeat (apply elem_of_cons in Hk as [Hk|Hk]; [inversion Hk; subst; lra|]).
  apply elem_of_nil in Hk. destruct Hk.
Qed.

Lemma is_positive_Q (x : float) : Binary64.is_positive x = true -> 0 < F2Q x.
Proof.
  unfold Binary64.is_positive. rewrite andb_true_iff, negb_true_iff.
  intros [_ H]. destruct (Qlt_le_dec 0 (F2Q x)) as [|Hle]; [assumption|].
  apply Qle_bool_iff in Hle. congruence.
Qed.

Lemma is_at_least_Q (lo : Q) (x : float) :
  Binary64.is_at_least lo x = true -> lo <= F2Q x.
Proof.
  unfold Binary64.is_at_least. rewrite andb_true_iff.
  intros [_ H]. now apply Qle_bool_imp_le.
Qed.

Lemma is_between_Q (lo hi : Q) (x : float) :
  Binary64.is_between lo hi x = true -> lo <= F2Q x <= hi.
Proof.
  unfold Binary64.is_between. rewrite !andb_true_iff.
  intros [[_ H1] H2]. apply Qle_bool_imp_le in H1, H2. now split.
Qed.

Lemma exact_subtotal_valid (currentYear : Z) (d : Binary64.HouseData) :
  Binary64.validHouseData currentYear d = true -> 125000 <= exact_subtotal d.
Proof.
  unfold Binary64.validHouseData. rewrite !andb_true_iff. intros H. destruct_and!.
  repeat match goal with
         | H : Binary64.is_positive _ = true |- _ => apply is_positive_Q in H
         | H : Binary64.is_between _ _ _ = true |- _ => apply is_between_Q in H
         | H : Binary64.is_at_least _ _ = true |- _ => apply is_at_least_Q in H
         end.
  unfold exact_subtotal.
  destruct (Binary64.basement d), (Binary64.centralAir d); lra.
Qed.

(** For a valid record whose numeric fields are at most 10^6, whose
    neighborhood is not the name of a member of [Object.prototype], and a
    draw in [0, 1], the estimate is a finite number whose value is a
    non-negative integer. *)
Theorem Binary64_predictPrice_nonneg_integer
    (currentYear : Z) (d : Binary64.HouseData) (r : float) :
  Binary64.validHouseData currentYear d = true ->
  bounded 1000000 d = true ->
  inherited (Binary64.neighborhood d) = false ->
  is_draw r = true ->
  finite (Binary64.predictPrice d r) = true /\
  exists z : Z, F2Q (Binary64.predictPrice d r) == inject_Z z /\ (0 <= z)%Z.
Proof.
  intros Hv Hd Hin Hr.
  destruct (unroundedPrice_approx d r Hd Hin Hr) as (F & E & _).
  destruct (Math_round_Q _ F) as [F' V].
  split; [exact F'|].
  exists (Qfloor (F2Q (Binary64.unroundedPrice d r) + (1 # 2))).
  split; [exact V|].
  pose proof (exact_subtotal_valid _ _ Hv) as HS.
  pose proof (exact_neighborhoodFactor_range (Binary64.neighborhood d)) as Hn.
  pose proof (exact_marketVariation_range r Hr) as Hm.
  unfold exact_price in E.
  set (S := exact_subtotal d) in *.
  set (n := exact_neighborhoodFactor (Binary64.neighborhood d)) in *.
  set (m := exact_marketVariation r) in *.
  assert (H1 : 112500 <= S * n) by nra.
  assert (H2 : 100000 <= S * n * m) by nra.
  apply Qabs_Qle_condition in E.
  change 0%Z with (Qfloor 0). apply Qfloor_resp_le. lra.
Qed.

Lemma Binary64_predictPrice_nonneg_integer_witness :
  finite (Binary64.predictPrice Binary64.oakParkExample 0.75) = true /\
  exists z : Z,
    F2Q (Binary64.predictPrice Binary64.oakParkExample 0.75) == inject_Z z /\
    (0 <= z)%Z.
Proof.
  apply (Binary64_predictPrice_nonneg_integer 2024 Binary64.oakParkExample 0.75);
    vm_compute; reflexivity.
Defined.

(** The estimate is [NaN] for every record whose neighborhood is the name
    of a member of [Object.prototype], whatever its fields and the draw; for
    a record of any other neighborhood whose numeric fields are finite and
    at most 10^6 in magnitude, and a draw in [0, 1], it is a finite number,
    not [NaN]. *)
Theorem Binary64_predictPrice_NaN :
  (forall (d : Binary64.HouseData) (r : float),
     inherited (Binary64.neighborhood d) = true ->
     Binary64.predictPrice d r = nan)
  /\ (forall (d : Binary64.HouseData) (r : float),
        bounded 1000000 d = true ->
        inherited (Binary64.neighborhood d) = false ->
        is_draw r = true ->
        finite (Binary64.predictPrice d r) = true /\
        Binary64.predictPrice d r <> nan).
Proof.
  split; [exact Binary64_predictPrice_inherited|].
  intros d r Hd Hin Hr.
  destruct (Binary64_predictPrice_near d r Hd Hin Hr) as [F _].
  split; [exact F|]. intros H. rewrite H in F. discriminate F.
Qed.

(** ** Monotonicity and bounds *)

Lemma exact_coefficient_at_least_100 (f : Binary64.LinearField) :
  100 <= exact_coefficient f.
Proof. destruct f; cbn [exact_coefficient]; lra. Qed.

(** Raising one of squareFootage, bedrooms, bathrooms, yearBuilt, lotSize
    and garage by a thousandth or more never lowers the estimate, the draw
    being the same: for records whose numeric fields are finite and at most
    10^6 in magnitude and whose neighborhood is not the name of a member of
    [Object.prototype]. *)
Theorem Binary64_predictPrice_monotone
    (f : Binary64.LinearField) (x : float) (d : Binary64.HouseData) (r : float) :
  bounded 1000000 d = true -> within 1000000 x = true ->
  inherited (Binary64.neighborhood d) = false -> is_draw r = true ->
  F2Q (Binary64.field f d) + (1 # 1000) <= F2Q x ->
  finite (Binary64.predictPrice d r) = true /\
  finite (Binary64.predictPrice (Binary64.with_field f x d) r) = true /\
  F2Q (Binary64.predictPrice d r)
  <= F2Q (Binary64.predictPrice (Binary64.with_field f x d) r).
Proof.
  intros Hd Hx Hin Hr Hup.
  pose proof (bounded_with_field _ f x d Hd Hx) as Hd'.
  destruct (unroundedPrice_difference d (Binary64.with_field f x d) r
              Hd Hd' Hin Hin Hr) as (F & F' & E).
  rewrite exact_price_with_field in E.
  destruct (Math_round_Q _ F) as [R V]. destruct (Math_round_Q _ F') as [R' V'].
  unfold Binary64.predictPrice. split; [exact R|]. split; [exact R'|].
  rewrite V, V'. rewrite <- Zle_Qle. apply Qfloor_resp_le.
  pose proof (exact_coefficient_at_least_100 f) as Hc.
  pose proof (exact_neighborhoodFactor_range (Binary64.neighborhood d)) as Hn.
  pose proof (exact_marketVariation_range r Hr) as Hm.
  set (delta := F2Q x - F2Q (Binary64.field f d)) in *.
  set (c := exact_coefficient f) in *.
  set (n := exact_neighborhoodFactor (Binary64.neighborhood d)) in *.
  set (m := exact_marketVariation r) in *.
  assert (Hdelta : 1 # 1000 <= delta) by (unfold delta; lra).
  assert (H1 : (1 # 10) <= delta * c) by nra.
  assert (H2 : (9 # 100) <= delta * c * n) by nra.
  assert (H3 : (8 # 100) <= delta * c * n * m) by nra.
  apply Qabs_Qle_condition in E. lra.
Qed.

Lemma Binary64_predictPrice_monotone_witness :
  finite (Binary64.predictPrice Binary64.oakParkExample 0.75) = true /\
  finite (Binary64.predictPrice
            (Binary64.with_field Binary64.SquareFootage 2100
               Binary64.oakParkExample) 0.75) = true /\
  F2Q (Binary64.predictPrice Binary64.oakParkExample 0.75)
  <= F2Q (Binary64.predictPrice
            (Binary64.with_field Binary64.SquareFootage 2100
               Binary64.oakParkExample) 0.75).
Proof.
  apply (Binary64_predictPrice_monotone Binary64.SquareFootage 2100
           Binary64.oakParkExample 0.75);
    [vm_compute; reflexivity | vm_compute; reflexivity
    | vm_compute; reflexivity | vm_compute; reflexivity
    | apply Qle_bool_imp_le; vm_compute; reflexivity ].
Defined.

(** The estimate of a record whose closed-form subtotal [s] is not
    negative lies between 85.5% and 126% of [s], up to 1/2 for [Math.round]
    and 1/1000 for the binary64 operations: the factor is at least 0.9 and
    at most 1.2, the market variation at least 0.95 and at most 1.05. *)
Theorem Binary64_predictPrice_bounds (d : Binary64.HouseData) (r : float) :
  bounded 1000000 d = true ->
  inherited (Binary64.neighborhood d) = false -> is_draw r = true ->
  0 <= exact_subtotal d ->
  finite (Binary64.predictPrice d r) = true /\
  0.855 * exact_subtotal d - (1 # 2) - (1 # 1000)
  <= F2Q (Binary64.predictPrice d r)
  <= 1.26 * exact_subtotal d + (1 # 2) + (1 # 1000).
Proof.
  intros Hd Hin Hr Hs.
  destruct (unroundedPrice_approx d r Hd Hin Hr) as (F & E & _).
  destruct (Math_round_near _ F) as [F' R].
  unfold Binary64.predictPrice. split; [exact F'|].
  pose proof (exact_neighborhoodFactor_range (Binary64.neighborhood d)) as Hn.
  pose proof (exact_marketVariation_range r Hr) as Hm.
  unfold exact_price in E.
  set (S := exact_subtotal d) in *.
  set (n := exact_neighborhoodFactor (Binary64.neighborhood d)) in *.
  set (m := exact_marketVariation r) in *.
  assert (B1 : 0.9 * S <= S * n <= 1.2 * S) by (split; nra).
  assert (B2 : 0.95 * (S * n) <= S * n * m <= 1.05 * (S * n)) by (split; nra).
  apply Qabs_Qle_condition in E, R. split; lra.
Qed.

Lemma Binary64_predictPrice_bounds_witness :
  finite (Binary64.predictPrice Binary64.oakParkExample 0.75) = true /\
  0.855 * exact_subtotal Binary64.oakParkExample - (1 # 2) - (1 # 1000)
  <= F2Q (Binary64.predictPrice Binary64.oakParkExample 0.75)
  <= 1.26 * exact_subtotal Binary64.oakParkExample + (1 # 2) + (1 # 1000).
Proof.
  apply (Binary64_predictPrice_bounds Binary64.oakParkExample 0.75);
    [vm_compute; reflexivity | vm_compute; reflexivity
    | vm_compute; reflexivity
    | apply Qle_bool_imp_le; vm_compute; reflexivity ].
Defined.

(** ** The features *)

Lemma exact_price_with_basement (d : Binary64.HouseData) (r : float) :
  exact_price (Binary64.with_basement true d) r -
  exact_price (Binary64.with_basement false d) r ==
  20000 * exact_neighborhoodFactor (Binary64.neighborhood d) *
  exact_marketVariation r.
Proof. unfold exact_price, exact_subtotal. cbn. ring. Qed.

Lemma exact_price_with_centralAir (d : Binary64.HouseData) (r : float) :
  exact_price (Binary64.with_centralAir true d) r -
  exact_price (Binary64.with_centralAir false d) r ==
  15000 * exact_neighborhoodFactor (Binary64.neighborhood d) *
  exact_marketVariation r.
Proof. unfold exact_price, exact_subtotal. cbn. ring. Qed.

(** A basement adds 20000, and central air 15000, times the factor of the
    table and [0.95 + r * 0.1], to the price before [Math.round], up to
    1/1000 for the rounding of the binary64 operations: for records whose
    numeric fields are finite and at most 10^6 in magnitude, whose
    neighborhood is not the name of a member of [Object.prototype], and a
    draw in [0, 1]. *)
Theorem unroundedPrice_features (d : Binary64.HouseData) (r : float) :
  bounded 1000000 d = true ->
  inherited (Binary64.neighborhood d) = false ->
  is_draw r = true ->
  Qabs (F2Q (Binary64.unroundedPrice (Binary64.with_basement true d) r)
        - F2Q (Binary64.unroundedPrice (Binary64.with_basement false d) r)
        - 20000 * exact_neighborhoodFactor (Binary64.neighborhood d) *
          exact_marketVariation r) <= 1 # 1000
  /\ Qabs (F2Q (Binary64.unroundedPrice (Binary64.with_centralAir true d) r)
           - F2Q (Binary64.unroundedPrice (Binary64.with_centralAir false d) r)
           - 15000 * exact_neighborhoodFactor (Binary64.neighborhood d) *
             exact_marketVariation r) <= 1 # 1000.
Proof.
  intros Hd Hin Hr. split.
  - destruct (unroundedPrice_difference (Binary64.with_basement false d)
                (Binary64.with_basement true d) r Hd Hd Hin Hin Hr) as (_ & _ & E).
    rewrite exact_price_with_basement in E. exact E.
  - destruct (unroundedPrice_difference (Binary64.with_centralAir false d)
                (Binary64.with_centralAir true d) r Hd Hd Hin Hin Hr) as (_ & _ & E).
    rewrite exact_price_with_centralAir in E. exact E.
Qed.


Lemma unroundedPrice_features_witness :
  Qabs (F2Q (Binary64.unroundedPrice
               (Binary64.with_basement true Binary64.oakParkExample) 0.75)
        - F2Q (Binary64.unroundedPrice
                 (Binary64.with_basement false Binary64.oakParkExample) 0.75)
        - 20000 * exact_neighborhoodFactor
                    (Binary64.neighborhood Binary64.oakParkExample) *
          exact_marketVariation 0.75) <= 1 # 1000
  /\ Qabs (F2Q (Binary64.unroundedPrice
                  (Binary64.with_centralAir true Binary64.oakParkExample) 0.75)
           - F2Q (Binary64.unroundedPrice
                    (Binary64.with_centralAir false Binary64.oakParkExample) 0.75)
           - 15000 * exact_neighborhoodFactor
                       (Binary64.neighborhood Binary64.oakParkExample) *
             exact_marketVariation 0.75) <= 1 # 1000.
Proof.
  apply (unroundedPrice_features Binary64.oakParkExample 0.75);
    vm_compute; reflexivity.
Defined.

(** * [formatPrice] *)

(** C10. [formatPrice] never throws; for [NaN] it returns "$0"; for every
    other number, the infinities included, it returns what the platform's
    [Intl.NumberFormat] for the locale en-US, with the style currency, the
    currency USD and no fraction digits, makes of it. *)
Theorem formatPrice_formats_US_dollars
    (Intl_NumberFormat_format : string -> NumberFormatOptions -> float -> string)
    (price : float) (w : World) :
  ~ throws (formatPrice Intl_NumberFormat_format price) w
  /\ (price = nan ->
      result (formatPrice Intl_NumberFormat_format price) w = Some "$0"%string)
  /\ (price <> nan ->
      result (formatPrice Intl_NumberFormat_format price) w
      = Some (Intl_NumberFormat_format "en-US"
                {| style := "currency";
                   currency := "USD";
                   minimumFractionDigits := 0;
                   maximumFractionDigits := 0 |}
                price)).
Proof.
  unfold throws, result, formatPrice.
  destruct (is_nan price) eqn:E; run.
  - split; [intros []|]. split; [reflexivity|].
    intros H. apply is_nan_spec in E. contradiction.
  - split; [intros []|]. split; [|reflexivity].
    intros ->. discriminate E.
Qed.

(** [formatPrice] applied to an estimate. For a record whose neighborhood
    is the name of a member of [Object.prototype] the estimate is [NaN]: it
    is shown as "$0", with a warning on the console. For a record of any
    other neighborhood whose numeric fields are finite and at most 10^6 in
    magnitude, and a draw in [0, 1], the formatter is given the estimate and
    nothing is written. *)
Theorem formatPrice_of_estimate
    (Intl_NumberFormat_format : string -> NumberFormatOptions -> float -> string)
    (d : Binary64.HouseData) (r : float) (w : World) :
  (inherited (Binary64.neighborhood d) = true ->
   (formatPrice Intl_NumberFormat_format (Binary64.predictPrice d r) w).2
   = Returned "$0"%string
   /\ console (formatPrice Intl_NumberFormat_format (Binary64.predictPrice d r) w).1
      = console w ++ [(Warn, "Attempted to format non-numeric price:"%string)])
  /\ (bounded 1000000 d = true ->
      inherited (Binary64.neighborhood d) = false ->
      is_draw r = true ->
      formatPrice Intl_NumberFormat_format (Binary64.predictPrice d r) w
      = (w, Returned (Intl_NumberFormat_format "en-US"
                        {| style := "currency";
                           currency := "USD";
                           minimumFractionDigits := 0;
                           maximumFractionDigits := 0 |}
                        (Binary64.predictPrice d r)))).
Proof.
  split.
  - intros Hin. rewrite (Binary64_predictPrice_inherited d r Hin).
    unfold formatPrice. run. split; reflexivity.
  - intros Hd Hin Hr.
    destruct (Binary64_predictPrice_near d r Hd Hin Hr) as [F _].
    unfold formatPrice. rewrite (finite_is_nan _ F). reflexivity.
Qed.
